(** * Location checks of HDX resources: a shallow embedding of
      [check_location.py]

    The development follows the source file top to bottom: the regular
    expressions the code matches with, the data frames it reads, the header
    normaliser [parse_tabular], the two classifiers [check_pcoded] and
    [check_latlong], and the orchestrator [check_location] together with
    [download_resource] and [read_downloaded_data].

    Text is ASCII text ([string]).  A Python exception is an explicit
    [Raise]; the file system, the catalog and the pandas readers are oracles
    gathered in a [world] record. *)

From Stdlib Require Import List String Ascii Bool Arith ZArith Lia DecimalString.
Import ListNotations.
Open Scope string_scope.
Open Scope nat_scope.

Set Implicit Arguments.

(* ================================================================== *)
(** * Python text helpers *)
(* ================================================================== *)

Module Py.

(** [c.lower()] on ASCII letters. *)
Definition lower (c : ascii) : ascii :=
  let n := nat_of_ascii c in
  if (65 <=? n) && (n <=? 90) then ascii_of_nat (n + 32) else c.

(** [s.split("||")]: left to right, separators do not overlap. *)
Fixpoint split_bars_from (acc : string) (s : string) : list string :=
  match s with
  | EmptyString => [acc]
  | String "|" (String "|" rest) => acc :: split_bars_from "" rest
  | String c rest => split_bars_from (acc ++ String c "") rest
  end.

Definition split_bars (s : string) : list string := split_bars_from "" s.

(** ["||".join(parts)]. *)
Definition join_bars (parts : list string) : string := String.concat "||" parts.

(** [pat in s] on strings. *)
Fixpoint contains (pat s : string) : bool :=
  String.prefix pat s ||
  match s with
  | EmptyString => false
  | String _ s' => contains pat s'
  end.

(** [str(i)] for a non-negative integer. *)
Definition str_of_nat (i : nat) : string := NilZero.string_of_uint (Nat.to_uint i).

(** ** [os.path] on POSIX paths *)

Definition startswith_sep (s : string) : bool :=
  match s with
  | String "/" _ => true
  | _ => false
  end.

Fixpoint endswith_sep (s : string) : bool :=
  match s with
  | EmptyString => false
  | String c EmptyString => Ascii.eqb c "/"
  | String _ s' => endswith_sep s'
  end.

(** [os.path.join(a, b)] *)
Definition join (a b : string) : string :=
  if startswith_sep b then b
  else if (a =? "")%string || endswith_sep a then a ++ b
  else a ++ "/" ++ b.

(** [os.path.basename(p)]: what follows the last separator. *)
Fixpoint basename_from (acc : string) (s : string) : string :=
  match s with
  | EmptyString => acc
  | String "/" rest => basename_from "" rest
  | String c rest => basename_from (acc ++ String c "") rest
  end.

Definition basename (p : string) : string := basename_from "" p.

Fixpoint drop_while_not_sep (l : list ascii) : list ascii :=
  match l with
  | [] => []
  | c :: l' => if Ascii.eqb c "/" then l else drop_while_not_sep l'
  end.

Fixpoint drop_while_sep (l : list ascii) : list ascii :=
  match l with
  | [] => []
  | c :: l' => if Ascii.eqb c "/" then drop_while_sep l' else l
  end.

(** [os.path.dirname(p)]: the head up to the last separator, its trailing
    separators stripped unless it holds nothing else. *)
Definition dirname (p : string) : string :=
  let head := drop_while_not_sep (rev (list_ascii_of_string p)) in
  let head :=
    match drop_while_sep head with
    | [] => head
    | stripped => stripped
    end in
  string_of_list_ascii (rev head).

(** [x in xs] on a list of strings. *)
Definition mem (x : string) (xs : list string) : bool :=
  existsb (String.eqb x) xs.

(** A call returns a value or raises.  No handler of the code looks at the
    kind of the exception (every [except:] is bare), so neither does the
    model. *)
Inductive result (A : Type) : Type :=
| Ok (a : A)
| Raise.
Arguments Ok {A} a.
Arguments Raise {A}.

Definition bind {A B} (m : result A) (k : A -> result B) : result B :=
  match m with
  | Ok a => k a
  | Raise => Raise
  end.

(** Truth value of a verdict that is [None], [True] or [False]. *)
Definition truthy (v : option bool) : bool :=
  match v with
  | Some true => true
  | _ => false
  end.

End Py.

(* ================================================================== *)
(** * Regular expressions and [re.match] *)
(* ================================================================== *)

Module Re.

Inductive regex : Type :=
| Nul
| Eps
| Cls (p : ascii -> bool)
| Cat (a b : regex)
| Alt (a b : regex)
| Star (a : regex).

(** The words of a pattern. *)
Inductive lang : regex -> string -> Prop :=
| L_eps : lang Eps ""
| L_cls p c : p c = true -> lang (Cls p) (String c "")
| L_cat a b u v : lang a u -> lang b v -> lang (Cat a b) (u ++ v)
| L_alt_l a b u : lang a u -> lang (Alt a b) u
| L_alt_r a b u : lang b u -> lang (Alt a b) u
| L_star_nil a : lang (Star a) ""
| L_star_cons a u v : lang a u -> lang (Star a) v -> lang (Star a) (u ++ v).

Fixpoint nullable (r : regex) : bool :=
  match r with
  | Nul => false
  | Eps => true
  | Cls _ => false
  | Cat a b => nullable a && nullable b
  | Alt a b => nullable a || nullable b
  | Star _ => true
  end.

Fixpoint deriv (c : ascii) (r : regex) : regex :=
  match r with
  | Nul => Nul
  | Eps => Nul
  | Cls p => if p c then Eps else Nul
  | Cat a b =>
      if nullable a then Alt (Cat (deriv c a) b) (deriv c b)
      else Cat (deriv c a) b
  | Alt a b => Alt (deriv c a) (deriv c b)
  | Star a => Cat (deriv c a) (Star a)
  end.

(** [bool(re.match(r, s))]: some prefix of [s] is a word of [r]. *)
Fixpoint re_match (r : regex) (s : string) : bool :=
  nullable r ||
  match s with
  | EmptyString => false
  | String c s' => re_match (deriv c r) s'
  end.

(** ** Pattern syntax *)

Definition opt (r : regex) : regex := Alt r Eps.

Definition seq_re (rs : list regex) : regex := fold_right Cat Eps rs.

(** [a|b|...]; the empty alternation is the empty pattern. *)
Fixpoint alt_re (rs : list regex) : regex :=
  match rs with
  | [] => Eps
  | [r] => r
  | r :: rs' => Alt r (alt_re rs')
  end.

(** A literal character, with or without [re.IGNORECASE]. *)
Definition chr (ignorecase : bool) (c : ascii) : regex :=
  if ignorecase
  then Cls (fun x => Ascii.eqb (Py.lower x) (Py.lower c))
  else Cls (Ascii.eqb c).

Fixpoint lit (ignorecase : bool) (s : string) : regex :=
  match s with
  | EmptyString => Eps
  | String c s' => Cat (chr ignorecase c) (lit ignorecase s')
  end.

(** [.]: any character but a newline. *)
Definition dot : regex := Cls (fun x => negb (Ascii.eqb x "010")).

(** [\s] *)
Definition ws : regex :=
  Cls (fun x => let n := nat_of_ascii x in
                ((9 <=? n) && (n <=? 13)) || ((28 <=? n) && (n <=? 32))).

(** [\d] *)
Definition digit : regex :=
  Cls (fun x => let n := nat_of_ascii x in (48 <=? n) && (n <=? 57)).

End Re.

(* ================================================================== *)
(** * Data frames *)
(* ================================================================== *)

Module Frame.

Import Py Re.

(** Column types, as [df.dtypes] and [select_dtypes] tell them apart. *)
Inductive dtype := DObject | DString | DInt | DFloat | DBool | DDatetime.

(** What pandas' type inference tells apart in a value that is not text,
    among the values the readers put into a column: integers, floats,
    booleans, datetimes, times of day, durations, and any other object. *)
Inductive kind :=
| KInteger | KFloating | KBoolean | KDatetime | KTime | KTimedelta | KOther.

(** A cell is a Python object.  The code observes a cell that is not text
    through [isna], its truth value and [str()], and the [.str] accessor
    of a column through the kind of its values. *)
Inductive cell :=
| Str (s : string)
| Obj (k : kind) (repr : string) (truth : bool) (na : bool).

(** [float("nan")], the missing value of the readers: truthy, printed
    [nan]. *)
Definition NaN : cell := Obj KFloating "nan" true true.

Definition isna (x : cell) : bool :=
  match x with
  | Str _ => false
  | Obj _ _ _ na => na
  end.

Definition notna (x : cell) : bool := negb (isna x).

Definition py_str (x : cell) : string :=
  match x with
  | Str s => s
  | Obj _ r _ _ => r
  end.

Definition py_bool (x : cell) : bool :=
  match x with
  | Str s => negb (s =? "")%string
  | Obj _ _ t _ => t
  end.

Definition is_str (x : cell) : bool :=
  match x with
  | Str _ => true
  | Obj _ _ _ _ => false
  end.

(** A column: its label (already text: [str(c)] leaves it as it is), its
    dtype and its cells, top to bottom. *)
Record column := mkColumn {
  label : string;
  dtype_of : dtype;
  cells : list cell
}.

Definition with_label (l : string) (c : column) : column :=
  mkColumn l (dtype_of c) (cells c).

Definition with_cells (xs : list cell) (c : column) : column :=
  mkColumn (label c) (dtype_of c) xs.

(** A frame is the list of its columns, left to right. *)
Definition frame := list column.

Definition columns (df : frame) : list string := map label df.

(** [len(df)] *)
Definition nrows (df : frame) : nat :=
  match df with
  | [] => 0
  | c :: _ => List.length (cells c)
  end.

(** [df.loc[i]] on a frame indexed [0 .. len(df) - 1]. *)
Definition row (df : frame) (i : nat) : list cell :=
  map (fun c => nth i (cells c) NaN) df.

Definition loc (df : frame) (i : nat) : result (list cell) :=
  if i <? nrows df then Ok (row df i) else Raise.

Fixpoint select_rows (keep : nat -> bool) (i : nat) (xs : list cell) : list cell :=
  match xs with
  | [] => []
  | x :: xs' =>
      if keep i then x :: select_rows keep (S i) xs'
      else select_rows keep (S i) xs'
  end.

(** [df.dropna(how="all", axis=0)] *)
Definition dropna_rows (df : frame) : frame :=
  let keep i := existsb notna (row df i) in
  map (fun c => with_cells (select_rows keep 0 (cells c)) c) df.

(** [df.dropna(how="all", axis=1)] *)
Definition dropna_cols (df : frame) : frame :=
  filter (fun c => existsb notna (cells c)) df.

(** [df.drop(index=range(k)).reset_index(drop=True)] *)
Definition drop_rows (k : nat) (df : frame) : frame :=
  map (fun c => with_cells (skipn k (cells c)) c) df.

(** [df.columns = labels] *)
Definition set_columns (labels : list string) (df : frame) : frame :=
  map (fun lc => with_label (fst lc) (snd lc)) (combine labels df).

(** What [df[h]] is: a series when one column bears the label, a frame
    when several do. *)
Inductive selection :=
| Series (c : column)
| SubFrame (cs : list column).

Definition getitem (df : frame) (h : string) : selection :=
  match filter (fun c => (label c =? h)%string) df with
  | [c] => Series c
  | cs => SubFrame cs
  end.

(** The values [for col in df[h][:k]] runs over: the first [k] cells of a
    series, the labels of a frame. *)
Definition iter_head (df : frame) (h : string) (k : nat) : list cell :=
  match getitem df h with
  | Series c => firstn k (cells c)
  | SubFrame cs => map (fun c => Str (label c)) cs
  end.

(** [df.select_dtypes(include=["string", "object"])] *)
Definition is_text_dtype (d : dtype) : bool :=
  match d with
  | DObject | DString => true
  | _ => false
  end.

Definition select_text (df : frame) : frame :=
  filter (fun c => is_text_dtype (dtype_of c)) df.

Definition is_object (d : dtype) : bool :=
  match d with
  | DObject => true
  | _ => false
  end.

End Frame.

(* ================================================================== *)
(** * [parse_tabular] *)
(* ================================================================== *)

Module Normalizer.

Import Py Re Frame.

(** ["Unnamed.*"] *)
Definition unnamed_exp : regex := Cat (lit false "Unnamed") (Star dot).

(** ["#.*"] *)
Definition hxl_exp : regex := Cat (chr false "#") (Star dot).

(** [not hxlrow]: [None] and [0] are both false in Python. *)
Definition not_row (hxlrow : option nat) : bool :=
  match hxlrow with
  | Some (S _) => false
  | _ => true
  end.

(** [bool(re.match("#.*", t)) if t else True] on [t = str(cell)]. *)
Definition hxltag (x : cell) : bool :=
  let t := py_str x in
  if (t =? "")%string then true else re_match hxl_exp t.

(** The [while i < 10 and i < len(df) and not hxlrow] loop, [todo] being
    the values [i] has still to take. *)
Fixpoint scan_hxl (df : frame) (todo : list nat) (hxlrow : option nat) : option nat :=
  match todo with
  | [] => hxlrow
  | i :: todo' =>
      if not_row hxlrow
      then scan_hxl df todo' (if forallb hxltag (row df i) then Some i else hxlrow)
      else hxlrow
  end.

Definition find_hxlrow (df : frame) : option nat :=
  scan_hxl df (seq 0 (Nat.min 10 (nrows df))) None.

(** ["||".join(cols)] raises on an item that is not text. *)
Fixpoint join_items (cols : list cell) : result (list string) :=
  match cols with
  | [] => Ok []
  | Str s :: cols' => bind (join_items cols') (fun r => Ok (s :: r))
  | Obj _ _ _ _ :: _ => Raise
  end.

Definition join_cells (cols : list cell) : result string :=
  bind (join_items cols) (fun parts => Ok (join_bars parts)).

(** The label of column [c] in the tag-row branch (lines 111-114). *)
Definition hxl_label (df : frame) (hxlrow : nat) (c : string) : result string :=
  let cols := filter py_bool (iter_head df c (hxlrow + 1)) in
  let cols := if negb (contains "Unnamed" c) then Str c :: cols else cols in
  join_cells cols.

(** The label of column [c] in the composite-header branch (lines 127-130). *)
Definition composite_label (df : frame) (datarow : nat) (c : string) : string :=
  let cols := map py_str (filter py_bool (iter_head df c datarow)) in
  let cols := if negb (contains "Unnamed" c) then c :: cols else cols in
  join_bars cols.

Fixpoint map_result {A B} (f : A -> result B) (l : list A) : result (list B) :=
  match l with
  | [] => Ok []
  | a :: l' => bind (f a) (fun b => bind (map_result f l') (fun bs => Ok (b :: bs)))
  end.

Fixpoint enumerate_from {A} (i : nat) (l : list A) : list (nat * A) :=
  match l with
  | [] => []
  | a :: l' => (i, a) :: enumerate_from (S i) l'
  end.

(** Lines 94-96: a header of placeholders only makes row 0 the header. *)
Definition promote_first_row (df : frame) : result frame :=
  if forallb (fun c => re_match unnamed_exp c) (columns df)
  then
    bind (loc df 0) (fun row0 =>
      let labels :=
        map (fun ic => if negb (isna (snd ic)) then py_str (snd ic)
                       else "Unnamed: " ++ str_of_nat (fst ic))
            (enumerate_from 0 row0) in
      Ok (drop_rows 1 (set_columns labels df)))
  else Ok df.

Definition parse_tabular (df : frame) (fileext : string) : result frame :=
  let df := dropna_cols (dropna_rows df) in
  bind (promote_first_row df) (fun df =>
  if negb (forallb (fun c => is_object (dtype_of c)) df) then Ok df
  else if nrows df =? 1 then Ok df
  else
    let hxlrow := find_hxlrow df in
    match hxlrow with
    | Some (S h) =>
        let hxlrow := S h in
        bind (map_result (hxl_label df hxlrow) (columns df)) (fun labels =>
        Ok (drop_rows (hxlrow + 1) (set_columns labels df)))
    | _ =>
        if (fileext =? "csv")%string && not_row hxlrow then Ok df
        else
          let datarow := 3 in
          let datarow := match hxlrow with Some (S h) => S h + 1 | _ => datarow end in
          let datarow := if nrows df <? 3 then nrows df else datarow in
          let labels := map (composite_label df datarow) (columns df) in
          Ok (drop_rows datarow (set_columns labels df))
    end).

End Normalizer.

(* ================================================================== *)
(** * [check_pcoded] and [check_latlong] *)
(* ================================================================== *)

Module Classifier.

Import Py Re Frame.

(** The samples of a resource: a Python [dict] from fresh identifiers to
    frames, in insertion order. *)
Definition dict := list (string * frame).

(** [data[key] = df] *)
Fixpoint dict_set (key : string) (df : frame) (data : dict) : dict :=
  match data with
  | [] => [(key, df)]
  | (k, v) :: data' =>
      if (k =? key)%string then (k, df) :: data'
      else (k, v) :: dict_set key df data'
  end.

(** [header_exp] under [re.IGNORECASE], token by token: either
    [(adm)?  .*  p?  .?  cod  .*]  or
    [#  \s?  adm  \s?  \d?  \+?  \s?  p?  (code)?]. *)
Definition header_exp : regex :=
  Alt (seq_re [opt (lit true "adm"); Star dot; opt (chr true "p"); opt dot;
               lit true "cod"; Star dot])
      (seq_re [chr true "#"; opt ws; lit true "adm"; opt ws; opt digit;
               opt (chr true "+"); opt ws; opt (chr true "p");
               opt (lit true "code")]).

(** [lat_header_exp] under [re.IGNORECASE], four alternatives:
    [.*  latitud  e?  .*],  [lat],  [(point .?)?  y],
    [#  \s?  geo  \s?  \+  \s?  lat]. *)
Definition lat_header_exp : regex :=
  alt_re [seq_re [Star dot; lit true "latitud"; opt (chr true "e"); Star dot];
          lit true "lat";
          seq_re [opt (seq_re [lit true "point"; opt dot]); chr true "y"];
          seq_re [chr true "#"; opt ws; lit true "geo"; opt ws; chr true "+";
                  opt ws; lit true "lat"]].

(** [lon_header_exp] under [re.IGNORECASE], four alternatives:
    [.*  longitud  e?  .*],  [lon (g)?],  [(point .?)?  x],
    [#  \s?  geo  \s?  \+  \s?  lon]. *)
Definition lon_header_exp : regex :=
  alt_re [seq_re [Star dot; lit true "longitud"; opt (chr true "e"); Star dot];
          seq_re [lit true "lon"; opt (chr true "g")];
          seq_re [opt (seq_re [lit true "point"; opt dot]); chr true "x"];
          seq_re [chr true "#"; opt ws; lit true "geo"; opt ws; chr true "+";
                  opt ws; lit true "lon"]].

(** [(len(column) - matches) <= 5 and matches > 0] *)
Definition tolerated (len matches : nat) : bool :=
  (Z.of_nat len - Z.of_nat matches <=? 5)%Z && (0 <? matches).

(** [column.str.match(r, case=False)] on one cell of an object column:
    NaN on a cell that is not text. *)
Definition str_match (r : regex) (x : cell) : option bool :=
  match x with
  | Str s => Some (re_match r s)
  | Obj _ _ _ _ => None
  end.

(** Two kinds that type inference gives one name: integers and floats
    are numbers together, every other kind stands alone, and an object of
    no named type shares a name with nothing. *)
Definition same_family (a b : kind) : bool :=
  match a, b with
  | KInteger, KInteger | KInteger, KFloating
  | KFloating, KInteger | KFloating, KFloating => true
  | KBoolean, KBoolean => true
  | KDatetime, KDatetime => true
  | KTime, KTime => true
  | KTimedelta, KTimedelta => true
  | _, _ => false
  end.

(** [column.str] on a column without missing values raises
    ([AttributeError]: the accessor is for string values) when type
    inference names one type that is not text: numbers only, booleans
    only, datetimes only, and so on.  It is granted on no value at all,
    on text, and on a mixture. *)
Definition str_refused (column : list cell) : bool :=
  match column with
  | Obj k _ _ _ :: _ =>
      forallb (fun x => match x with
                        | Obj k' _ _ _ => same_family k k'
                        | Str _ => false
                        end) column
  | _ => false
  end.

(** [sum(...)] of booleans and NaN: NaN ([None]) as soon as one item is. *)
Fixpoint py_sum (l : list (option bool)) : option nat :=
  match l with
  | [] => Some 0
  | Some b :: l' => option_map (Nat.add (if b then 1 else 0)) (py_sum l')
  | None :: _ => None
  end.

Section Reference.

(** The ISO3 and ISO2 codes of [Country.countriesdata()], plain letters,
    and the compiled patterns of [hxl.geo]. *)
Variables iso3s iso2s : list string.
Variables LAT_PATTERNS LON_PATTERNS : list regex.

(** ["(" + "|".join(iso3s+iso2s) + ")" + "\d{1,}"], [case=False] *)
Definition pcode_exp : regex :=
  Cat (alt_re (map (lit true) (iso3s ++ iso2s))) (Cat digit (Star digit)).

(** The loop over [content.columns] (lines 148-158). *)
Fixpoint pcoded_columns (content : frame) (hs : list string) (pcoded : option bool)
  : result (option bool) :=
  match hs with
  | [] => Ok pcoded
  | h :: hs' =>
      if truthy pcoded then Ok pcoded
      else
        let headers := split_bars h in
        let pcoded_header := existsb (re_match header_exp) headers in
        if negb pcoded_header then pcoded_columns content hs' pcoded
        else
          match getitem content h with
          | SubFrame _ => Raise
          | Series s =>
              let column := filter notna (cells s) in
              if str_refused column then Raise
              else
                let pcoded :=
                  match py_sum (map (str_match pcode_exp) column) with
                  | Some matches =>
                      if tolerated (List.length column) matches then Some true
                      else pcoded
                  | None => pcoded
                  end in
                pcoded_columns content hs' pcoded
          end
  end.

(** The loop over [contents] (lines 143-147). *)
Fixpoint pcoded_samples (contents : dict) (pcoded : option bool)
  : result (option bool) :=
  match contents with
  | [] => Ok pcoded
  | (_, content) :: contents' =>
      if truthy pcoded then Ok pcoded
      else
        let content := select_text content in
        bind (pcoded_columns content (columns content) pcoded)
             (fun pcoded => pcoded_samples contents' pcoded)
  end.

Definition check_pcoded (contents : dict) : result (option bool) :=
  pcoded_samples contents None.

(** [sum(concat([column.str.match(p, case=False) for p in pats],
    axis=1).any(axis=1))]; [concat] raises on no pattern at all. *)
Definition count_any (pats : list regex) (column : list string) : result nat :=
  match pats with
  | [] => Raise
  | _ => Ok (List.length (filter (fun v => existsb (fun p => re_match p v) pats) column))
  end.

(** One role of lines 182-191: the flag after the test of [column]. *)
Definition role_check (is_header : bool) (pats : list regex)
           (column : list string) (flag : option bool) : result (option bool) :=
  if is_header
  then bind (count_any pats column) (fun matches =>
         Ok (if tolerated (List.length column) matches then Some true else flag))
  else Ok flag.

(** The loop over [content.columns] (lines 173-194). *)
Fixpoint latlong_columns (content : frame) (hs : list string)
         (latted longed latlonged : option bool) : result (option bool) :=
  match hs with
  | [] => Ok latlonged
  | h :: hs' =>
      if truthy latlonged then Ok latlonged
      else
        let headers := split_bars h in
        let lat_header := existsb (re_match lat_header_exp) headers in
        let lon_header := existsb (re_match lon_header_exp) headers in
        if negb lat_header && negb lon_header
        then latlong_columns content hs' latted longed latlonged
        else
          match getitem content h with
          | SubFrame _ => Raise
          | Series s =>
              let column := map py_str (filter notna (cells s)) in
              bind (role_check lat_header LAT_PATTERNS column latted) (fun latted =>
              bind (role_check lon_header LON_PATTERNS column longed) (fun longed =>
              let latlonged :=
                if truthy latted && truthy longed then Some true else latlonged in
              latlong_columns content hs' latted longed latlonged))
          end
  end.

(** The loop over [contents] (lines 167-172). *)
Fixpoint latlong_samples (contents : dict) (latlonged : option bool)
  : result (option bool) :=
  match contents with
  | [] => Ok latlonged
  | (_, content) :: contents' =>
      if truthy latlonged then Ok latlonged
      else
        bind (latlong_columns content (columns content) None None latlonged)
             (fun latlonged => latlong_samples contents' latlonged)
  end.

Definition check_latlong (contents : dict) : result (option bool) :=
  latlong_samples contents None.

End Reference.

End Classifier.

(* ================================================================== *)
(** * The environment and its effects *)
(* ================================================================== *)

Module Env.

Import Py Re Frame Classifier.

(** A resource of the catalog: [resource["name"]] and
    [resource.get_file_type()]. *)
Record resource := mkResource {
  res_name : string;
  res_file_type : string
}.

(** A dataset: [dataset.get_filetypes()] and [dataset.get_resources()]. *)
Record dataset := mkDataset {
  ds_filetypes : list string;
  ds_resources : list resource
}.

(** What the outside answers.  [None] stands for a call that raises. *)
Record world := mkWorld {
  (* [get_uuid()]: the identifier drawn at the n-th call *)
  w_uuid : nat -> string;
  (* [resource.download(folder=...)]: the local file *)
  w_download : resource -> string -> option string;
  (* [is_zipfile(path)] *)
  w_is_zipfile : string -> bool;
  (* [ZipFile(path).extractall(temp)]: does it complete *)
  w_extractall : string -> string -> bool;
  (* [glob(pattern, recursive=True)] *)
  w_glob : string -> list string;
  (* [fiona.listlayers(path)] *)
  w_listlayers : string -> option (list string);
  (* [read_excel(path, sheet_name=None, nrows=100)]: sheet name to frame *)
  w_read_excel : string -> option (list (string * frame));
  (* [read_csv(path, nrows=100, skip_blank_lines=True)] *)
  w_read_csv : string -> option frame;
  (* [read_file(path, rows=100)] and [read_file(path, layer=..., rows=100)] *)
  w_read_file : string -> option string -> option frame;
  (* [Country.countriesdata()] and [hxl.geo] *)
  w_iso3s : list string;
  w_iso2s : list string;
  w_lat_patterns : list regex;
  w_lon_patterns : list regex
}.

(** What a run changes: the identifiers drawn so far and the directories
    made by [mkdir] that exist. *)
Record state := mkState {
  drawn : nat;
  dirs : list string
}.

(** The calls of [check_location], in the order they are made. *)
Inductive event :=
| EMkdir (folder : string)
| ERmtree (folder : string)
| EDownload (r : resource)
| ELoad (r : resource)
| EPcoded (r : resource) (verdict : option bool)
| ELatLonged (r : resource) (verdict : option bool).

(** The outcome of a computation: its result, the state it leaves and the
    events it emitted. *)
Record outcome (A : Type) := mkOutcome {
  res : result A;
  st : state;
  evs : list event
}.
Arguments mkOutcome {A} res st evs.

Definition M (A : Type) : Type := state -> outcome A.

Definition ret {A} (a : A) : M A := fun s => mkOutcome (Ok a) s [].

Definition raise {A} : M A := fun s => mkOutcome Raise s [].

Definition mbind {A B} (m : M A) (k : A -> M B) : M B :=
  fun s =>
    let o := m s in
    match res o with
    | Ok a =>
        let o' := k a (st o) in
        mkOutcome (res o') (st o') (evs o ++ evs o')
    | Raise => mkOutcome Raise (st o) (evs o)
    end.

Definition lift {A} (r : result A) : M A :=
  fun s => mkOutcome r s [].

Definition emit (e : event) : M unit :=
  fun s => mkOutcome (Ok tt) s [e].

Definition get_uuid (w : world) : M string :=
  fun s => mkOutcome (Ok (w_uuid w (drawn s))) (mkState (S (drawn s)) (dirs s)) [].

(** [os.mkdir]: raises on a directory that exists. *)
Definition mkdir (folder : string) : M unit :=
  fun s =>
    if mem folder (dirs s) then mkOutcome Raise s []
    else mkOutcome (Ok tt) (mkState (drawn s) (folder :: dirs s)) [EMkdir folder].

(** [shutil.rmtree]: raises on a directory that does not exist. *)
Definition rmtree (folder : string) : M unit :=
  fun s =>
    if mem folder (dirs s)
    then mkOutcome (Ok tt)
           (mkState (drawn s) (filter (fun d => negb (d =? folder)%string) (dirs s)))
           [ERmtree folder]
    else mkOutcome Raise s [].

End Env.

Declare Scope py_scope.
Delimit Scope py_scope with py.
Notation "x <- m ;; k" := (Env.mbind m (fun x => k))
  (at level 61, m at next level, right associativity) : py_scope.
Notation "' pat <- m ;; k" := (Env.mbind m (fun x => match x with pat => k end))
  (at level 61, pat pattern, m at next level, right associativity) : py_scope.
Notation "m ;; k" := (Env.mbind m (fun _ => k))
  (at level 61, right associativity) : py_scope.

(* ================================================================== *)
(** * [download_resource], [read_downloaded_data], [check_location] *)
(* ================================================================== *)

Module Orchestrator.

Import Py Re Frame Normalizer Classifier Env.
Open Scope py_scope.

(** [not x] on a list that may be [None]. *)
Definition no_files (fs : option (list string)) : bool :=
  match fs with
  | None => true
  | Some [] => true
  | Some (_ :: _) => false
  end.

(** [not error] on an error that is [None] or a message. *)
Definition no_error (error : option string) : bool :=
  match error with
  | None => true
  | Some msg => (msg =? "")%string
  end.

(** Lines 36-37: a match that occurs inside another match is dropped. *)
Definition drop_containers (resource_files : list string) : list string :=
  filter (fun r =>
            List.length (filter (fun rs => contains r rs)
                                (filter (fun rs => negb (rs =? r)%string) resource_files))
            =? 0)
         resource_files.

(** Line 41: [join(r, i) for r in resource_files for i in listlayers(r)] *)
Fixpoint expand_layers (w : world) (resource_files : list string)
  : result (list string) :=
  match resource_files with
  | [] => Ok []
  | r :: rest =>
      match w_listlayers w r with
      | None => Raise
      | Some layers =>
          bind (expand_layers w rest) (fun more =>
          Ok (map (fun i => join r i) layers ++ more)%list)
      end
  end.

Definition download_resource (w : world) (resource : resource) (fileext : string)
           (resource_folder : string) : M (option (list string) * option string) :=
  match w_download w resource resource_folder with
  | None => ret (None, Some ("Could not download file " ++ res_name resource))
  | Some resource_file =>
      if w_is_zipfile w resource_file || contains ".zip" (basename resource_file)
      then
        uuid <- get_uuid w ;;
        let temp := join resource_folder uuid in
        if negb (w_extractall w resource_file temp)
        then ret (None, Some ("Could not unzip resource " ++ res_name resource))
        else
          let resource_files := w_glob w (join (join temp "**") ("*." ++ fileext)) in
          let resource_files :=
            if 1 <? List.length resource_files then drop_containers resource_files
            else resource_files in
          let resource_files :=
            if (fileext =? "xlsx")%string && (List.length resource_files =? 0)
            then [resource_file] else resource_files in
          resource_files <-
            (if mem fileext ["gdb"; "gpkg"]
             then lift (expand_layers w resource_files)
             else ret resource_files) ;;
          ret (Some resource_files, None)
      else ret (Some [resource_file], None)
  end.

(** A block of the loop body ends in [continue] or falls through. *)
Inductive flow (A : Type) :=
| Continue (a : A)
| Next (a : A).
Arguments Continue {A} a.
Arguments Next {A} a.

Definition then_block {A} (m : M (flow A)) (k : A -> M (flow A)) : M (flow A) :=
  f <- m ;;
  match f with
  | Continue a => ret (Continue a)
  | Next a => k a
  end.

Definition unable (resource_file : string) : option string :=
  Some ("Unable to read resource " ++ basename resource_file).

(** [contents[key].empty] *)
Definition empty (df : frame) : bool :=
  match df with
  | [] => true
  | _ => nrows df =? 0
  end.

(** Lines 60-63: every sheet that is not empty is normalised and stored. *)
Fixpoint store_sheets (w : world) (fileext : string)
         (contents : list (string * frame)) (data : dict) : M dict :=
  match contents with
  | [] => ret data
  | (_, sheet) :: contents' =>
      if empty sheet then store_sheets w fileext contents' data
      else
        df <- lift (parse_tabular sheet fileext) ;;
        uuid <- get_uuid w ;;
        store_sheets w fileext contents' (dict_set uuid df data)
  end.

(** Lines 52-63: the spreadsheet branch. *)
Definition excel_block (w : world) (fileext : string) (resource_file : string)
           (acc : dict * option string) : M (flow (dict * option string)) :=
  let '(data, error) := acc in
  if mem fileext ["xlsx"; "xls"]
  then match w_read_excel w resource_file with
       | None => ret (Continue (data, unable resource_file))
       | Some contents =>
           data <- store_sheets w fileext contents data ;;
           ret (Next (data, error))
       end
  else ret (Next (data, error)).

(** Lines 64-70: the delimited-text branch. *)
Definition csv_block (w : world) (fileext : string) (resource_file : string)
           (acc : dict * option string) : M (flow (dict * option string)) :=
  let '(data, error) := acc in
  if (fileext =? "csv")%string
  then match w_read_csv w resource_file with
       | None => ret (Continue (data, unable resource_file))
       | Some contents =>
           match parse_tabular contents fileext with
           | Raise => ret (Continue (data, unable resource_file))
           | Ok df =>
               uuid <- get_uuid w ;;
               ret (Next (dict_set uuid df data, error))
           end
       end
  else ret (Next (data, error)).

(** Lines 71-78: the vector branch. *)
Definition vector_block (w : world) (fileext : string) (resource_file : string)
           (acc : dict * option string) : M (flow (dict * option string)) :=
  let '(data, error) := acc in
  if mem fileext ["geojson"; "json"; "shp"; "topojson"]
  then
    uuid <- get_uuid w ;;
    match w_read_file w resource_file None with
    | None => ret (Continue (data, unable resource_file))
    | Some df => ret (Next ([(uuid, df)], error))
    end
  else ret (Next (data, error)).

(** Lines 79-86: the branch of the containers of layers. *)
Definition layer_block (w : world) (fileext : string) (resource_file : string)
           (acc : dict * option string) : M (flow (dict * option string)) :=
  let '(data, error) := acc in
  if mem fileext ["gdb"; "gpkg"]
  then
    uuid <- get_uuid w ;;
    match w_read_file w (dirname resource_file) (Some (basename resource_file)) with
    | None => ret (Continue (data, unable resource_file))
    | Some df => ret (Next ([(uuid, df)], error))
    end
  else ret (Next (data, error)).

(** The body of the loop of [read_downloaded_data] for one candidate: the
    four [if] blocks in turn. *)
Definition read_candidate (w : world) (fileext : string) (resource_file : string)
           (acc : dict * option string) : M (dict * option string) :=
  f <- then_block (then_block (then_block
         (excel_block w fileext resource_file acc)
         (csv_block w fileext resource_file))
         (vector_block w fileext resource_file))
         (layer_block w fileext resource_file) ;;
  match f with
  | Continue a => ret a
  | Next a => ret a
  end.

Fixpoint read_loop (w : world) (fileext : string) (resource_files : list string)
         (acc : dict * option string) : M (dict * option string) :=
  match resource_files with
  | [] => ret acc
  | resource_file :: rest =>
      acc <- read_candidate w fileext resource_file acc ;;
      read_loop w fileext rest acc
  end.

Definition read_downloaded_data (w : world) (resource_files : list string)
           (fileext : string) : M (dict * option string) :=
  read_loop w fileext resource_files ([], None).

Definition allowed_filetypes : list string :=
  ["csv"; "geodatabase"; "geojson"; "geopackage"; "json";
   "shp"; "topojson"; "xls"; "xlsx"].

(** The three variables [pcoded], [latlonged], [error]. *)
Definition verdicts : Type := option bool * option bool * option string.

(** How one pass of the loop body ends: [break], the next resource
    ([continue] or the end of the body), or the [return] of line 233. *)
Inductive step :=
| Break (v : verdicts)
| Proceed (v : verdicts)
| Return (v : verdicts).

(** The loop ends by running out or breaking ([Completed]) or by that
    [return] ([Returned]). *)
Inductive loop_end :=
| Completed (v : verdicts)
| Returned (v : verdicts).

(** The body of the loop over the resources (lines 216-240). *)
Definition loop_body (w : world) (resource_folder : string)
           (resource : resource) (v : verdicts) : M step :=
  let '(pcoded, latlonged, error) := v in
  if truthy pcoded then ret (Break v)
  else
    let filetype := res_file_type resource in
    let fileext := filetype in
    let fileext := if (fileext =? "geodatabase")%string then "gdb" else fileext in
    let fileext := if (fileext =? "geopackage")%string then "gpkg" else fileext in
    if negb (mem filetype allowed_filetypes) then ret (Proceed v)
    else
      emit (EDownload resource) ;;
      '(resource_files, error) <-
        download_resource w resource fileext resource_folder ;;
      if no_files resource_files then ret (Return (pcoded, latlonged, error))
      else
        let resource_files :=
          match resource_files with Some fs => fs | None => [] end in
        emit (ELoad resource) ;;
        '(contents, error) <- read_downloaded_data w resource_files fileext ;;
        pcoded <-
          (if negb (truthy pcoded)
           then
             pcoded <- lift (check_pcoded (w_iso3s w) (w_iso2s w) contents) ;;
             emit (EPcoded resource pcoded) ;;
             ret pcoded
           else ret pcoded) ;;
        latlonged <-
          (if negb (truthy pcoded) && negb (truthy latlonged)
              && mem filetype ["csv"; "json"; "xls"; "xlsx"]
           then
             latlonged <- lift (check_latlong (w_lat_patterns w)
                                              (w_lon_patterns w) contents) ;;
             emit (ELatLonged resource latlonged) ;;
             ret latlonged
           else ret latlonged) ;;
        ret (Proceed (pcoded, latlonged, error)).

Fixpoint resources_loop (w : world) (resource_folder : string)
         (resources : list resource) (v : verdicts) : M loop_end :=
  match resources with
  | [] => ret (Completed v)
  | resource :: rest =>
      s <- loop_body w resource_folder resource v ;;
      match s with
      | Break v => ret (Completed v)
      | Return v => ret (Returned v)
      | Proceed v => resources_loop w resource_folder rest v
      end
  end.

(** Lines 242-249: the verdicts are settled and the scratch directory is
    removed. *)
Definition finalize (resource_folder : string) (v : verdicts) : M verdicts :=
  let '(pcoded, latlonged, error) := v in
  let pcoded :=
    if no_error error && negb (truthy pcoded) then Some false else pcoded in
  let latlonged :=
    if no_error error && negb (truthy pcoded) && negb (truthy latlonged)
    then Some false else latlonged in
  rmtree resource_folder ;;
  ret (pcoded, latlonged, error).

Definition check_location (w : world) (dataset : dataset) (temp_folder : string)
  : M verdicts :=
  let filetypes := ds_filetypes dataset in
  if negb (existsb (fun f => mem f allowed_filetypes) filetypes)
  then ret (None, None, Some "Can't check formats")
  else
    uuid <- get_uuid w ;;
    let resource_folder := join temp_folder uuid in
    mkdir resource_folder ;;
    e <- resources_loop w resource_folder (ds_resources dataset) (None, None, None) ;;
    match e with
    | Returned v => ret v
    | Completed v => finalize resource_folder v
    end.

End Orchestrator.

(* ================================================================== *)
(** * What the classifiers are to decide *)
(* ================================================================== *)

Module Spec.

Import Py Re Frame Classifier.

(** The values of a column that are not missing. *)
Definition present (c : column) : list cell := filter notna (cells c).

(** Some part of the ["||"]-split header matches the pattern. *)
Definition header_matches (r : regex) (h : string) : bool :=
  existsb (re_match r) (split_bars h).

(** At least one of [values] passes [ok], at most five do not. *)
Definition mostly (ok : cell -> bool) (values : list cell) : bool :=
  (1 <=? List.length (filter ok values))
  && (List.length (filter (fun v => negb (ok v)) values) <=? 5).


(** Normalised samples: no label is borne by two columns of a sample. *)
Definition unique_labels (contents : dict) : Prop :=
  forall key content, In (key, content) contents -> NoDup (columns content).


(** A verdict once [found] is known: [True] if it was so or is found so. *)
Definition raised (verdict : option bool) (found : bool) : option bool :=
  if truthy verdict || found then Some true else verdict.

Section Reference.

Variables iso3s iso2s : list string.
Variables LAT_PATTERNS LON_PATTERNS : list regex.






(** A value, coerced to text, matches one of the patterns. *)
Definition coord_value (pats : list regex) (x : cell) : bool :=
  existsb (fun p => re_match p (py_str x)) pats.

Definition lat_column (c : column) : bool :=
  header_matches lat_header_exp (label c)
  && mostly (coord_value LAT_PATTERNS) (present c).

Definition lon_column (c : column) : bool :=
  header_matches lon_header_exp (label c)
  && mostly (coord_value LON_PATTERNS) (present c).

(** A sample holding a latitude column and a longitude column. *)
Definition both_roles (content : frame) : bool :=
  existsb lat_column content && existsb lon_column content.

End Reference.

End Spec.

(* ================================================================== *)
(** * What the header normaliser is to do *)
(* ================================================================== *)

Module NormalSpec.

Import Py Re Frame Normalizer.

(** Every cell of row [i] is empty or matches the hash-tag pattern. *)
Definition is_tag_row (df : frame) (i : nat) : bool :=
  forallb (fun x => (py_str x =? "")%string || re_match hxl_exp (py_str x))
          (row df i).

(** The first tag row among rows 0 to 9. *)
Definition first_tag_row (df : frame) : option nat :=
  find (is_tag_row df) (seq 0 (Nat.min 10 (nrows df))).

(** Every column has as many cells as the frame has rows. *)
Definition rectangular (df : frame) : Prop :=
  Forall (fun c => List.length (cells c) = nrows df) df.

(** The sample reaches the scan for a tag row: all columns of object type,
    more than one row. *)
Definition reaches_scan (df : frame) : bool :=
  forallb (fun c => is_object (dtype_of c)) df && (1 <? nrows df).

(** An already normalised sample: labels unique and none a placeholder, no
    tag row among the first rows, no row and no column empty throughout. *)
Definition already_normalized (df : frame) : Prop :=
  NoDup (columns df)
  /\ Forall (fun c => re_match unnamed_exp (label c) = false) df
  /\ (forall i, i < Nat.min 10 (nrows df) -> is_tag_row df i = false)
  /\ (forall i, i < nrows df -> existsb notna (row df i) = true)
  /\ Forall (fun c => existsb notna (cells c) = true) df.

End NormalSpec.

(* ================================================================== *)
(** * What the orchestrator is to do *)
(* ================================================================== *)

Module OrchestratorSpec.

Import Py Re Frame Classifier Env Orchestrator.

(** The extensions of the vector and geo branches. *)
Definition is_geo (fileext : string) : bool :=
  mem fileext ["geojson"; "json"; "shp"; "topojson"; "gdb"; "gpkg"].

(** What reading candidate [f] gives in those branches: a layer of a
    container for [gdb] and [gpkg], the file itself otherwise. *)
Definition geo_read (w : world) (fileext : string) (f : string) : option frame :=
  if mem fileext ["gdb"; "gpkg"]
  then w_read_file w (dirname f) (Some (basename f))
  else w_read_file w f None.

(** The mapping after the candidates [files], the first of which draws
    identifier number [n], starting from [data]. *)
Fixpoint geo_data (w : world) (fileext : string) (files : list string) (n : nat)
         (data : dict) : dict :=
  match files with
  | [] => data
  | f :: rest =>
      geo_data w fileext rest (S n)
               (match geo_read w fileext f with
                | Some df => [(w_uuid w n, df)]
                | None => data
                end)
  end.

(** The error after the candidates [files]: that of the last failure. *)
Fixpoint geo_error (w : world) (fileext : string) (files : list string)
         (error : option string) : option string :=
  match files with
  | [] => error
  | f :: rest =>
      geo_error w fileext rest
                (match geo_read w fileext f with
                 | Some _ => error
                 | None => unable f
                 end)
  end.

(** A computation that emits no event. *)
Definition quiet {A} (m : M A) : Prop := forall s, evs (m s) = [].

(** What a classifier returns: [None] or [True], never [False]. *)
Definition unset_or_true (verdict : option bool) : Prop :=
  verdict = None \/ verdict = Some true.

(** The extension [check_location] derives from the file type. *)
Definition fileext_of (r : resource) : string :=
  let fileext := res_file_type r in
  let fileext := if (fileext =? "geodatabase")%string then "gdb" else fileext in
  if (fileext =? "geopackage")%string then "gpkg" else fileext.

(** The ways one pass of the loop body can end for resource [r], entered
    with the verdicts [pcoded], [latlonged], [error] in state [s]. *)
Inductive body_ends (r : resource) (pcoded latlonged : option bool)
          (error : option string) (s : state) : outcome step -> Prop :=
| ends_break :
    truthy pcoded = true ->
    body_ends r pcoded latlonged error s
              (mkOutcome (Ok (Break (pcoded, latlonged, error))) s [])
| ends_skip :
    truthy pcoded = false ->
    body_ends r pcoded latlonged error s
              (mkOutcome (Ok (Proceed (pcoded, latlonged, error))) s [])
| ends_return s' error' :
    truthy pcoded = false ->
    body_ends r pcoded latlonged error s
              (mkOutcome (Ok (Return (pcoded, latlonged, error'))) s' [EDownload r])
| ends_raise_download s' :
    truthy pcoded = false ->
    body_ends r pcoded latlonged error s (mkOutcome Raise s' [EDownload r])
| ends_raise_load s' :
    truthy pcoded = false ->
    body_ends r pcoded latlonged error s (mkOutcome Raise s' [EDownload r; ELoad r])
| ends_raise_latlong s' :
    truthy pcoded = false ->
    body_ends r pcoded latlonged error s
              (mkOutcome Raise s' [EDownload r; ELoad r; EPcoded r None])
| ends_pcoded s' pcoded' error' :
    truthy pcoded = false -> unset_or_true pcoded' ->
    body_ends r pcoded latlonged error s
              (mkOutcome (Ok (Proceed (pcoded', latlonged, error'))) s'
                         [EDownload r; ELoad r; EPcoded r pcoded'])
| ends_latlonged s' latlonged' error' :
    truthy pcoded = false -> unset_or_true latlonged' ->
    body_ends r pcoded latlonged error s
              (mkOutcome (Ok (Proceed (None, latlonged', error'))) s'
                         [EDownload r; ELoad r; EPcoded r None;
                          ELatLonged r latlonged']).

(** The resource an event is about. *)
Definition event_resource (e : event) : option resource :=
  match e with
  | EMkdir _ | ERmtree _ => None
  | EDownload r | ELoad r | EPcoded r _ | ELatLonged r _ => Some r
  end.

(** The event is a download, a load or a classification. *)
Definition touches_resource (e : event) : bool :=
  match event_resource e with
  | Some _ => true
  | None => false
  end.

(** Events that follow the listing order: one block of events for each
    resource that is touched at all, the blocks in the order of the
    resources. *)
Inductive in_listing_order : list resource -> list event -> Prop :=
| order_done rs : in_listing_order rs []
| order_skip r rs tr : in_listing_order rs tr -> in_listing_order (r :: rs) tr
| order_block r rs block tr :
    Forall (fun e => event_resource e = Some r) block ->
    in_listing_order rs tr ->
    in_listing_order (r :: rs) (EDownload r :: block ++ tr).

(** Nothing but the removal of the scratch directory follows the first
    positive pcode verdict. *)
Fixpoint stops_at_pcoded (tr : list event) : Prop :=
  match tr with
  | [] => True
  | EPcoded _ (Some true) :: rest => Forall (fun e => touches_resource e = false) rest
  | _ :: rest => stops_at_pcoded rest
  end.

End OrchestratorSpec.

(* ================================================================== *)
(** * Sample inputs *)
(* ================================================================== *)

Module Examples.

Import Py Re Frame Normalizer Classifier Env.

Definition text_column (l : string) (values : list string) : column :=
  mkColumn l DObject (map Str values).

(** A sheet read with its header line: row 0 holds the HXL tags. *)
Definition tagged : frame :=
  [text_column "Name" ["#adm1+name"; "Nairobi"; "Mombasa"; "Kisumu"];
   text_column "Code" ["#adm1+code"; "KEN01"; "KEN02"; "KEN03"]].

(** A sheet with a second header line above the tags: the tags are in
    row 1. *)
Definition tagged_below : frame :=
  [text_column "Name" ["Nom"; "#adm1+name"; "Nairobi"; "Mombasa"; "Kisumu"];
   text_column "Code" ["Code"; "#adm1+code"; "KEN01"; "KEN02"; "KEN03"]].

(** Tags in row 0 and again in row 2. *)
Definition tagged_twice : frame :=
  [text_column "Name" ["#adm1+name"; "Nairobi"; "#adm1+name"; "Kisumu"];
   text_column "Code" ["#adm1+code"; "KEN01"; "#adm1+code"; "KEN03"]].

(** A sheet with a header and four rows of data, nothing to normalise. *)
Definition plain : frame :=
  [text_column "Name" ["Nairobi"; "Mombasa"; "Kisumu"; "Nakuru"];
   text_column "Code" ["KEN01"; "KEN02"; "KEN03"; "KEN04"]].

(** The same with six rows of data. *)
Definition plain_long : frame :=
  [text_column "Name" ["Nairobi"; "Mombasa"; "Kisumu"; "Nakuru"; "Eldoret"; "Thika"];
   text_column "Code" ["KEN01"; "KEN02"; "KEN03"; "KEN04"; "KEN05"; "KEN06"]].





(** Decimal degrees, standing for the patterns of [hxl.geo]. *)
Definition decimal : regex :=
  seq_re [digit; Star digit; chr false "."; digit; Star digit].

Definition coords : frame :=
  [text_column "Latitude" ["1.5"; "2.25"];
   text_column "Longitude" ["36.8"; "37.1"]].

Definition wards : frame :=
  [text_column "ward" ["Kibra"; "Langata"]].

(** A sheet read without a header line: the labels are placeholders and
    row 0 holds the names, one of them twice. *)
Definition twin_raw : frame :=
  [text_column "Unnamed: 0" ["lat"; "1.5"; "2.25"; "3.0"];
   text_column "Unnamed: 1" ["lat"; "1.6"; "2.35"; "3.1"];
   text_column "Unnamed: 2" ["lon"; "36.8"; "37.1"; "38.2"]].

(** What the normaliser makes of it: two columns labelled [lat]. *)
Definition twin : frame :=
  [text_column "lat" ["1.5"; "2.25"; "3.0"];
   text_column "lat" ["1.6"; "2.35"; "3.1"];
   text_column "lon" ["36.8"; "37.1"; "38.2"]].

Definition points : resource := mkResource "points.csv" "csv".
Definition shapes : resource := mkResource "shapes.zip" "shp".
Definition book : resource := mkResource "book.zip" "xlsx".
Definition old_book : resource := mkResource "old.zip" "xls".
Definition codes : resource := mkResource "codes.csv" "csv".
Definition gone : resource := mkResource "gone.csv" "csv".
Definition report : resource := mkResource "report.pdf" "pdf".

(** A catalog in which every download but that of [gone] succeeds, every
    archive unpacks and holds no file of the declared extension, and the
    readers know three files. *)
Definition catalog : world :=
  mkWorld (fun n => "id" ++ str_of_nat n)
          (fun r folder =>
             if (res_name r =? "gone.csv")%string then None
             else Some (join folder (res_name r)))
          (fun _ => false)
          (fun _ _ => true)
          (fun _ => [])
          (fun _ => Some [])
          (fun _ => None)
          (fun f => if (basename f =? "points.csv")%string then Some coords else None)
          (fun f _ =>
             if (basename f =? "a.geojson")%string then Some coords
             else if (basename f =? "b.geojson")%string then Some wards
             else None)
          ["KEN"] ["KE"] [decimal] [decimal].

Definition start : state := mkState 0 [].

End Examples.

(* ================================================================== *)
(** * The normaliser step by step *)
(* ================================================================== *)

Module NormalExtra.

Import Py Re Frame Normalizer NormalSpec.

(** The frame after line 92: all-empty rows dropped, then all-empty
    columns. *)
Definition cleaned (df : frame) : frame := dropna_cols (dropna_rows df).

(** The column holds a value that is not missing. *)
Definition has_value (c : column) : bool := existsb notna (cells c).

(** Some label is no placeholder. *)
Definition named (df : frame) : bool :=
  existsb (fun c => negb (re_match unnamed_exp (label c))) df.

(** The label of a column once the tag row [h] is folded into the header:
    the label itself unless it holds [Unnamed], then the cells of rows 0
    to [h] that are not empty. *)
Definition tag_label (h : nat) (c : column) : string :=
  join_bars ((if contains "Unnamed" (label c) then [] else [label c])
             ++ map py_str (filter py_bool (firstn (h + 1) (cells c))))%list.

(** The frame with the rows 0 to [h] folded into the labels. *)
Definition fold_header (h : nat) (df : frame) : frame :=
  map (fun c => mkColumn (tag_label h c) (dtype_of c) (skipn (h + 1) (cells c))) df.

(** The cells of rows 0 to [h] that are not empty are text. *)
Definition header_text (h : nat) (c : column) : bool :=
  forallb is_str (filter py_bool (firstn (h + 1) (cells c))).

(** The index in the original rows of the [i]-th row kept by [keep] among
    the [n] rows from [k] on. *)
Fixpoint kth_kept (keep : nat -> bool) (k n i : nat) : nat :=
  match n with
  | 0 => k
  | S n' =>
      if keep k
      then match i with
           | 0 => k
           | S i' => kth_kept keep (S k) n' i'
           end
      else kth_kept keep (S k) n' i
  end.

(** A sheet with a line and a column that are empty throughout. *)
Definition gappy : frame :=
  [mkColumn "Name" DObject [Str "Nairobi"; NaN; Str "Mombasa"];
   mkColumn "Blank" DObject [NaN; NaN; NaN];
   mkColumn "Code" DObject [Str "KEN01"; NaN; Str "KEN02"]].

(** A sheet that holds nothing. *)
Definition hollow : frame :=
  [mkColumn "Name" DObject [NaN; NaN]; mkColumn "Code" DFloat [NaN; NaN]].

(** A sheet with a column of numbers. *)
Definition counted : frame :=
  [mkColumn "Name" DObject [Str "Nairobi"; Str "Mombasa"; Str "Kisumu"];
   mkColumn "Population" DInt
            [Obj KInteger "4397073" true false; Obj KInteger "1208333" true false;
             Obj KInteger "397957" true false]].

End NormalExtra.

(* ================================================================== *)
(** * Headers and values, character by character *)
(* ================================================================== *)

Module ClassifierExtra.

Import Py Re Frame Classifier.

(** The character is a decimal digit. *)
Definition is_digit (c : ascii) : bool :=
  let n := nat_of_ascii c in (48 <=? n) && (n <=? 57).

(** Two texts are equal but for the case of their letters. *)
Fixpoint same_ci (u v : string) : bool :=
  match u, v with
  | EmptyString, EmptyString => true
  | String a u', String b v' => Ascii.eqb (lower a) (lower b) && same_ci u' v'
  | _, _ => false
  end.

(** The text holds no line break. *)
Fixpoint one_line (u : string) : bool :=
  match u with
  | EmptyString => true
  | String c u' => negb (Ascii.eqb c "010") && one_line u'
  end.

End ClassifierExtra.

(* ================================================================== *)
(** * What the readers give *)
(* ================================================================== *)

Module LoaderExtra.

Import Py Re Frame Normalizer Classifier Env Orchestrator OrchestratorSpec.

(** What a delimited-text candidate gives: its frame, read and
    normalised, or nothing when either step raises. *)
Definition csv_read (w : world) (f : string) : option frame :=
  match w_read_csv w f with
  | Some contents =>
      match parse_tabular contents "csv" with
      | Ok df => Some df
      | Raise => None
      end
  | None => None
  end.

(** The frames of the candidates that could be read, in order. *)
Fixpoint csv_frames (w : world) (files : list string) : list frame :=
  match files with
  | [] => []
  | f :: rest =>
      match csv_read w f with
      | Some df => df :: csv_frames w rest
      | None => csv_frames w rest
      end
  end.

(** The error after the candidates [files]: that of the last failure. *)
Fixpoint csv_error (w : world) (files : list string) (error : option string)
  : option string :=
  match files with
  | [] => error
  | f :: rest =>
      csv_error w rest (match csv_read w f with
                        | Some _ => error
                        | None => unable f
                        end)
  end.

(** The extensions of the spreadsheet branch. *)
Definition is_excel (fileext : string) : bool := mem fileext ["xlsx"; "xls"].

(** A sheet that is stored and whose normalisation raises. *)
Definition bad_sheet (fileext : string) (sheet : frame) : bool :=
  negb (empty sheet)
  && match parse_tabular sheet fileext with
     | Ok _ => false
     | Raise => true
     end.

(** A candidate that can be opened and holds such a sheet. *)
Definition bad_file (w : world) (fileext : string) (f : string) : bool :=
  match w_read_excel w f with
  | Some contents => existsb (fun ns => bad_sheet fileext (snd ns)) contents
  | None => false
  end.

(** The catalog of the examples with a workbook of two sheets, the
    second of which holds missing values only. *)
Definition ledger : world :=
  mkWorld (w_uuid Examples.catalog) (w_download Examples.catalog)
          (w_is_zipfile Examples.catalog) (w_extractall Examples.catalog)
          (w_glob Examples.catalog) (w_listlayers Examples.catalog)
          (fun f =>
             if (basename f =? "ledger.xlsx")%string
             then Some [("Data", Examples.plain);
                        ("Notes", [mkColumn "Note" DObject [NaN; NaN]])]
             else None)
          (w_read_csv Examples.catalog) (w_read_file Examples.catalog)
          (w_iso3s Examples.catalog) (w_iso2s Examples.catalog)
          (w_lat_patterns Examples.catalog) (w_lon_patterns Examples.catalog).

End LoaderExtra.

(* ================================================================== *)
(** * What a run leaves behind *)
(* ================================================================== *)

Module LoopExtra.

Import Py Re Frame Classifier Env Orchestrator OrchestratorSpec.

(** The file type of the resource is one of [allowed_filetypes]. *)
Definition allowed (r : resource) : bool := mem (res_file_type r) allowed_filetypes.

(** The dataset with the resources of other file types left out. *)
Definition only_allowed (ds : dataset) : dataset :=
  mkDataset (ds_filetypes ds) (filter allowed (ds_resources ds)).

(** The messages the code stores in [error]. *)
Definition written (msg : string) : bool :=
  (msg =? "Can't check formats")%string
  || String.prefix "Could not download file " msg
  || String.prefix "Could not unzip resource " msg
  || String.prefix "Unable to read resource " msg.

Definition error_ok (error : option string) : bool :=
  match error with
  | None => true
  | Some msg => written msg
  end.

Definition is_latlong (e : event) : bool :=
  match e with
  | ELatLonged _ _ => true
  | _ => false
  end.

Definition is_rmtree (e : event) : bool :=
  match e with
  | ERmtree _ => true
  | _ => false
  end.

(** The event is about a resource of the dataset whose file type allows
    it: any allowed type for a download, a load or a pcode check, one of
    the four tabular types for a lat/long check. *)
Definition event_allowed (e : event) : bool :=
  match e with
  | EMkdir _ | ERmtree _ => true
  | EDownload r | ELoad r | EPcoded r _ => allowed r
  | ELatLonged r _ => mem (res_file_type r) ["csv"; "json"; "xls"; "xlsx"]
  end.

(** The three variables as the loop keeps them: each verdict unset or
    [True], the error unset or one of the messages. *)
Definition sound (v : verdicts) : Prop :=
  let '(pcoded, latlonged, error) := v in
  unset_or_true pcoded /\ unset_or_true latlonged /\ error_ok error = true.

(** No lat/long check follows the first one that is positive. *)
Fixpoint latlong_once (tr : list event) : Prop :=
  match tr with
  | [] => True
  | ELatLonged _ (Some true) :: rest => Forall (fun e => is_latlong e = false) rest
  | _ :: rest => latlong_once rest
  end.

(** What a block leaves in [error]: what it found on falling through,
    the message of the candidate on [continue]. *)
Definition block_error (f : string) (error : option string)
           (fl : flow (dict * option string)) : Prop :=
  match fl with
  | Continue (_, error') => error' = unable f
  | Next (_, error') => error' = error
  end.


End LoopExtra.

(* ================================================================== *)
(** * The matcher decides prefix matching *)
(* ================================================================== *)

Module ReFacts.
Import Py Re.

Lemma append_empty_r (s : string) : s ++ "" = s.
Proof. induction s as [|c s IH]; simpl; [reflexivity | now rewrite IH]. Qed.

Lemma append_is_empty (u v : string) : u ++ v = "" -> u = "" /\ v = "".
Proof. destruct u; simpl; [auto | discriminate]. Qed.

Lemma append_is_cons (u v : string) (c : ascii) (s : string) :
  u ++ v = String c s ->
  (u = "" /\ v = String c s) \/ exists u', u = String c u' /\ s = u' ++ v.
Proof.
  destruct u as [|d u]; simpl; intros E; [now left|].
  inversion E; subst. right. now exists u.
Qed.

Lemma nullable_lang (r : regex) : nullable r = true <-> lang r "".
Proof.
  split.
  - induction r; simpl; intros H; try discriminate.
    + constructor.
    + apply andb_prop in H. destruct H as [Ha Hb].
      change "" with ("" ++ ""). constructor; auto.
    + apply orb_prop in H. destruct H as [H|H];
        [apply L_alt_l | apply L_alt_r]; auto.
    + constructor.
  - intros H. remember "" as s eqn:Es.
    induction H as [ | p c Hp | a b u v Ha IHa Hb IHb | a b u Ha IHa
                   | a b u Hb IHb | a | a u v Ha IHa Hs IHs ];
      simpl; try reflexivity; try discriminate.
    + apply append_is_empty in Es. destruct Es as [-> ->].
      now rewrite IHa, IHb.
    + now rewrite IHa.
    + rewrite IHb by assumption. apply orb_true_r.
Qed.

Lemma deriv_sound (c : ascii) (r : regex) (s : string) :
  lang (deriv c r) s -> lang r (String c s).
Proof.
  revert s. induction r as [ | | p | a IHa b IHb | a IHa b IHb | a IHa ];
    simpl; intros s H.
  - inversion H.
  - inversion H.
  - destruct (p c) eqn:Hp; inversion H; subst. now constructor.
  - destruct (nullable a) eqn:Hn.
    + inversion H as [ | | | ? ? ? H1 | ? ? ? H1 | | ]; subst.
      * inversion H1 as [ | | ? ? u v Hu Hv | | | | ]; subst.
        change (String c (u ++ v)) with (String c u ++ v). constructor; auto.
      * change (String c s) with ("" ++ String c s). constructor; auto.
        now apply nullable_lang.
    + inversion H as [ | | ? ? u v Hu Hv | | | | ]; subst.
      change (String c (u ++ v)) with (String c u ++ v). constructor; auto.
  - inversion H; subst; [apply L_alt_l | apply L_alt_r]; auto.
  - inversion H as [ | | ? ? u v Hu Hv | | | | ]; subst.
    change (String c (u ++ v)) with (String c u ++ v). constructor; auto.
Qed.

Lemma deriv_complete (c : ascii) (r : regex) (s t : string) :
  lang r t -> t = String c s -> lang (deriv c r) s.
Proof.
  intros H. revert s.
  induction H as [ | p d Hp | a b u v Ha IHa Hb IHb | a b u Ha IHa
                 | a b u Hb IHb | a | a u v Ha IHa Hs IHs ];
    intros s E; simpl.
  - discriminate.
  - inversion E; subst. rewrite Hp. constructor.
  - apply append_is_cons in E. destruct E as [[-> ->] | [u' [-> ->]]].
    + apply nullable_lang in Ha. rewrite Ha. apply L_alt_r. now apply IHb.
    + destruct (nullable a); [apply L_alt_l|]; constructor; auto.
  - apply L_alt_l. auto.
  - apply L_alt_r. auto.
  - discriminate.
  - apply append_is_cons in E. destruct E as [[-> ->] | [u' [-> ->]]].
    + now apply IHs.
    + constructor; auto.
Qed.

(** [re_match] finds a match exactly when a prefix of the text is a word
    of the pattern, which is what [re.match] decides. *)
Theorem re_match_prefix (r : regex) (s : string) :
  re_match r s = true <-> exists u v, s = u ++ v /\ lang r u.
Proof.
  revert r. induction s as [|c s IH]; intros r; simpl.
  - rewrite orb_false_r, nullable_lang. split.
    + intros H. now exists "", "".
    + intros [u [v [E H]]]. symmetry in E. apply append_is_empty in E.
      destruct E as [-> _]. exact H.
  - split.
    + intros H. apply orb_prop in H. destruct H as [H|H].
      * exists "", (String c s). split; [reflexivity | now apply nullable_lang].
      * apply IH in H. destruct H as [u [v [-> H]]].
        exists (String c u), v. split; [reflexivity | now apply deriv_sound].
    + intros [u [v [E H]]]. symmetry in E. apply append_is_cons in E.
      destruct E as [[-> _] | [u' [-> ->]]].
      * apply nullable_lang in H. now rewrite H.
      * apply orb_true_iff. right. apply IH. exists u', v.
        split; [reflexivity | now apply (@deriv_complete c r u' (String c u'))].
Qed.

End ReFacts.

(* ================================================================== *)
(** * Properties of the classifiers *)
(* ================================================================== *)

Module ClassifierFacts.
Import Py Re Frame Classifier Spec.

Lemma filter_label_notin (df : frame) (h : string) :
  ~ In h (columns df) -> filter (fun c => (label c =? h)%string) df = [].
Proof.
  induction df as [|c df IH]; simpl; intros Hn; [reflexivity|].
  destruct (String.eqb_spec (label c) h) as [E|E].
  - exfalso. apply Hn. now left.
  - apply IH. intros Hin. apply Hn. now right.
Qed.

Lemma getitem_unique (df : frame) (c : column) :
  NoDup (columns df) -> In c df -> getitem df (label c) = Series c.
Proof.
  unfold getitem. induction df as [|d df IH]; simpl; intros Hnd Hin; [contradiction|].
  inversion Hnd as [|x l Hnotin Hnd']; subst.
  destruct Hin as [->|Hin].
  - rewrite String.eqb_refl. now rewrite filter_label_notin.
  - destruct (String.eqb_spec (label d) (label c)) as [E|E].
    + exfalso. apply Hnotin. rewrite E. apply in_map. exact Hin.
    + apply IH; assumption.
Qed.

Lemma filter_split_length {A} (f : A -> bool) (l : list A) :
  List.length (filter f l) + List.length (filter (fun x => negb (f x)) l) = List.length l.
Proof.
  induction l as [|a l IH]; simpl; [reflexivity|].
  destruct (f a); simpl; lia.
Qed.

Lemma tolerated_mostly (ok : cell -> bool) (values : list cell) :
  tolerated (List.length values) (List.length (filter ok values)) = mostly ok values.
Proof.
  unfold tolerated, mostly.
  pose proof (filter_split_length ok values) as H.
  rewrite andb_comm. f_equal.
  apply eq_true_iff_eq. rewrite Z.leb_le, Nat.leb_le. lia.
Qed.

Section Reference.
Variables iso3s iso2s : list string.
Variables LAT_PATTERNS LON_PATTERNS : list regex.



Lemma raised_truthy pcoded found :
  truthy pcoded = true -> raised pcoded found = pcoded.
Proof.
  unfold raised. destruct pcoded as [[|]|]; simpl; try discriminate. reflexivity.
Qed.












Lemma count_any_spec (pats : list regex) (values : list cell) :
  pats <> [] ->
  count_any pats (map py_str values)
  = Ok (List.length (filter (coord_value pats) values)).
Proof.
  intros Hp. unfold count_any. destruct pats as [|p pats]; [contradiction|].
  f_equal. unfold coord_value.
  induction values as [|v values IH]; [reflexivity|].
  cbn [map filter]. destruct (existsb _ (p :: pats)); cbn [List.length]; now rewrite IH.
Qed.

Lemma role_check_spec (is_header : bool) (pats : list regex) (values : list cell)
      (flag : option bool) :
  pats <> [] ->
  role_check is_header pats (map py_str values) flag
  = Ok (raised flag (is_header && mostly (coord_value pats) values)).
Proof.
  intros Hp. unfold role_check, raised. destruct is_header; simpl.
  - rewrite (count_any_spec values Hp). simpl.
    rewrite length_map, tolerated_mostly.
    destruct (mostly _ values); [now rewrite orb_true_r|].
    rewrite orb_false_r. now destruct flag as [[|]|].
  - rewrite orb_false_r. now destruct flag as [[|]|].
Qed.

Lemma truthy_raised flag found : truthy (raised flag found) = truthy flag || found.
Proof. unfold raised. destruct flag as [[|]|], found; reflexivity. Qed.

Lemma raised_step (latlonged : option bool) (a b la lo ea eo : bool) :
  truthy latlonged = false ->
  raised (if (a || la) && (b || lo) then Some true else latlonged)
         ((a || la || ea) && (b || lo || eo))
  = raised latlonged ((a || (la || ea)) && (b || (lo || eo))).
Proof.
  intros H. unfold raised.
  destruct a, b, la, lo, ea, eo; cbn [orb andb truthy]; rewrite ?H; reflexivity.
Qed.

Lemma latlong_columns_spec (df cs : frame) (latted longed latlonged : option bool) :
  LAT_PATTERNS <> [] -> LON_PATTERNS <> [] ->
  NoDup (columns df) -> incl cs df ->
  (truthy latted && truthy longed = true -> truthy latlonged = true) ->
  latlong_columns LAT_PATTERNS LON_PATTERNS df (columns cs) latted longed latlonged
  = Ok (raised latlonged
          ((truthy latted || existsb (lat_column LAT_PATTERNS) cs)
           && (truthy longed || existsb (lon_column LON_PATTERNS) cs))).
Proof.
  intros Hlat Hlon Hnd. revert latted longed latlonged.
  induction cs as [|c cs IH]; intros latted longed latlonged Hincl Hinv; simpl.
  - rewrite !orb_false_r. unfold raised.
    destruct (truthy latlonged) eqn:Hll.
    + now destruct latlonged as [[|]|].
    + destruct (truthy latted && truthy longed); [now specialize (Hinv eq_refl)|].
      reflexivity.
  - destruct (truthy latlonged) eqn:Hll.
    + now rewrite raised_truthy.
    + assert (Hc : In c df) by (apply Hincl; now left).
      assert (Hincl' : incl cs df) by (intros x Hx; apply Hincl; now right).
      fold (header_matches lat_header_exp (label c)).
      fold (header_matches lon_header_exp (label c)).
      unfold lat_column at 1, lon_column at 1.
      destruct (negb (header_matches lat_header_exp (label c))
                && negb (header_matches lon_header_exp (label c))) eqn:Hnone.
      * apply andb_prop in Hnone. destruct Hnone as [Ha Ho].
        apply negb_true_iff in Ha, Ho. rewrite Ha, Ho. cbn [andb orb].
        apply IH; [assumption|]. now rewrite Hll.
      * rewrite (@getitem_unique df c Hnd Hc). fold (present c).
        rewrite (@role_check_spec _ LAT_PATTERNS (present c) latted Hlat).
        cbn [bind].
        rewrite (@role_check_spec _ LON_PATTERNS (present c) longed Hlon).
        cbn [bind].
        rewrite IH; [|assumption|].
        -- rewrite !truthy_raised. f_equal. now apply raised_step.
        -- intros E. now rewrite E.
Qed.


Lemma latlong_samples_spec (contents : dict) (latlonged : option bool) :
  LAT_PATTERNS <> [] -> LON_PATTERNS <> [] -> unique_labels contents ->
  latlong_samples LAT_PATTERNS LON_PATTERNS contents latlonged
  = Ok (raised latlonged (existsb (fun kc => both_roles LAT_PATTERNS LON_PATTERNS (snd kc)) contents)).
Proof.
  intros Hlat Hlon. revert latlonged.
  induction contents as [|[key content] contents IH]; intros latlonged Hu; simpl.
  - unfold raised. rewrite orb_false_r. now destruct latlonged as [[|]|].
  - destruct (truthy latlonged) eqn:Hll.
    + now rewrite raised_truthy.
    + rewrite latlong_columns_spec; try assumption.
      * cbn [bind truthy orb]. rewrite IH.
        -- fold (both_roles LAT_PATTERNS LON_PATTERNS content). unfold raised. rewrite Hll.
           destruct (both_roles LAT_PATTERNS LON_PATTERNS content); cbn [orb truthy]; [reflexivity|].
           now rewrite Hll.
        -- intros k c Hin. apply (Hu k). now right.
      * apply (Hu key). now left.
      * apply incl_refl.
      * discriminate.
Qed.

(** C3 (as amended).  On samples whose labels are unique within each
    sample, [check_latlong] returns [True] exactly when one sample holds a
    column with a latitude header whose values, coerced to text, mostly
    match a latitude pattern, and a column (the same one or another) with
    a longitude header whose values mostly match a longitude pattern;
    otherwise it returns [None].  Samples that each fill one role only
    give no positive verdict. *)
Theorem check_latlong_spec (contents : dict) :
  LAT_PATTERNS <> [] -> LON_PATTERNS <> [] -> unique_labels contents ->
  (check_latlong LAT_PATTERNS LON_PATTERNS contents = Ok (Some true) <->
   exists key content clat clon,
     In (key, content) contents /\ In clat content /\ In clon content /\
     lat_column LAT_PATTERNS clat = true /\ lon_column LON_PATTERNS clon = true)
  /\ (check_latlong LAT_PATTERNS LON_PATTERNS contents = Ok (Some true)
      \/ check_latlong LAT_PATTERNS LON_PATTERNS contents = Ok None)
  /\ ((forall key content,
         In (key, content) contents ->
         (forall c, In c content -> lat_column LAT_PATTERNS c = false)
         \/ (forall c, In c content -> lon_column LON_PATTERNS c = false)) ->
      check_latlong LAT_PATTERNS LON_PATTERNS contents = Ok None).
Proof.
  intros Hlat Hlon Hu. unfold check_latlong.
  rewrite (latlong_samples_spec None Hlat Hlon Hu). unfold raised. cbn [truthy orb].
  split; [|split].
  - split.
    + destruct (existsb _ contents) eqn:E; [|discriminate]. intros _.
      apply existsb_exists in E. destruct E as [[key content] [Hin E]].
      apply andb_prop in E. destruct E as [Ea Eo].
      apply existsb_exists in Ea, Eo.
      destruct Ea as [clat [Hclat Ea]]. destruct Eo as [clon [Hclon Eo]].
      now exists key, content, clat, clon.
    + intros [key [content [clat [clon [Hin [Hclat [Hclon [Ea Eo]]]]]]]].
      replace (existsb (fun kc => both_roles LAT_PATTERNS LON_PATTERNS (snd kc)) contents) with true;
        [reflexivity|].
      symmetry. apply existsb_exists. exists (key, content). split; [assumption|].
      apply andb_true_intro. split; apply existsb_exists; eauto.
  - destruct (existsb _ contents); auto.
  - intros Hone.
    destruct (existsb (fun kc => both_roles LAT_PATTERNS LON_PATTERNS (snd kc)) contents) eqn:E; [|reflexivity].
    exfalso. apply existsb_exists in E. destruct E as [[key content] [Hin E]].
    apply andb_prop in E. destruct E as [Ea Eo].
    apply existsb_exists in Ea, Eo.
    destruct Ea as [clat [Hclat Ea]]. destruct Eo as [clon [Hclon Eo]].
    destruct (Hone key content Hin) as [H|H].
    + rewrite (H clat Hclat) in Ea. discriminate.
    + rewrite (H clon Hclon) in Eo. discriminate.
Qed.

End Reference.

(** C3, witness: the sample [coords], a latitude and a longitude column
    in decimal degrees. *)
Lemma check_latlong_spec_witness :
  unique_labels [("sheet", Examples.coords)]
  /\ check_latlong [Examples.decimal] [Examples.decimal] [("sheet", Examples.coords)]
     = Ok (Some true).
Proof.
  assert (Hu : unique_labels [("sheet", Examples.coords)]).
  { intros key content [E|[]]. inversion E; subst.
    repeat constructor; simpl; intuition discriminate. }
  split; [exact Hu|].
  assert (Hlat : [Examples.decimal] <> []) by discriminate.
  destruct (@check_latlong_spec [Examples.decimal] [Examples.decimal] _ Hlat Hlat Hu)
    as [[_ Hfound] _].
  apply Hfound.
  exists "sheet", Examples.coords,
    (Examples.text_column "Latitude" ["1.5"; "2.25"]),
    (Examples.text_column "Longitude" ["36.8"; "37.1"]).
  repeat split; try (vm_compute; reflexivity); simpl; auto.
Defined.

(** C3, counterexample: the sheet [twin_raw], read as delimited text
    without a header line, comes out of the normaliser with two columns
    labelled [lat].  The sample holds a latitude column and a longitude
    column that qualify, and [check_latlong] raises: [content[h]] is a
    frame for that label and has no [.str]. *)
Lemma duplicate_labels_raise :
  Normalizer.parse_tabular Examples.twin_raw "csv" = Ok Examples.twin
  /\ both_roles [Examples.decimal] [Examples.decimal] Examples.twin = true
  /\ check_latlong [Examples.decimal] [Examples.decimal] [("sheet", Examples.twin)]
     = Raise
  /\ check_latlong [Examples.decimal] [Examples.decimal] [("sheet", Examples.twin)]
     <> Ok (Some true).
Proof.
  repeat split; try (vm_compute; reflexivity). vm_compute. discriminate.
Qed.

End ClassifierFacts.

(* ================================================================== *)
(** * The verdicts a classifier can return *)
(* ================================================================== *)

Module VerdictRange.

Import Py Re Frame Classifier OrchestratorSpec.

Section Ranges.
Variables iso3s iso2s : list string.
Variables LAT_PATTERNS LON_PATTERNS : list regex.

Lemma pcoded_columns_range (df : frame) (hs : list string) (pcoded verdict : option bool) :
  pcoded_columns iso3s iso2s df hs pcoded = Ok verdict ->
  verdict = pcoded \/ verdict = Some true.
Proof.
  revert pcoded. induction hs as [|h hs IH]; intros pcoded; simpl.
  - intros E. inversion E. now left.
  - destruct (truthy pcoded); [intros E; inversion E; now left|].
    destruct (negb _); [apply IH|].
    destruct (getitem df h) as [c|cs]; [|discriminate].
    destruct (str_refused _); [discriminate|].
    intros E. apply IH in E.
    destruct (py_sum _) as [matches|]; [|exact E].
    destruct (tolerated _ matches); [|exact E].
    right. destruct E as [E|E]; exact E.
Qed.

Lemma pcoded_samples_range (contents : dict) (pcoded verdict : option bool) :
  pcoded_samples iso3s iso2s contents pcoded = Ok verdict ->
  verdict = pcoded \/ verdict = Some true.
Proof.
  revert pcoded. induction contents as [|[key content] contents IH]; intros pcoded; simpl.
  - intros E. inversion E. now left.
  - destruct (truthy pcoded); [intros E; inversion E; now left|].
    destruct (pcoded_columns _ _ _ _ _) as [p|] eqn:Ep; [|discriminate].
    cbn [bind]. intros E. apply IH in E. apply pcoded_columns_range in Ep.
    destruct E as [E|E], Ep as [Ep|Ep]; subst; auto.
Qed.

Lemma check_pcoded_range (contents : dict) (verdict : option bool) :
  check_pcoded iso3s iso2s contents = Ok verdict -> unset_or_true verdict.
Proof. intros E. apply pcoded_samples_range in E. exact E. Qed.

Lemma role_check_range (is_header : bool) (pats : list regex) (column : list string)
      (flag flag' : option bool) :
  role_check is_header pats column flag = Ok flag' -> flag' = flag \/ flag' = Some true.
Proof.
  unfold role_check. destruct is_header.
  - destruct (count_any pats column) as [n|]; [|discriminate]. cbn [bind].
    destruct (tolerated _ n); intros E; inversion E; auto.
  - intros E. inversion E. auto.
Qed.

Lemma latlong_columns_range (df : frame) (hs : list string)
      (latted longed latlonged verdict : option bool) :
  latlong_columns LAT_PATTERNS LON_PATTERNS df hs latted longed latlonged = Ok verdict ->
  verdict = latlonged \/ verdict = Some true.
Proof.
  revert latted longed latlonged. induction hs as [|h hs IH];
    intros latted longed latlonged; simpl.
  - intros E. inversion E. now left.
  - destruct (truthy latlonged); [intros E; inversion E; now left|].
    destruct (_ && _); [apply IH|].
    destruct (getitem df h) as [c|cs]; [|discriminate].
    destruct (role_check _ LAT_PATTERNS _ latted) as [latted'|]; [|discriminate].
    cbn [bind].
    destruct (role_check _ LON_PATTERNS _ longed) as [longed'|]; [|discriminate].
    cbn [bind]. intros E. apply IH in E.
    destruct (truthy latted' && truthy longed'); [|exact E].
    right. destruct E as [E|E]; exact E.
Qed.

Lemma latlong_samples_range (contents : dict) (latlonged verdict : option bool) :
  latlong_samples LAT_PATTERNS LON_PATTERNS contents latlonged = Ok verdict ->
  verdict = latlonged \/ verdict = Some true.
Proof.
  revert latlonged. induction contents as [|[key content] contents IH];
    intros latlonged; simpl.
  - intros E. inversion E. now left.
  - destruct (truthy latlonged); [intros E; inversion E; now left|].
    destruct (latlong_columns _ _ _ _ _ _ _) as [l|] eqn:El; [|discriminate].
    cbn [bind]. intros E. apply IH in E. apply latlong_columns_range in El.
    destruct E as [E|E], El as [El|El]; subst; auto.
Qed.

Lemma check_latlong_range (contents : dict) (verdict : option bool) :
  check_latlong LAT_PATTERNS LON_PATTERNS contents = Ok verdict -> unset_or_true verdict.
Proof. intros E. apply latlong_samples_range in E. exact E. Qed.

End Ranges.

End VerdictRange.

(* ================================================================== *)
(** * Properties of the header normaliser *)
(* ================================================================== *)

Module NormalizerFacts.
Import Py Re Frame Normalizer NormalSpec Examples.

Lemma with_cells_same (c : column) : with_cells (cells c) c = c.
Proof. now destruct c. Qed.

Lemma select_rows_all (keep : nat -> bool) (xs : list cell) (k : nat) :
  (forall i, k <= i < k + List.length xs -> keep i = true) ->
  select_rows keep k xs = xs.
Proof.
  revert k. induction xs as [|x xs IH]; intros k H; simpl; [reflexivity|].
  rewrite H by (simpl; lia). f_equal. apply IH. intros i Hi. apply H. simpl. lia.
Qed.

Lemma dropna_rows_same (df : frame) :
  rectangular df ->
  (forall i, i < nrows df -> existsb notna (row df i) = true) ->
  dropna_rows df = df.
Proof.
  intros Hrect Hrows. unfold dropna_rows.
  transitivity (map (fun c : column => c) df); [|apply map_id].
  apply map_ext_in. intros c Hc.
  unfold rectangular in Hrect. rewrite Forall_forall in Hrect.
  rewrite select_rows_all; [apply with_cells_same|].
  intros i Hi. apply Hrows. rewrite <- (Hrect c Hc). lia.
Qed.

Lemma dropna_cols_same (df : frame) :
  Forall (fun c => existsb notna (cells c) = true) df -> dropna_cols df = df.
Proof.
  unfold dropna_cols. induction 1 as [|c df Hc _ IH]; simpl; [reflexivity|].
  now rewrite Hc, IH.
Qed.

Lemma promote_first_row_named (df : frame) :
  df <> [] -> Forall (fun c => re_match unnamed_exp (label c) = false) df ->
  promote_first_row df = Ok df.
Proof.
  intros Hne Hnamed. unfold promote_first_row.
  destruct df as [|c df]; [contradiction|].
  inversion Hnamed as [|x l Hc _]; subst. cbn [columns map forallb].
  now rewrite Hc.
Qed.

Lemma hxltag_tag (x : cell) :
  hxltag x = ((py_str x =? "")%string || re_match hxl_exp (py_str x)).
Proof. unfold hxltag. now destruct (py_str x =? "")%string. Qed.

Lemma tag_row_scan (df : frame) (i : nat) :
  forallb hxltag (row df i) = is_tag_row df i.
Proof.
  unfold is_tag_row. induction (row df i) as [|x l IH]; simpl; [reflexivity|].
  now rewrite hxltag_tag, IH.
Qed.

Lemma scan_hxl_none (df : frame) (todo : list nat) :
  (forall i, In i todo -> is_tag_row df i = false) ->
  scan_hxl df todo None = None.
Proof.
  induction todo as [|i todo IH]; intros H; simpl; [reflexivity|].
  rewrite tag_row_scan, H by now left. apply IH. intros j Hj. apply H. now right.
Qed.

Lemma find_hxlrow_none (df : frame) :
  (forall i, i < Nat.min 10 (nrows df) -> is_tag_row df i = false) ->
  find_hxlrow df = None.
Proof.
  intros H. unfold find_hxlrow. apply scan_hxl_none. intros i Hi.
  apply in_seq in Hi. apply H. lia.
Qed.

(** C5 (as amended).  An already normalised sample with at least one
    column comes back unchanged, labels and rows, when the extension is
    [csv], when some column is not of object type, or when the sample has
    exactly one row. *)
Theorem parse_tabular_fixed_point (df : frame) (fileext : string) :
  df <> [] -> rectangular df -> already_normalized df ->
  fileext = "csv"
  \/ forallb (fun c => is_object (dtype_of c)) df = false
  \/ nrows df = 1 ->
  parse_tabular df fileext = Ok df.
Proof.
  intros Hne Hrect (_ & Hnamed & Htag & Hrows & Hcols) Hcase.
  unfold parse_tabular.
  rewrite (dropna_rows_same Hrect Hrows), (dropna_cols_same Hcols).
  rewrite (promote_first_row_named Hne Hnamed). cbn [bind].
  destruct (forallb (fun c => is_object (dtype_of c)) df) eqn:Hobj;
    cbn [negb]; [|reflexivity].
  destruct (nrows df =? 1) eqn:Hone; [reflexivity|].
  rewrite (find_hxlrow_none _ Htag).
  destruct Hcase as [->|[Hcase|Hcase]].
  - reflexivity.
  - discriminate.
  - apply Nat.eqb_neq in Hone. contradiction.
Qed.

Lemma plain_normalized : already_normalized plain.
Proof.
  unfold already_normalized. split; [|split; [|split; [|split]]].
  - repeat constructor; simpl; intuition discriminate.
  - repeat constructor.
  - intros i Hi. simpl in Hi.
    do 4 (destruct i as [|i]; [reflexivity|]). lia.
  - intros i Hi. simpl in Hi.
    do 4 (destruct i as [|i]; [reflexivity|]). lia.
  - repeat constructor.
Qed.

(** C5, witness: the sample [plain], read as [csv]. *)
Lemma parse_tabular_fixed_point_witness : parse_tabular plain "csv" = Ok plain.
Proof.
  apply parse_tabular_fixed_point.
  - discriminate.
  - repeat constructor.
  - exact plain_normalized.
  - now left.
Defined.

(** C5, counterexample: the same sample read as [xlsx] loses its first
    three rows to the labels; and normalising twice as [xlsx] differs from
    normalising once. *)
Lemma parse_tabular_not_idempotent :
  already_normalized plain
  /\ parse_tabular plain "xlsx"
     = Ok [text_column "Name||Nairobi||Mombasa||Kisumu" ["Nakuru"];
           text_column "Code||KEN01||KEN02||KEN03" ["KEN04"]]
  /\ parse_tabular plain "xlsx" <> Ok plain
  /\ bind (parse_tabular plain_long "xlsx") (fun df => parse_tabular df "xlsx")
     <> parse_tabular plain_long "xlsx".
Proof.
  split; [exact plain_normalized|]. split; [reflexivity|].
  split; vm_compute; discriminate.
Qed.

(** C2.  A tag row at index 0 is found by the scan and then taken for no
    tag row at all: [tagged] reaches the scan, its first tag row is row 0,
    and it comes back with its labels and its tag row untouched ([csv]) or
    with three rows folded into the labels ([xlsx]); with a second tag row
    further down, that one is taken.  A tag row at index 1 is handled as
    the claim says. *)
Theorem tag_row_zero_missed :
  reaches_scan tagged = true
  /\ first_tag_row tagged = Some 0
  /\ parse_tabular tagged "csv" = Ok tagged
  /\ parse_tabular tagged "xlsx"
     = Ok [text_column "Name||#adm1+name||Nairobi||Mombasa" ["Kisumu"];
           text_column "Code||#adm1+code||KEN01||KEN02" ["KEN03"]]
  /\ first_tag_row tagged_twice = Some 0
  /\ parse_tabular tagged_twice "csv"
     = Ok [text_column "Name||#adm1+name||Nairobi||#adm1+name" ["Kisumu"];
           text_column "Code||#adm1+code||KEN01||#adm1+code" ["KEN03"]]
  /\ first_tag_row tagged_below = Some 1
  /\ parse_tabular tagged_below "csv"
     = Ok [text_column "Name||Nom||#adm1+name" ["Nairobi"; "Mombasa"; "Kisumu"];
           text_column "Code||Code||#adm1+code" ["KEN01"; "KEN02"; "KEN03"]].
Proof. repeat split; reflexivity. Qed.

End NormalizerFacts.

(* ================================================================== *)
(** * Properties of the archive resolver and of the loader *)
(* ================================================================== *)

Module OrchestratorFacts.
Import Py Re Frame Normalizer Classifier Env Orchestrator OrchestratorSpec Examples.
Open Scope py_scope.

Lemma mem_In (x : string) (xs : list string) : mem x xs = true <-> In x xs.
Proof.
  unfold mem. rewrite existsb_exists. split.
  - intros [y [Hy E]]. apply String.eqb_eq in E. now subst.
  - intros H. exists x. split; [assumption | apply String.eqb_refl].
Qed.

Ltac one_of H :=
  unfold is_geo, mem in H; cbn [existsb] in H;
  repeat (apply orb_prop in H; destruct H as [H|H]);
  try discriminate H; apply String.eqb_eq in H; subst.

(** The tests of the loop body on an extension of the geo branches. *)
Lemma geo_tests (fileext : string) :
  is_geo fileext = true ->
  mem fileext ["xlsx"; "xls"] = false
  /\ (fileext =? "csv")%string = false
  /\ ((mem fileext ["geojson"; "json"; "shp"; "topojson"] = true
       /\ mem fileext ["gdb"; "gpkg"] = false)
      \/ (mem fileext ["geojson"; "json"; "shp"; "topojson"] = false
          /\ mem fileext ["gdb"; "gpkg"] = true)).
Proof. intros H. one_of H; vm_compute; auto. Qed.

Lemma then_block_run {A} (m : M (flow A)) (k : A -> M (flow A)) (s s' : state)
      (f : flow A) :
  m s = mkOutcome (Ok f) s' [] ->
  then_block m k s
  = match f with
    | Continue a => mkOutcome (Ok (Continue a)) s' []
    | Next a => k a s'
    end.
Proof.
  intros E. unfold then_block, mbind. rewrite E. cbn [res st evs app].
  destruct f as [a|a]; [reflexivity | now destruct (k a s')].
Qed.

Lemma read_candidate_geo (w : world) (fileext f : string) (data : dict)
      (error : option string) (s : state) :
  is_geo fileext = true ->
  read_candidate w fileext f (data, error) s
  = mkOutcome
      (Ok (match geo_read w fileext f with
           | Some df => ([(w_uuid w (drawn s), df)], error)
           | None => (data, unable f)
           end))
      (mkState (S (drawn s)) (dirs s)) [].
Proof.
  intros H. destruct (geo_tests fileext H) as [Hx [Hc Hgeo]].
  assert (E1 : excel_block w fileext f (data, error) s
               = mkOutcome (Ok (Next (data, error))) s []).
  { unfold excel_block. now rewrite Hx. }
  pose proof (@then_block_run _ _ (csv_block w fileext f) _ _ _ E1) as E2.
  cbv iota in E2. unfold csv_block at 2 in E2. rewrite Hc in E2.
  change (ret (Next (data, error)) s)
    with (mkOutcome (Ok (Next (data, error))) s []) in E2.
  pose proof (@then_block_run _ _ (vector_block w fileext f) _ _ _ E2) as E3.
  cbv iota in E3. unfold vector_block at 2 in E3.
  unfold read_candidate, geo_read.
  destruct Hgeo as [[Hg Hl] | [Hg Hl]]; rewrite Hl; rewrite Hg in E3.
  - assert (E3' : then_block (then_block (excel_block w fileext f (data, error))
                                         (csv_block w fileext f))
                             (vector_block w fileext f) s
                  = mkOutcome
                      (Ok (match w_read_file w f None with
                           | Some df => Next ([(w_uuid w (drawn s), df)], error)
                           | None => Continue (data, unable f)
                           end))
                      (mkState (S (drawn s)) (dirs s)) []).
    { rewrite E3. unfold mbind, get_uuid. cbn [res st evs app].
      now destruct (w_read_file w f None). }
    pose proof (@then_block_run _ _ (layer_block w fileext f) _ _ _ E3') as E4.
    unfold mbind. rewrite E4.
    destruct (w_read_file w f None); [unfold layer_block; rewrite Hl|]; reflexivity.
  - change (ret (Next (data, error)) s)
      with (mkOutcome (Ok (Next (data, error))) s []) in E3.
    pose proof (@then_block_run _ _ (layer_block w fileext f) _ _ _ E3) as E4.
    cbv iota in E4. unfold layer_block at 2 in E4. rewrite Hl in E4.
    unfold mbind at 1. rewrite E4. unfold mbind, get_uuid. cbn [res st evs app].
    now destruct (w_read_file w (dirname f) (Some (basename f))).
Qed.

Lemma read_loop_geo (w : world) (fileext : string) (files : list string)
      (data : dict) (error : option string) (s : state) :
  is_geo fileext = true ->
  read_loop w fileext files (data, error) s
  = mkOutcome (Ok (geo_data w fileext files (drawn s) data,
                   geo_error w fileext files error))
              (mkState (drawn s + List.length files) (dirs s)) [].
Proof.
  intros Hgeo. revert data error s.
  induction files as [|f files IH]; intros data error s.
  - simpl. unfold ret. rewrite Nat.add_0_r. now destruct s.
  - cbn [read_loop]. unfold mbind. rewrite (@read_candidate_geo w fileext f data error s Hgeo).
    cbn [res st evs app].
    destruct (geo_read w fileext f) as [df|] eqn:E; rewrite IH;
      cbn [res st evs drawn dirs geo_data geo_error List.length app]; rewrite E;
      rewrite Nat.add_succ_r; reflexivity.
Qed.

Lemma geo_data_none (w : world) (fileext : string) (files : list string) (n : nat)
      (data : dict) :
  Forall (fun g => geo_read w fileext g = None) files ->
  geo_data w fileext files n data = data.
Proof.
  intros H. revert n. induction H as [|f files Hf _ IH]; intros n; simpl;
    [reflexivity|]. now rewrite Hf, IH.
Qed.

Lemma geo_data_last (w : world) (fileext : string) (pre post : list string)
      (f : string) (df : frame) (n : nat) (data : dict) :
  geo_read w fileext f = Some df ->
  Forall (fun g => geo_read w fileext g = None) post ->
  geo_data w fileext (pre ++ f :: post) n data
  = [(w_uuid w (n + List.length pre), df)].
Proof.
  intros Hf Hpost. revert n data.
  induction pre as [|g pre IH]; intros n data; simpl.
  - rewrite Hf, Nat.add_0_r. now apply geo_data_none.
  - rewrite IH, Nat.add_succ_r. reflexivity.
Qed.

Lemma geo_data_short (w : world) (fileext : string) (files : list string) (n : nat)
      (data : dict) :
  List.length data <= 1 -> List.length (geo_data w fileext files n data) <= 1.
Proof.
  revert n data. induction files as [|f files IH]; intros n data H; simpl;
    [assumption|].
  apply IH. destruct (geo_read w fileext f); simpl; lia.
Qed.

(** C9.  In the vector and geo branches every candidate that is read
    replaces the whole mapping by a mapping of one entry: the mapping
    returned holds at most one sample, the sample of the last candidate
    read with success under the identifier drawn for it, and nothing when
    no candidate could be read. *)
Theorem geo_candidates_replace (w : world) (fileext : string)
        (files : list string) (s : state) :
  is_geo fileext = true ->
  exists data error,
    res (read_downloaded_data w files fileext s) = Ok (data, error)
    /\ List.length data <= 1
    /\ (forall pre f post df,
          files = (pre ++ f :: post)%list ->
          geo_read w fileext f = Some df ->
          Forall (fun g => geo_read w fileext g = None) post ->
          data = [(w_uuid w (drawn s + List.length pre), df)])
    /\ (Forall (fun g => geo_read w fileext g = None) files -> data = []).
Proof.
  intros Hgeo.
  exists (geo_data w fileext files (drawn s) []), (geo_error w fileext files None).
  split; [|split; [|split]].
  - exact (f_equal (@res _) (@read_loop_geo w fileext files [] None s Hgeo)).
  - apply geo_data_short. simpl. lia.
  - intros pre f post df -> Hf Hpost. now apply geo_data_last.
  - intros Hnone. now apply geo_data_none.
Qed.

(** C9, witness: of three candidates the first two are read, the third is
    not; the sample of the second alone is returned. *)
Lemma geo_candidates_replace_witness :
  is_geo "geojson" = true
  /\ exists error,
       res (read_downloaded_data catalog
              ["/x/a.geojson"; "/x/b.geojson"; "/x/c.geojson"] "geojson" start)
       = Ok ([("id1", wards)], error).
Proof.
  split; [reflexivity|].
  destruct (@geo_candidates_replace catalog "geojson"
              ["/x/a.geojson"; "/x/b.geojson"; "/x/c.geojson"] start eq_refl)
    as [data [error [Hres [_ [Hlast _]]]]].
  exists error. rewrite Hres.
  rewrite (Hlast ["/x/a.geojson"] "/x/b.geojson" ["/x/c.geojson"] wards);
    try reflexivity.
  constructor; [reflexivity | constructor].
Defined.

(** C7.  A dataset none of whose file types is allowed: the error
    ["Can't check formats"], both verdicts unset, no directory made and no
    call issued. *)
Theorem filetype_gate (w : world) (ds : dataset) (temp_folder : string) (s : state) :
  (forall f, In f (ds_filetypes ds) -> ~ In f allowed_filetypes) ->
  check_location w ds temp_folder s
  = mkOutcome (Ok (None, None, Some "Can't check formats")) s [].
Proof.
  intros Hnone. unfold check_location.
  replace (existsb (fun f => mem f allowed_filetypes) (ds_filetypes ds)) with false;
    [reflexivity|].
  symmetry. apply not_true_is_false. intros E.
  apply existsb_exists in E. destruct E as [f [Hf E]].
  apply mem_In in E. exact (Hnone f Hf E).
Qed.

(** C7, witness: a dataset of one [pdf] resource. *)
Lemma filetype_gate_witness :
  check_location catalog (mkDataset ["pdf"] [report]) "/tmp" start
  = mkOutcome (Ok (None, None, Some "Can't check formats")) start [].
Proof.
  apply filetype_gate. intros f [<-|[]] Hin.
  repeat (destruct Hin as [Hin|Hin]; [discriminate Hin|]). exact Hin.
Defined.

(** C8 (as amended).  An archive that unpacks and holds no file of the
    declared extension: for [xlsx] the downloaded file itself is the sole
    candidate; for [xls] there is no candidate. *)
Theorem archive_without_match (w : world) (r : resource) (fileext folder f : string)
        (s : state) :
  w_download w r folder = Some f ->
  w_is_zipfile w f || contains ".zip" (basename f) = true ->
  w_extractall w f (join folder (w_uuid w (drawn s))) = true ->
  w_glob w (join (join (join folder (w_uuid w (drawn s))) "**") ("*." ++ fileext)) = [] ->
  (fileext = "xlsx" ->
   res (download_resource w r fileext folder s) = Ok (Some [f], None))
  /\ (fileext = "xls" ->
      res (download_resource w r fileext folder s) = Ok (Some [], None)).
Proof.
  intros Hd Hzip Hex Hglob.
  split; intros ->; unfold download_resource; rewrite Hd, Hzip;
    unfold mbind, get_uuid; cbn [res st evs]; rewrite Hex, Hglob; reflexivity.
Qed.

(** C8, witness: the archive [book], declared [xlsx]. *)
Lemma archive_without_match_witness :
  res (download_resource catalog book "xlsx" "/tmp/id0" start)
  = Ok (Some ["/tmp/id0/book.zip"], None).
Proof.
  apply (@archive_without_match catalog book "xlsx" "/tmp/id0" "/tmp/id0/book.zip" start);
    reflexivity.
Defined.

(** C8, counterexample: the archive [old_book], declared [xls], unpacks
    and holds no [xls] file, and the downloaded file is not a candidate:
    there is none. *)
Lemma xls_archive_has_no_fallback :
  w_download catalog old_book "/tmp/id0" = Some "/tmp/id0/old.zip"
  /\ w_is_zipfile catalog "/tmp/id0/old.zip" || contains ".zip" (basename "/tmp/id0/old.zip") = true
  /\ w_extractall catalog "/tmp/id0/old.zip" "/tmp/id0/id0" = true
  /\ w_glob catalog "/tmp/id0/id0/**/*.xls" = []
  /\ res (download_resource catalog old_book "xls" "/tmp/id0" start) = Ok (Some [], None)
  /\ res (download_resource catalog old_book "xls" "/tmp/id0" start)
     <> Ok (Some ["/tmp/id0/old.zip"], None).
Proof. repeat split; try reflexivity. discriminate. Qed.

End OrchestratorFacts.

(* ================================================================== *)
(** * Properties of the orchestrator *)
(* ================================================================== *)

Module LoopFacts.
Import Py Re Frame Normalizer Classifier Env Orchestrator OrchestratorSpec Examples.
Import VerdictRange.
Open Scope py_scope.

Lemma quiet_ret {A} (a : A) : quiet (ret a).
Proof. intros s. reflexivity. Qed.

Lemma quiet_lift {A} (r : result A) : quiet (lift r).
Proof. intros s. reflexivity. Qed.

Lemma quiet_get_uuid (w : world) : quiet (get_uuid w).
Proof. intros s. reflexivity. Qed.

Lemma quiet_mbind {A B} (m : M A) (k : A -> M B) :
  quiet m -> (forall a, quiet (k a)) -> quiet (mbind m k).
Proof.
  intros Hm Hk s. unfold mbind. specialize (Hm s).
  destruct (res (m s)) as [a|]; cbn [evs]; rewrite Hm; [|reflexivity].
  apply Hk.
Qed.

Ltac quiet_step :=
  match goal with
  | |- quiet (mbind _ _) => apply quiet_mbind; [|intros ?]
  | |- quiet (ret _) => apply quiet_ret
  | |- quiet (lift _) => apply quiet_lift
  | |- quiet (get_uuid _) => apply quiet_get_uuid
  | |- quiet (match ?x with _ => _ end) => destruct x
  | |- quiet (if ?x then _ else _) => destruct x
  | |- quiet (let '(_, _) := ?x in _) => destruct x
  end.

Lemma quiet_download_resource (w : world) (r : resource) (fileext folder : string) :
  quiet (download_resource w r fileext folder).
Proof. unfold download_resource. repeat quiet_step. Qed.

Lemma quiet_store_sheets (w : world) (fileext : string)
      (contents : list (string * frame)) (data : dict) :
  quiet (store_sheets w fileext contents data).
Proof.
  revert data. induction contents as [|[name sheet] contents IH]; intros data;
    cbn [store_sheets]; repeat quiet_step; apply IH.
Qed.

Lemma quiet_then_block {A} (m : M (flow A)) (k : A -> M (flow A)) :
  quiet m -> (forall a, quiet (k a)) -> quiet (then_block m k).
Proof.
  intros Hm Hk. unfold then_block. apply quiet_mbind; [assumption|].
  intros [a|a]; [apply quiet_ret | apply Hk].
Qed.

Lemma quiet_read_candidate (w : world) (fileext f : string) (acc : dict * option string) :
  quiet (read_candidate w fileext f acc).
Proof.
  unfold read_candidate. apply quiet_mbind; [|intros [a|a]; apply quiet_ret].
  apply quiet_then_block; [apply quiet_then_block; [apply quiet_then_block|]|].
  - destruct acc as [data error]. unfold excel_block. repeat quiet_step.
    apply quiet_store_sheets.
  - intros [data error]. unfold csv_block. repeat quiet_step.
  - intros [data error]. unfold vector_block. repeat quiet_step.
  - intros [data error]. unfold layer_block. repeat quiet_step.
Qed.

Lemma quiet_read_downloaded_data (w : world) (files : list string) (fileext : string) :
  quiet (read_downloaded_data w files fileext).
Proof.
  unfold read_downloaded_data. generalize (([], None) : dict * option string).
  induction files as [|f files IH]; intros acc; cbn [read_loop].
  - apply quiet_ret.
  - apply quiet_mbind; [apply quiet_read_candidate | exact IH].
Qed.





Lemma quiet_outcome {A} (m : M A) (s : state) (r : result A) (s' : state)
      (e : list event) :
  quiet m -> m s = mkOutcome r s' e -> e = [].
Proof. intros H E. specialize (H s). rewrite E in H. exact H. Qed.

Lemma mbind_emit {B} (e : event) (k : unit -> M B) (s : state) :
  mbind (emit e) k s = mkOutcome (res (k tt s)) (st (k tt s)) (e :: evs (k tt s)).
Proof. reflexivity. Qed.

Lemma mbind_quiet {A B} (m : M A) (k : A -> M B) (s : state) :
  quiet m ->
  mbind m k s
  = match res (m s) with
    | Ok a => k a (st (m s))
    | Raise => mkOutcome Raise (st (m s)) []
    end.
Proof.
  intros H. unfold mbind. rewrite (H s).
  destruct (res (m s)) as [a|]; [|reflexivity].
  now destruct (k a (st (m s))).
Qed.

Lemma loop_body_ends (w : world) (folder : string) (r : resource)
      (pcoded latlonged : option bool) (error : option string) (s : state) :
  body_ends r pcoded latlonged error s
            (loop_body w folder r (pcoded, latlonged, error) s).
Proof.
  unfold loop_body.
  destruct (truthy pcoded) eqn:Hp; [now constructor|].
  destruct (negb (mem (res_file_type r) allowed_filetypes)); [now constructor|].
  rewrite mbind_emit.
  rewrite (@mbind_quiet _ _ _ _ s (@quiet_download_resource w r _ folder)).
  match goal with
  | |- context [st (download_resource w r ?e folder s)] =>
      generalize (st (download_resource w r e folder s))
  end.
  intros sd.
  destruct (res (download_resource w r _ folder s)) as [[files error']|];
    cbn [res st evs]; [|now constructor].
  destruct (no_files files); [now constructor|].
  rewrite mbind_emit. cbn [res st evs].
  match goal with
  | |- context [mbind (read_downloaded_data w ?fs ?e) ?k sd] =>
      rewrite (@mbind_quiet _ _ _ k sd (@quiet_read_downloaded_data w fs e));
      generalize (st (read_downloaded_data w fs e sd)); intros sr;
      destruct (res (read_downloaded_data w fs e sd)) as [[contents error'']|]
  end; cbn [res st evs]; [|now constructor].
  cbn [negb]. unfold mbind, lift, emit, ret. cbn [res st evs app].
  destruct (check_pcoded _ _ contents) as [pcoded'|] eqn:Ec;
    cbn [res st evs app]; [|now constructor].
  apply check_pcoded_range in Ec.
  destruct Ec as [-> | ->]; cbn [truthy negb andb res st evs app];
    [|constructor; [assumption | now right]].
  destruct (negb (truthy latlonged) && _); cbn [res st evs app];
    [|constructor; [assumption | now left]].
  destruct (check_latlong _ _ contents) as [latlonged'|] eqn:El;
    cbn [res st evs app]; [|now constructor].
  apply check_latlong_range in El. now constructor.
Qed.

Lemma loop_stopped (w : world) (folder : string) (rs : list resource)
      (pcoded latlonged : option bool) (error : option string) (s : state) :
  truthy pcoded = true ->
  resources_loop w folder rs (pcoded, latlonged, error) s
  = mkOutcome (Ok (Completed (pcoded, latlonged, error))) s [].
Proof.
  intros Hp. destruct rs as [|r rs]; [reflexivity|].
  cbn [resources_loop]. unfold mbind, loop_body. rewrite Hp. reflexivity.
Qed.

(** One pass of the loop, then the rest of the loop. *)
Lemma loop_cons (w : world) (folder : string) (r : resource) (rs : list resource)
      (v : verdicts) (s : state) (o : outcome step) :
  loop_body w folder r v s = o ->
  resources_loop w folder (r :: rs) v s
  = match res o with
    | Ok (Break v') => mkOutcome (Ok (Completed v')) (st o) (evs o ++ [])
    | Ok (Return v') => mkOutcome (Ok (Returned v')) (st o) (evs o ++ [])
    | Ok (Proceed v') =>
        let o' := resources_loop w folder rs v' (st o) in
        mkOutcome (res o') (st o') (evs o ++ evs o')
    | Raise => mkOutcome Raise (st o) (evs o)
    end.
Proof.
  intros <-. cbn [resources_loop]. unfold mbind.
  destruct (res (loop_body w folder r v s)) as [[v'|v'|v']|]; reflexivity.
Qed.

Ltac body_cases w folder r v s :=
  let p := fresh "pcoded" in
  let l := fresh "latlonged" in
  let e := fresh "error" in
  let o := fresh "o" in
  let Eo := fresh "Eo" in
  let Hb := fresh "Hb" in
  destruct v as [[p l] e];
  pose proof (@loop_body_ends w folder r p l e s) as Hb;
  remember (loop_body w folder r (p, l, e) s) as o eqn:Eo;
  rewrite (@loop_cons w folder r _ (p, l, e) s o (eq_sym Eo));
  clear Eo;
  destruct Hb as
      [ Hp | Hp | s' error' Hp | s' Hp | s' Hp
      | s' Hp | s' pcoded' error' Hp Hp'
      | s' latlonged' error' Hp Hl' ];
  cbn [res st evs app].

Lemma loop_in_order (w : world) (folder : string) (rs : list resource)
      (v : verdicts) (s : state) :
  in_listing_order rs (evs (resources_loop w folder rs v s)).
Proof.
  revert v s. induction rs as [|r rs IH]; intros v s; [constructor|].
  body_cases w folder r v s.
  - constructor.
  - apply order_skip. apply IH.
  - apply (order_block (block := [])); constructor.
  - apply (order_block (block := [])); constructor.
  - apply (order_block (block := [ELoad r]) (tr := [])); repeat constructor.
  - apply (order_block (block := [ELoad r; EPcoded r None]) (tr := []));
      repeat constructor.
  - apply (order_block (block := [ELoad r; EPcoded r pcoded']));
      [repeat constructor | apply IH].
  - apply (order_block (block := [ELoad r; EPcoded r None; ELatLonged r latlonged']));
      [repeat constructor | apply IH].
Qed.

Lemma loop_stops (w : world) (folder : string) (rs : list resource)
      (v : verdicts) (s : state) :
  stops_at_pcoded (evs (resources_loop w folder rs v s)).
Proof.
  revert v s. induction rs as [|r rs IH]; intros v s; [exact I|].
  body_cases w folder r v s; try exact I; try apply IH.
  destruct Hp' as [->| ->]; cbn [stops_at_pcoded].
  - apply IH.
  - rewrite loop_stopped by reflexivity. constructor.
Qed.

Lemma in_order_touches (rs : list resource) (tr : list event) :
  in_listing_order rs tr -> filter touches_resource tr = tr.
Proof.
  induction 1 as [rs | r rs tr _ IH | r rs block tr Hblock _ IH];
    [reflexivity | exact IH |].
  cbn [filter touches_resource event_resource]. f_equal.
  rewrite filter_app, IH. f_equal.
  induction Hblock as [|e block He _ IHb]; [reflexivity|].
  cbn [filter]. unfold touches_resource at 1. rewrite He. now rewrite IHb.
Qed.

Lemma stops_then_quiet (tr tail : list event) :
  stops_at_pcoded tr -> Forall (fun e => touches_resource e = false) tail ->
  stops_at_pcoded (tr ++ tail).
Proof.
  intros Htr Htail. induction tr as [|e tr IH]; cbn [app].
  - induction Htail as [|e tail He _ IHt]; [exact I|].
    destruct e as [f|f|r|r|r v|r v]; try discriminate He; exact IHt.
  - destruct e as [f|f|r|r|r [[|]|]|r v]; cbn [stops_at_pcoded] in *;
      try (now apply IH).
    apply Forall_app. now split.
Qed.

Lemma stops_split (tr before after : list event) (r : resource) :
  stops_at_pcoded tr -> tr = (before ++ EPcoded r (Some true) :: after)%list ->
  Forall (fun e => touches_resource e = false) after.
Proof.
  revert tr. induction before as [|e before IH]; intros tr Htr ->.
  - exact Htr.
  - cbn [app] in Htr.
    destruct e as [f|f|r'|r'|r' [[|]|]|r' v]; cbn [stops_at_pcoded] in Htr;
      try (now apply (IH _ Htr)).
    apply Forall_app in Htr. destruct Htr as [_ Htr].
    now inversion Htr.
Qed.


Lemma filter_untouched (tr : list event) :
  Forall (fun e => touches_resource e = false) tr -> filter touches_resource tr = [].
Proof.
  induction 1 as [|e tr He _ IH]; [reflexivity|]. cbn [filter]. now rewrite He.
Qed.

(** A run that passes the gate: the scratch directory is made, the loop
    runs, and [finalize] follows unless the loop returned or raised. *)
Lemma check_location_run (w : world) (ds : dataset) (temp_folder : string)
      (s : state) :
  existsb (fun f => mem f allowed_filetypes) (ds_filetypes ds) = true ->
  let folder := join temp_folder (w_uuid w (drawn s)) in
  check_location w ds temp_folder s
  = if mem folder (dirs s)
    then mkOutcome Raise (mkState (S (drawn s)) (dirs s)) []
    else
      let o := resources_loop w folder (ds_resources ds) (None, None, None)
                              (mkState (S (drawn s)) (folder :: dirs s)) in
      match res o with
      | Ok (Completed v) =>
          let o' := finalize folder v (st o) in
          mkOutcome (res o') (st o') (EMkdir folder :: evs o ++ evs o')
      | Ok (Returned v) => mkOutcome (Ok v) (st o) (EMkdir folder :: evs o ++ [])
      | Raise => mkOutcome Raise (st o) (EMkdir folder :: evs o)
      end.
Proof.
  intros Hgate folder. unfold check_location. rewrite Hgate. cbn [negb].
  unfold mbind, get_uuid, mkdir. cbn [res st evs drawn dirs app]. fold folder.
  destruct (mem folder (dirs s)); cbn [res st evs drawn dirs app]; [reflexivity|].
  destruct (res (resources_loop w folder _ _ _)) as [[v|v]|]; reflexivity.
Qed.

Lemma finalize_events (folder : string) (v : verdicts) (s : state) :
  Forall (fun e => touches_resource e = false) (evs (finalize folder v s)).
Proof.
  destruct v as [[p l] e]. unfold finalize, mbind, rmtree, ret.
  destruct (mem folder (dirs s)); cbn [res st evs app]; repeat constructor.
Qed.

(** The events of a run: nothing, or the making of the scratch directory,
    the events of the loop, and at most its removal. *)
Lemma check_location_events (w : world) (ds : dataset) (temp_folder : string)
      (s : state) :
  evs (check_location w ds temp_folder s) = []
  \/ exists folder s' tail,
       evs (check_location w ds temp_folder s)
       = (EMkdir folder
            :: evs (resources_loop w folder (ds_resources ds) (None, None, None) s')
            ++ tail)%list
       /\ Forall (fun e => touches_resource e = false) tail.
Proof.
  destruct (existsb (fun f => mem f allowed_filetypes) (ds_filetypes ds)) eqn:Hgate.
  - rewrite (check_location_run w ds temp_folder s Hgate). cbv zeta.
    destruct (mem _ (dirs s)); [now left|]. right.
    eexists. eexists.
    destruct (res (resources_loop w _ _ _ _)) as [[v|v]|]; cbn [evs].
    + eexists. split; [reflexivity | apply finalize_events].
    + exists []. split; [reflexivity | constructor].
    + exists []. split; [now rewrite app_nil_r | constructor].
  - left. unfold check_location. now rewrite Hgate.
Qed.

(** C6.  The resources are processed in listing order: the downloads,
    loads and classifications of a run come in blocks, one for each
    resource touched, in the order of the listing.  And once a resource has
    given a positive pcode verdict, no download, load or classification
    follows, of that resource or of a later one. *)
Theorem listing_order_and_early_stop (w : world) (ds : dataset)
        (temp_folder : string) (s : state) :
  in_listing_order (ds_resources ds)
                   (filter touches_resource (evs (check_location w ds temp_folder s)))
  /\ forall before r after,
       evs (check_location w ds temp_folder s)
       = (before ++ EPcoded r (Some true) :: after)%list ->
       Forall (fun e => touches_resource e = false) after.
Proof.
  destruct (check_location_events w ds temp_folder s)
    as [E | [folder [s' [tail [E Htail]]]]]; rewrite E.
  - split; [constructor|]. intros [|e before] r after H; discriminate H.
  - split.
    + cbn [filter touches_resource event_resource]. rewrite filter_app.
      rewrite (filter_untouched Htail), app_nil_r.
      rewrite (in_order_touches (loop_in_order w folder _ _ s')).
      apply loop_in_order.
    + intros before r after H.
      apply (@stops_split _ before after r) in H; [exact H|].
      cbn [stops_at_pcoded]. apply stops_then_quiet; [apply loop_stops | exact Htail].
Qed.


Lemma loop_app (w : world) (folder : string) (pre rest : list resource)
      (v : verdicts) (s : state) :
  resources_loop w folder (pre ++ rest) v s
  = let o := resources_loop w folder pre v s in
    match res o with
    | Ok (Completed v') =>
        let o' := resources_loop w folder rest v' (st o) in
        mkOutcome (res o') (st o') (evs o ++ evs o')
    | _ => o
    end.
Proof.
  revert v s. induction pre as [|r pre IH]; intros v s.
  - cbn. now destruct (resources_loop w folder rest v s).
  - cbn [app]. cbv zeta.
    destruct v as [[pcoded latlonged] error].
    pose proof (@loop_body_ends w folder r pcoded latlonged error s) as Hb.
    remember (loop_body w folder r (pcoded, latlonged, error) s) as o eqn:Eo.
    rewrite !(@loop_cons w folder r _ (pcoded, latlonged, error) s o (eq_sym Eo)).
    clear Eo.
    destruct Hb; cbn [res st evs app]; try reflexivity;
      try (rewrite loop_stopped by assumption; reflexivity);
      rewrite IH; cbv zeta;
      match goal with
      | |- context [resources_loop w folder pre ?v0 ?s0] =>
          destruct (resources_loop w folder pre v0 s0) as [[[v1|v1]|] s1 e1]
      end; cbn [res st evs app]; reflexivity.
Qed.

Lemma loop_range (w : world) (folder : string) (rs : list resource)
      (pcoded latlonged : option bool) (error : option string) (s : state)
      (pcoded' latlonged' : option bool) (error' : option string) :
  unset_or_true pcoded -> unset_or_true latlonged ->
  res (resources_loop w folder rs (pcoded, latlonged, error) s)
  = Ok (Completed (pcoded', latlonged', error')) ->
  unset_or_true pcoded' /\ unset_or_true latlonged'.
Proof.
  revert pcoded latlonged error s.
  induction rs as [|r rs IH]; intros pcoded latlonged error s Hp Hl.
  - cbn. intros E. inversion E; subst. now split.
  - pose proof (@loop_body_ends w folder r pcoded latlonged error s) as Hb.
    remember (loop_body w folder r (pcoded, latlonged, error) s) as o eqn:Eo.
    rewrite (@loop_cons w folder r _ (pcoded, latlonged, error) s o (eq_sym Eo)).
    clear Eo.
    destruct Hb; cbn [res st evs app]; try discriminate.
    + intros E. inversion E; subst. now split.
    + now apply IH.
    + now apply IH.
    + apply IH; [now left | assumption].
Qed.


(** An archive that unpacks and holds no file of the extension, which is
    not [xlsx]: no candidate and no error. *)
Lemma download_resource_empty (w : world) (r : resource) (fileext folder f : string)
      (s : state) :
  fileext <> "xlsx" ->
  w_download w r folder = Some f ->
  w_is_zipfile w f || contains ".zip" (basename f) = true ->
  w_extractall w f (join folder (w_uuid w (drawn s))) = true ->
  w_glob w (join (join (join folder (w_uuid w (drawn s))) "**") ("*." ++ fileext)) = [] ->
  download_resource w r fileext folder s
  = mkOutcome (Ok (Some [], None)) (mkState (S (drawn s)) (dirs s)) [].
Proof.
  intros Hx Hd Hzip Hex Hglob. unfold download_resource. rewrite Hd, Hzip.
  unfold mbind, get_uuid. cbn [res st evs]. rewrite Hex, Hglob.
  apply String.eqb_neq in Hx. rewrite Hx. cbn [negb andb List.length Nat.ltb Nat.leb].
  destruct (mem fileext ["gdb"; "gpkg"]); reflexivity.
Qed.

(** C10 (as amended).  A resource reached by the loop whose archive
    unpacks and holds no file of its extension (not [xlsx]):
    [download_resource] returns no candidate and no error, and
    [check_location] returns at once, the pcode verdict and the error
    unset and the lat/long verdict as the earlier resources left it, unset
    or true.  The resources after it are not touched and [finalize] is not
    run: the events of the run end with the download of that resource. *)
Theorem empty_candidates_return (w : world) (ds : dataset) (temp_folder : string)
        (s : state) (pre post : list resource) (r : resource) (f : string)
        (pcoded latlonged : option bool) (error : option string)
        (s1 : state) (ev1 : list event) :
  let folder := join temp_folder (w_uuid w (drawn s)) in
  let temp := join folder (w_uuid w (drawn s1)) in
  existsb (fun t => mem t allowed_filetypes) (ds_filetypes ds) = true ->
  mem folder (dirs s) = false ->
  ds_resources ds = (pre ++ r :: post)%list ->
  resources_loop w folder pre (None, None, None)
                 (mkState (S (drawn s)) (folder :: dirs s))
  = mkOutcome (Ok (Completed (pcoded, latlonged, error))) s1 ev1 ->
  truthy pcoded = false ->
  mem (res_file_type r) allowed_filetypes = true ->
  fileext_of r <> "xlsx" ->
  w_download w r folder = Some f ->
  w_is_zipfile w f || contains ".zip" (basename f) = true ->
  w_extractall w f temp = true ->
  w_glob w (join (join temp "**") ("*." ++ fileext_of r)) = [] ->
  res (download_resource w r (fileext_of r) folder s1) = Ok (Some [], None)
  /\ check_location w ds temp_folder s
     = mkOutcome (Ok (None, latlonged, None))
                 (mkState (S (drawn s1)) (dirs s1))
                 (EMkdir folder :: ev1 ++ [EDownload r])
  /\ unset_or_true latlonged
  /\ ~ In (ERmtree folder) (evs (check_location w ds temp_folder s)).
Proof.
  intros folder temp Hgate Hnew Hrs Hpre Hp Hallowed Hx Hd Hzip Hex Hglob.
  pose proof (@download_resource_empty w r (fileext_of r) folder f s1
                Hx Hd Hzip Hex Hglob) as Hempty.
  assert (Hrange : unset_or_true pcoded /\ unset_or_true latlonged).
  { apply (@loop_range w folder pre None None None
             (mkState (S (drawn s)) (folder :: dirs s)) pcoded latlonged error);
      [now left | now left | now rewrite Hpre]. }
  destruct Hrange as [[-> | ->] Hl]; [|discriminate Hp].
  assert (Hbody : loop_body w folder r (None, latlonged, error) s1
                  = mkOutcome (Ok (Return (None, latlonged, None)))
                              (mkState (S (drawn s1)) (dirs s1)) [EDownload r]).
  { unfold loop_body. cbn [truthy]. rewrite Hallowed. cbn [negb].
    fold (fileext_of r). rewrite mbind_emit.
    rewrite (@mbind_quiet _ _ _ _ s1 (@quiet_download_resource w r _ folder)).
    rewrite Hempty. reflexivity. }
  assert (Hrun : check_location w ds temp_folder s
                 = mkOutcome (Ok (None, latlonged, None))
                             (mkState (S (drawn s1)) (dirs s1))
                             (EMkdir folder :: ev1 ++ [EDownload r])).
  { rewrite (check_location_run w ds temp_folder s Hgate). cbv zeta.
    fold folder. rewrite Hnew, Hrs, loop_app. cbv zeta. rewrite Hpre.
    cbn [res st evs].
    rewrite (@loop_cons w folder r post _ s1 _ Hbody). cbn [res st evs app].
    now rewrite !app_nil_r. }
  split; [now rewrite Hempty|]. split; [exact Hrun|]. split; [exact Hl|].
  rewrite Hrun. cbn [evs]. intros [H|H]; [discriminate H|].
  apply in_app_or in H. destruct H as [H|[H|[]]]; [|discriminate H].
  pose proof (loop_in_order w folder pre (None, None, None)
                (mkState (S (drawn s)) (folder :: dirs s))) as Hord.
  rewrite Hpre in Hord. cbn [evs] in Hord. apply in_order_touches in Hord.
  rewrite <- Hord in H. apply filter_In in H. destruct H as [_ H]. discriminate H.
Qed.

(** C10, witness: after [points], which settles the lat/long verdict, the
    archive [shapes] holds no [shp] file; [codes] is never touched. *)
Lemma empty_candidates_return_witness :
  check_location catalog (mkDataset ["csv"; "shp"] [points; shapes; codes]) "/tmp" start
  = mkOutcome (Ok (None, Some true, None)) (mkState 3 ["/tmp/id0"])
              [EMkdir "/tmp/id0"; EDownload points; ELoad points;
               EPcoded points None; ELatLonged points (Some true);
               EDownload shapes].
Proof.
  refine (proj1 (proj2
    (@empty_candidates_return catalog
       (mkDataset ["csv"; "shp"] [points; shapes; codes]) "/tmp" start
       [points] [codes] shapes "/tmp/id0/shapes.zip" None (Some true) None
       (mkState 2 ["/tmp/id0"])
       [EDownload points; ELoad points; EPcoded points None;
        ELatLonged points (Some true)]
       _ _ _ _ _ _ _ _ _ _ _))); try (vm_compute; reflexivity).
  discriminate.
Defined.

(** C10, counterexample: in that run the lat/long verdict returned is
    [True], not unset. *)
Lemma empty_candidates_keep_latlong :
  res (download_resource catalog shapes "shp" "/tmp/id0" (mkState 2 ["/tmp/id0"]))
  = Ok (Some [], None)
  /\ res (check_location catalog (mkDataset ["csv"; "shp"] [points; shapes; codes])
                         "/tmp" start)
     = Ok (None, Some true, None)
  /\ res (check_location catalog (mkDataset ["csv"; "shp"] [points; shapes; codes])
                         "/tmp" start)
     <> Ok (None, None, None).
Proof.
  split; [vm_compute; reflexivity|]. split; [vm_compute; reflexivity|].
  vm_compute. discriminate.
Qed.

(** C4.  The download of a resource fails: [check_location] returns by
    line 233, [rmtree] is not called and the scratch directory made at the
    start is still there. *)
Theorem scratch_directory_left_behind :
  check_location catalog (mkDataset ["csv"] [gone; points]) "/tmp" start
  = mkOutcome (Ok (None, None, Some "Could not download file gone.csv"))
              (mkState 1 ["/tmp/id0"])
              [EMkdir "/tmp/id0"; EDownload gone].
Proof. vm_compute. reflexivity. Qed.

End LoopFacts.

(* ================================================================== *)
(** * More about the normaliser *)
(* ================================================================== *)

Module NormalizerMore.
Import Py Re Frame Normalizer NormalSpec NormalExtra NormalizerFacts ClassifierFacts.

Lemma select_rows_In (keep : nat -> bool) (xs : list cell) (k : nat) (x : cell) :
  In x (select_rows keep k xs) -> In x xs.
Proof.
  revert k. induction xs as [|y xs IH]; intros k; simpl; [auto|].
  destruct (keep k); simpl; intros H.
  - destruct H as [H|H]; [now left | right; eauto].
  - right; eauto.
Qed.

Lemma filter_nothing {A} (f : A -> bool) (l : list A) :
  (forall x, In x l -> f x = false) -> filter f l = [].
Proof.
  induction l as [|a l IH]; intros H; simpl; [reflexivity|].
  rewrite H by now left. apply IH. intros x Hx. apply H. now right.
Qed.

(** A frame without any value that is not missing, and so also a frame
    without any column or without any row, makes [parse_tabular] raise:
    nothing is left after line 92 and [df.loc[0]] has no row to give. *)
Theorem parse_tabular_nothing_to_read (df : frame) (fileext : string) :
  (forall c, In c df -> forallb isna (cells c) = true) ->
  parse_tabular df fileext = Raise.
Proof.
  intros H. unfold parse_tabular.
  assert (E : dropna_cols (dropna_rows df) = []).
  { apply filter_nothing. intros c' Hc'. unfold dropna_rows in Hc'.
    apply in_map_iff in Hc'. destruct Hc' as [c [<- Hc]]. cbn [with_cells cells].
    apply not_true_is_false. intros Hex. apply existsb_exists in Hex.
    destruct Hex as [x [Hx Hnotna]]. apply select_rows_In in Hx.
    specialize (H c Hc). rewrite forallb_forall in H. specialize (H x Hx).
    unfold notna in Hnotna. rewrite H in Hnotna. discriminate. }
  rewrite E. reflexivity.
Qed.

Lemma select_rows_nth (keep : nat -> bool) (xs : list cell) (k i : nat) (d : cell) :
  i < List.length xs -> keep (k + i) = true ->
  In (nth i xs d) (select_rows keep k xs).
Proof.
  revert k i. induction xs as [|x xs IH]; intros k i Hi Hk; simpl in *; [lia|].
  destruct i as [|i].
  - rewrite Nat.add_0_r in Hk. rewrite Hk. now left.
  - assert (H : In (nth i xs d) (select_rows keep (S k) xs)).
    { apply IH; [lia|]. now rewrite Nat.add_succ_comm. }
    destruct (keep k); [now right | exact H].
Qed.

Lemma kept_has_value (df : frame) (c : column) :
  In c df ->
  existsb notna (select_rows (fun i => existsb notna (row df i)) 0 (cells c))
  = has_value c.
Proof.
  intros Hc. unfold has_value. apply eq_true_iff_eq. rewrite !existsb_exists. split.
  - intros [x [Hx Hn]]. exists x. split; [|assumption]. eapply select_rows_In; eauto.
  - intros [x [Hx Hn]]. exists x. split; [|assumption].
    destruct (In_nth _ _ NaN Hx) as [i [Hi <-]].
    apply select_rows_nth; [assumption|]. cbn [Nat.add].
    apply existsb_exists. exists (nth i (cells c) NaN). split; [|assumption].
    unfold row. apply in_map_iff. now exists c.
Qed.

Lemma cleaned_dtypes (df : frame) :
  map dtype_of (cleaned df) = map dtype_of (filter has_value df).
Proof.
  unfold cleaned, dropna_cols, dropna_rows.
  assert (H : forall l, incl l df ->
            map dtype_of
              (filter (fun c => existsb notna (cells c))
                 (map (fun c => with_cells
                         (select_rows (fun i => existsb notna (row df i)) 0 (cells c)) c) l))
            = map dtype_of (filter has_value l)).
  { induction l as [|c l IH]; intros Hl; [reflexivity|].
    cbn [map filter with_cells cells].
    rewrite kept_has_value by (apply Hl; now left).
    assert (IH' := IH (fun x Hx => Hl x (or_intror Hx))).
    destruct (has_value c); cbn [map dtype_of with_cells]; now rewrite IH'. }
  apply H, incl_refl.
Qed.

Lemma set_columns_cells (labels : list string) (df : frame) :
  List.length labels = List.length df ->
  map cells (set_columns labels df) = map cells df
  /\ map dtype_of (set_columns labels df) = map dtype_of df.
Proof.
  unfold set_columns. revert df. induction labels as [|l labels IH];
    intros [|c df] H; try discriminate; [now split|].
  cbn. destruct (IH df) as [E1 E2]; [now inversion H|]. now rewrite E1, E2.
Qed.

Lemma drop_rows_cells (k : nat) (df : frame) :
  map cells (drop_rows k df) = map (fun c => skipn k (cells c)) df
  /\ map dtype_of (drop_rows k df) = map dtype_of df.
Proof.
  unfold drop_rows. rewrite !map_map. split; reflexivity.
Qed.

Lemma map_result_length {A B} (f : A -> result B) (l : list A) (r : list B) :
  map_result f l = Ok r -> List.length r = List.length l.
Proof.
  revert r. induction l as [|a l IH]; intros r; simpl.
  - intros E. now inversion E.
  - destruct (f a) as [b|]; [|discriminate]. cbn [bind].
    destruct (map_result f l) as [bs|]; [|discriminate]. cbn [bind].
    intros E. inversion E. simpl. f_equal. now apply IH.
Qed.

Lemma enumerate_length {A} (i : nat) (l : list A) :
  List.length (enumerate_from i l) = List.length l.
Proof. revert i. induction l; intros i; simpl; auto. Qed.

Lemma scan_hxl_found (df : frame) (todo : list nat) (cur : option nat) (h : nat) :
  scan_hxl df todo cur = Some h -> cur = Some h \/ In h todo.
Proof.
  revert cur. induction todo as [|i todo IH]; intros cur; simpl; [auto|].
  destruct (not_row cur); [|auto].
  intros E. apply IH in E. destruct E as [E|E]; [|auto].
  destruct (forallb hxltag (row df i)); [inversion E; auto | auto].
Qed.

Lemma find_hxlrow_bound (df : frame) (h : nat) :
  find_hxlrow df = Some h -> h < Nat.min 10 (nrows df).
Proof.
  intros E. apply scan_hxl_found in E. destruct E as [E|E]; [discriminate|].
  apply in_seq in E. lia.
Qed.

(** What [parse_tabular] keeps.  The columns of the result are the columns
    that hold a value, in their order and with their dtypes; their cells
    are the cells left by line 92 without the first [k] rows, the same
    [k] for every column and never more than 11.  No cell of the data is
    altered, moved or made up. *)
Theorem parse_tabular_keeps_data (df df' : frame) (fileext : string) :
  parse_tabular df fileext = Ok df' ->
  exists k,
    k <= 11
    /\ map dtype_of df' = map dtype_of (filter has_value df)
    /\ map cells df' = map (fun c => skipn k (cells c)) (cleaned df).
Proof.
  unfold parse_tabular. fold (cleaned df). rewrite <- cleaned_dtypes.
  generalize (cleaned df). clear df. intros C.
  assert (Hp : forall P, promote_first_row C = Ok P ->
            exists k, k <= 1 /\ map dtype_of P = map dtype_of C
                      /\ map cells P = map (fun c => skipn k (cells c)) C).
  { intros P. unfold promote_first_row.
    destruct (forallb _ (columns C)).
    - unfold loc. destruct (0 <? nrows C); [|discriminate]. cbn [bind].
      match goal with
      | |- Ok (drop_rows 1 (set_columns ?ls C)) = _ -> _ => set (labels := ls)
      end.
      intros E. inversion E as [EP]. clear E EP. exists 1. split; [lia|].
      destruct (@set_columns_cells labels C) as [E1 E2].
      { unfold labels. rewrite length_map, enumerate_length. unfold row.
        apply length_map. }
      destruct (drop_rows_cells 1 (set_columns labels C)) as [E3 E4].
      rewrite E3, E4, E2. split; [reflexivity|].
      rewrite <- !(map_map cells (skipn 1)). now rewrite E1.
    - intros E. inversion E; subst. exists 0. split; [lia|]. split; [reflexivity|].
      apply map_ext. reflexivity. }
  destruct (promote_first_row C) as [P|]; [|discriminate]. cbn [bind].
  destruct (Hp P eq_refl) as [k [Hk [Hd Hc]]]. clear Hp.
  assert (Hrest : forall k', k' <= 10 ->
            forall labels, List.length labels = List.length P ->
            exists k0, k0 <= 11
              /\ map dtype_of (drop_rows k' (set_columns labels P)) = map dtype_of C
              /\ map cells (drop_rows k' (set_columns labels P))
                 = map (fun c => skipn k0 (cells c)) C).
  { intros k' Hk' labels Hlen. exists (k' + k). split; [lia|].
    destruct (set_columns_cells labels P Hlen) as [E1 E2].
    destruct (drop_rows_cells k' (set_columns labels P)) as [E3 E4].
    rewrite E3, E4, E2, Hd. split; [reflexivity|].
    rewrite <- (map_map cells (skipn k')), E1, Hc, map_map.
    apply map_ext. intros c. apply skipn_skipn. }
  assert (Hsame : exists k0, k0 <= 11 /\ map dtype_of P = map dtype_of C
                    /\ map cells P = map (fun c => skipn k0 (cells c)) C).
  { exists k. split; [lia|]. now split. }
  destruct (negb _); [intros E; inversion E; subst; exact Hsame|].
  destruct (nrows P =? 1); [intros E; inversion E; subst; exact Hsame|].
  destruct (find_hxlrow P) as [[|h]|] eqn:Eh.
  - destruct ((fileext =? "csv")%string && _);
      [intros E; inversion E; subst; exact Hsame|].
    intros E. inversion E; subst. apply Hrest.
    + destruct (nrows P <? 3) eqn:E3; [apply Nat.ltb_lt in E3|]; lia.
    + unfold columns. now rewrite !length_map.
  - apply find_hxlrow_bound in Eh.
    destruct (map_result _ (columns P)) as [labels|] eqn:El; [|discriminate].
    cbn [bind]. intros E. inversion E; subst. apply Hrest; [lia|].
    apply map_result_length in El. unfold columns in El. now rewrite length_map in El.
  - destruct ((fileext =? "csv")%string && _);
      [intros E; inversion E; subst; exact Hsame|].
    intros E. inversion E; subst. apply Hrest.
    + destruct (nrows P <? 3) eqn:E3; [apply Nat.ltb_lt in E3|]; lia.
    + unfold columns. now rewrite !length_map.
Qed.

Lemma scan_hxl_stopped (df : frame) (todo : list nat) (cur : option nat) :
  not_row cur = false -> scan_hxl df todo cur = cur.
Proof. intros H. destruct todo; simpl; [reflexivity | now rewrite H]. Qed.

Lemma scan_hxl_first (df : frame) (len a h : nat) (cur : option nat) :
  not_row cur = true -> 1 <= h -> a <= h < a + len ->
  is_tag_row df h = true ->
  (forall i, 1 <= i -> a <= i < h -> is_tag_row df i = false) ->
  scan_hxl df (seq a len) cur = Some h.
Proof.
  revert a cur. induction len as [|len IH]; intros a cur Hcur Hh Ha Htag Hnone; [lia|].
  cbn [seq scan_hxl]. rewrite Hcur, tag_row_scan.
  destruct (Nat.eq_dec a h) as [->|Hne].
  - rewrite Htag. apply scan_hxl_stopped. destruct h; [lia | reflexivity].
  - apply IH; try assumption; try lia.
    + destruct a as [|a].
      * now destruct (is_tag_row df 0).
      * rewrite Hnone by lia. exact Hcur.
    + intros i Hi Hr. apply Hnone; lia.
Qed.

Lemma find_hxlrow_first (df : frame) (h : nat) :
  1 <= h -> h < Nat.min 10 (nrows df) ->
  is_tag_row df h = true ->
  (forall i, 1 <= i < h -> is_tag_row df i = false) ->
  find_hxlrow df = Some h.
Proof.
  intros Hh Hb Htag Hnone. unfold find_hxlrow.
  apply scan_hxl_first; try assumption; try lia; try reflexivity.
  intros i Hi Hr. apply Hnone. lia.
Qed.

Lemma promote_first_row_some_name (df : frame) :
  named df = true -> promote_first_row df = Ok df.
Proof.
  intros H. unfold promote_first_row.
  replace (forallb (fun c => re_match unnamed_exp c) (columns df)) with false;
    [reflexivity|].
  symmetry. apply not_true_is_false. intros Hall.
  unfold named in H. apply existsb_exists in H. destruct H as [c [Hc Hn]].
  rewrite forallb_forall in Hall. unfold columns in Hall.
  rewrite (Hall (label c) (in_map label df c Hc)) in Hn. discriminate.
Qed.

Lemma join_items_text (cols : list cell) :
  join_items cols = if forallb is_str cols then Ok (map py_str cols) else Raise.
Proof.
  induction cols as [|[s|r t n] cols IH]; simpl; [reflexivity| |reflexivity].
  rewrite IH. now destruct (forallb is_str cols).
Qed.

Lemma hxl_label_unique (df : frame) (h : nat) (c : column) :
  NoDup (columns df) -> In c df ->
  hxl_label df h (label c)
  = if header_text h c then Ok (tag_label h c) else Raise.
Proof.
  intros Hnd Hc. unfold hxl_label, iter_head, join_cells, header_text, tag_label.
  rewrite (@getitem_unique df c Hnd Hc).
  destruct (contains "Unnamed" (label c)); cbn [negb app]; rewrite join_items_text;
    cbn [forallb is_str andb map py_str];
    now destruct (forallb is_str _).
Qed.

Lemma map_result_some_raise {A B} (f : A -> result B) (l : list A) (a : A) :
  In a l -> f a = Raise -> map_result f l = Raise.
Proof.
  induction l as [|b l IH]; intros Hin Ha; simpl; [contradiction|].
  destruct Hin as [->|Hin].
  - now rewrite Ha.
  - destruct (f b); [|reflexivity]. cbn [bind]. now rewrite IH.
Qed.

Lemma set_columns_map (f : column -> string) (df : frame) :
  set_columns (map f df) df = map (fun c => with_label (f c) c) df.
Proof.
  unfold set_columns. induction df as [|c df IH]; simpl; [reflexivity|].
  now rewrite IH.
Qed.

(** A tag row below row 0.  On a frame that reaches the scan with a real
    header and unique labels, let [h >= 1] be the first tag row among rows
    1 to 9 (what row 0 holds does not matter).  When the cells of rows 0
    to [h] that are not empty are text, every label becomes the join of
    the old label and those cells, and the rows 0 to [h] are dropped,
    whatever the extension.  When one of those cells is not text, as the
    NaN of a header cell left blank, [parse_tabular] raises. *)
Theorem parse_tabular_tag_row (df : frame) (fileext : string) (h : nat) :
  let C := cleaned df in
  named C = true -> reaches_scan C = true -> NoDup (columns C) ->
  1 <= h -> h < Nat.min 10 (nrows C) ->
  is_tag_row C h = true ->
  (forall i, 1 <= i < h -> is_tag_row C i = false) ->
  parse_tabular df fileext
  = if forallb (header_text h) C then Ok (fold_header h C) else Raise.
Proof.
  intros C Hnamed Hscan Hnd Hh Hb Htag Hnone.
  unfold parse_tabular. fold (cleaned df). fold C.
  rewrite (promote_first_row_some_name _ Hnamed). cbn [bind].
  unfold reaches_scan in Hscan. apply andb_prop in Hscan. destruct Hscan as [Hobj Hrows].
  rewrite Hobj. cbn [negb]. apply Nat.ltb_lt in Hrows.
  replace (nrows C =? 1) with false by (symmetry; apply Nat.eqb_neq; lia).
  rewrite (find_hxlrow_first _ Hh Hb Htag Hnone).
  destruct h as [|h]; [lia|]. cbv zeta.
  destruct (forallb (header_text (S h)) C) eqn:Htext.
  - unfold columns.
    assert (El : map_result (hxl_label C (S h)) (map label C)
                 = Ok (map (tag_label (S h)) C)).
    { assert (H : forall l, incl l C ->
                map_result (hxl_label C (S h)) (map label l)
                = Ok (map (tag_label (S h)) l)).
      { induction l as [|c l IH]; intros Hl; [reflexivity|].
        cbn [map map_result].
        rewrite hxl_label_unique by (auto; apply Hl; now left).
        rewrite forallb_forall in Htext. rewrite Htext by (apply Hl; now left).
        cbn [bind]. rewrite IH by (intros x Hx; apply Hl; now right). reflexivity. }
      apply H, incl_refl. }
    rewrite El. cbn [bind]. f_equal.
    rewrite set_columns_map. unfold drop_rows, fold_header. rewrite map_map.
    apply map_ext. intros c. reflexivity.
  - assert (Hex : exists c, In c C /\ header_text (S h) c = false).
    { clear - Htext. induction C as [|c C IH]; [discriminate|].
      cbn [forallb] in Htext. destruct (header_text (S h) c) eqn:E.
      - destruct (IH Htext) as [d [Hd Ed]]. exists d. split; [now right | assumption].
      - exists c. split; [now left | assumption]. }
    destruct Hex as [c [Hc Ec]].
    rewrite (@map_result_some_raise _ _ (hxl_label C (S h)) (columns C) (label c));
      [reflexivity | unfold columns; now apply in_map |].
    rewrite hxl_label_unique by assumption. now rewrite Ec.
Qed.

Lemma select_rows_length (keep : nat -> bool) (xs : list cell) (k : nat) :
  List.length (select_rows keep k xs)
  = List.length (filter keep (seq k (List.length xs))).
Proof.
  revert k. induction xs as [|x xs IH]; intros k; simpl; [reflexivity|].
  destruct (keep k); simpl; now rewrite IH.
Qed.

Lemma kth_kept_ge (keep : nat -> bool) (n k i : nat) : k <= kth_kept keep k n i.
Proof.
  revert k i. induction n as [|n IH]; intros k i; simpl; [lia|].
  destruct (keep k).
  - destruct i as [|i]; [lia|]. specialize (IH (S k) i). lia.
  - specialize (IH (S k) i). lia.
Qed.

Lemma kth_kept_kept (keep : nat -> bool) (n k i : nat) :
  i < List.length (filter keep (seq k n)) ->
  keep (kth_kept keep k n i) = true /\ kth_kept keep k n i < k + n.
Proof.
  revert k i. induction n as [|n IH]; intros k i; simpl; [lia|].
  destruct (keep k) eqn:Hk; simpl.
  - destruct i as [|i]; [split; [assumption | lia]|].
    intros Hi. destruct (IH (S k) i) as [H1 H2]; [lia|]. split; [assumption | lia].
  - intros Hi. destruct (IH (S k) i Hi) as [H1 H2]. split; [assumption | lia].
Qed.

Lemma select_rows_kth (keep : nat -> bool) (xs : list cell) (k i : nat) (d : cell) :
  i < List.length (select_rows keep k xs) ->
  nth i (select_rows keep k xs) d = nth (kth_kept keep k (List.length xs) i - k) xs d.
Proof.
  revert k i. induction xs as [|x xs IH]; intros k i Hi; simpl in *; [lia|].
  pose proof (kth_kept_ge keep (List.length xs) (S k)) as Hge.
  destruct (keep k) eqn:Hk.
  - destruct i as [|i]; simpl in *.
    + now rewrite Nat.sub_diag.
    + rewrite IH by lia. specialize (Hge i).
      replace (kth_kept keep (S k) (List.length xs) i - k)
        with (S (kth_kept keep (S k) (List.length xs) i - S k)) by lia.
      reflexivity.
  - rewrite IH by assumption. specialize (Hge i).
    replace (kth_kept keep (S k) (List.length xs) i - k)
      with (S (kth_kept keep (S k) (List.length xs) i - S k)) by lia.
    reflexivity.
Qed.

(** All columns have [n] cells. *)
Lemma rectangular_uniform (df : frame) :
  rectangular df <-> exists n, Forall (fun c => List.length (cells c) = n) df.
Proof.
  unfold rectangular. split.
  - intros H. now exists (nrows df).
  - intros [n H]. destruct df as [|c df]; [constructor|].
    inversion H as [|x l Hc Hl]; subst. exact H.
Qed.

Section Cleaning.
Variable df : frame.
Hypothesis Hrect : rectangular df.

Let keep (i : nat) : bool := existsb notna (row df i).
Let kept : nat := List.length (filter keep (seq 0 (nrows df))).

Lemma dropna_rows_uniform :
  Forall (fun c => List.length (cells c) = kept) (dropna_rows df).
Proof.
  unfold dropna_rows. apply Forall_forall. intros c' Hc'.
  apply in_map_iff in Hc'. destruct Hc' as [c [<- Hc]]. cbn [with_cells cells].
  rewrite select_rows_length. unfold kept.
  unfold rectangular in Hrect. rewrite Forall_forall in Hrect. now rewrite (Hrect c Hc).
Qed.

Lemma cleaned_uniform :
  Forall (fun c => List.length (cells c) = kept) (cleaned df).
Proof.
  unfold cleaned, dropna_cols. apply Forall_forall. intros c Hc.
  apply filter_In in Hc. destruct Hc as [Hc _].
  pose proof dropna_rows_uniform as H. rewrite Forall_forall in H. now apply H.
Qed.

Lemma cleaned_rectangular : rectangular (cleaned df).
Proof. apply rectangular_uniform. exists kept. apply cleaned_uniform. Qed.

Lemma cleaned_columns_have_values :
  Forall (fun c => existsb notna (cells c) = true) (cleaned df).
Proof.
  unfold cleaned, dropna_cols. apply Forall_forall. intros c Hc.
  apply filter_In in Hc. tauto.
Qed.

Lemma cleaned_rows_have_values (i : nat) :
  i < nrows (cleaned df) -> existsb notna (row (cleaned df) i) = true.
Proof.
  intros Hi.
  assert (Hik : i < kept).
  { pose proof cleaned_uniform as H. destruct (cleaned df) as [|c C]; [simpl in Hi; lia|].
    inversion H; subst. simpl in Hi. lia. }
  destruct (@kth_kept_kept keep (nrows df) 0 i Hik) as [Hkeep Hlt].
  set (j := kth_kept keep 0 (nrows df) i) in *.
  unfold keep in Hkeep. apply existsb_exists in Hkeep.
  destruct Hkeep as [x [Hx Hn]]. unfold row in Hx. apply in_map_iff in Hx.
  destruct Hx as [c [Ex Hc]].
  set (c' := with_cells (select_rows keep 0 (cells c)) c).
  assert (Hlen : List.length (cells c) = nrows df).
  { unfold rectangular in Hrect. rewrite Forall_forall in Hrect. now apply Hrect. }
  assert (Hcell : nth i (cells c') NaN = x).
  { unfold c'. cbn [with_cells cells]. rewrite select_rows_kth.
    - rewrite Hlen, Nat.sub_0_r. exact Ex.
    - rewrite select_rows_length, Hlen. exact Hik. }
  assert (Hin : In (nth i (cells c') NaN) (cells c')).
  { apply nth_In. unfold c'. cbn [with_cells cells].
    rewrite select_rows_length, Hlen. exact Hik. }
  apply existsb_exists. exists x. split; [|assumption].
  unfold row. apply in_map_iff. exists c'. split; [assumption|].
  unfold cleaned, dropna_cols. apply filter_In. split.
  - unfold dropna_rows. apply in_map_iff. now exists c.
  - apply existsb_exists. exists x. rewrite <- Hcell at 1. now split.
Qed.

End Cleaning.

Lemma cleaned_fixed (df : frame) : rectangular df -> cleaned (cleaned df) = cleaned df.
Proof.
  intros Hrect. unfold cleaned at 1. rewrite dropna_rows_same.
  - apply dropna_cols_same, cleaned_columns_have_values.
  - now apply cleaned_rectangular.
  - now apply cleaned_rows_have_values.
Qed.

(** After line 92 every row and every column holds a value, so cleaning a
    cleaned frame changes nothing and [parse_tabular] gives on the cleaned
    frame what it gives on the frame. *)
Theorem cleaning_is_idempotent (df : frame) (fileext : string) :
  rectangular df ->
  (forall i, i < nrows (cleaned df) -> existsb notna (row (cleaned df) i) = true)
  /\ Forall (fun c => has_value c = true) (cleaned df)
  /\ cleaned (cleaned df) = cleaned df
  /\ parse_tabular (cleaned df) fileext = parse_tabular df fileext.
Proof.
  intros Hrect.
  split; [now apply cleaned_rows_have_values|].
  split; [apply cleaned_columns_have_values|].
  split; [now apply cleaned_fixed|].
  unfold parse_tabular. fold (cleaned (cleaned df)). fold (cleaned df).
  now rewrite cleaned_fixed.
Qed.

Lemma scan_hxl_tag (df : frame) (todo : list nat) (cur : option nat) (h : nat) :
  scan_hxl df todo cur = Some h ->
  cur = Some h \/ (In h todo /\ is_tag_row df h = true).
Proof.
  revert cur. induction todo as [|i todo IH]; intros cur; simpl; [auto|].
  destruct (not_row cur); [|auto].
  intros E. apply IH in E. destruct E as [E|[E1 E2]]; [|auto].
  rewrite tag_row_scan in E.
  destruct (is_tag_row df i) eqn:Ei; [inversion E; subst; auto | auto].
Qed.

Lemma find_hxlrow_no_tag_below (df : frame) :
  (forall i, 1 <= i < Nat.min 10 (nrows df) -> is_tag_row df i = false) ->
  find_hxlrow df = None \/ find_hxlrow df = Some 0.
Proof.
  intros H. destruct (find_hxlrow df) as [[|h]|] eqn:E; auto.
  exfalso. apply scan_hxl_tag in E. destruct E as [E|[E1 E2]]; [discriminate|].
  apply in_seq in E1. rewrite H in E2 by lia. discriminate.
Qed.

(** A delimited-text sample with a real header and no tag row among rows
    1 to 9: [parse_tabular] drops the rows and the columns that are empty
    throughout and does nothing else, and on its own result it changes
    nothing. *)
Theorem parse_tabular_csv_only_cleans (df : frame) :
  rectangular df ->
  named (cleaned df) = true ->
  (forall i, 1 <= i < Nat.min 10 (nrows (cleaned df)) ->
             is_tag_row (cleaned df) i = false) ->
  parse_tabular df "csv" = Ok (cleaned df)
  /\ parse_tabular (cleaned df) "csv" = Ok (cleaned df).
Proof.
  intros Hrect Hnamed Hnone.
  assert (E : parse_tabular df "csv" = Ok (cleaned df)).
  { unfold parse_tabular. fold (cleaned df).
    rewrite (promote_first_row_some_name _ Hnamed). cbn [bind].
    destruct (negb _); [reflexivity|].
    destruct (nrows (cleaned df) =? 1); [reflexivity|].
    destruct (find_hxlrow_no_tag_below _ Hnone) as [-> | ->]; reflexivity. }
  split; [exact E|].
  unfold parse_tabular. fold (cleaned (cleaned df)). rewrite cleaned_fixed by assumption.
  exact E.
Qed.

Lemma composite_label_unique (df : frame) (datarow : nat) (c : column) :
  NoDup (columns df) -> In c df ->
  composite_label df (S datarow) (label c) = tag_label datarow c.
Proof.
  intros Hnd Hc. unfold composite_label, iter_head, tag_label.
  rewrite (@getitem_unique df c Hnd Hc). rewrite Nat.add_1_r.
  now destruct (contains "Unnamed" (label c)).
Qed.

(** A spreadsheet without a tag row among rows 1 to 9.  On a frame that
    reaches the scan with a real header and unique labels, and for an
    extension other than [csv], the first three rows (the first two of a
    frame of two rows) are folded into the labels and dropped, whatever
    they hold; a tag row at index 0 makes no difference.  This branch
    never raises. *)
Theorem parse_tabular_spreadsheet_header (df : frame) (fileext : string) :
  let C := cleaned df in
  fileext <> "csv" ->
  named C = true -> reaches_scan C = true -> NoDup (columns C) ->
  (forall i, 1 <= i < Nat.min 10 (nrows C) -> is_tag_row C i = false) ->
  parse_tabular df fileext = Ok (fold_header (Nat.min 3 (nrows C) - 1) C).
Proof.
  intros C Hext Hnamed Hscan Hnd Hnone.
  unfold parse_tabular. fold (cleaned df). fold C.
  rewrite (promote_first_row_some_name _ Hnamed). cbn [bind].
  unfold reaches_scan in Hscan. apply andb_prop in Hscan. destruct Hscan as [Hobj Hrows].
  rewrite Hobj. cbn [negb]. apply Nat.ltb_lt in Hrows.
  replace (nrows C =? 1) with false by (symmetry; apply Nat.eqb_neq; lia).
  apply String.eqb_neq in Hext.
  assert (Hlabels : forall d l, incl l C ->
            map (composite_label C (S d)) (map label l) = map (tag_label d) l).
  { intros d. induction l as [|c l IH]; intros Hl; [reflexivity|].
    cbn [map]. rewrite composite_label_unique by (auto; apply Hl; now left).
    rewrite IH by (intros x Hx; apply Hl; now right). reflexivity. }
  assert (Hfold : forall d,
            drop_rows (S d) (set_columns (map (composite_label C (S d)) (columns C)) C)
            = fold_header d C).
  { intros d. unfold columns. rewrite (Hlabels d C (incl_refl C)), set_columns_map.
    unfold drop_rows, fold_header. rewrite map_map. apply map_ext. intros c.
    now rewrite Nat.add_1_r. }
  destruct (find_hxlrow_no_tag_below _ Hnone) as [-> | ->]; rewrite Hext; cbn [andb];
    cbv zeta; destruct (nrows C <? 3) eqn:E3.
  all: try (apply Nat.ltb_lt in E3; replace (nrows C) with 2 by lia;
            now rewrite (Hfold 1)).
  all: apply Nat.ltb_ge in E3; replace (Nat.min 3 (nrows C) - 1) with 2 by lia;
    now rewrite (Hfold 2).
Qed.

(** The early returns of lines 97-100.  A sample with a real header that
    has a column of another dtype than object, or one row only, is
    returned as line 92 left it, whatever the extension: no tag row is
    looked for and no row is folded into the header. *)
Theorem parse_tabular_early_return (df : frame) (fileext : string) :
  let C := cleaned df in
  named C = true ->
  forallb (fun c => is_object (dtype_of c)) C = false \/ nrows C = 1 ->
  parse_tabular df fileext = Ok C.
Proof.
  intros C Hnamed H. unfold parse_tabular. fold (cleaned df). fold C.
  rewrite (promote_first_row_some_name _ Hnamed). cbn [bind].
  destruct H as [H | H].
  - now rewrite H.
  - destruct (negb _); [reflexivity|]. now rewrite H.
Qed.

(** Witness: the sheet [counted], whose second column holds numbers. *)
Lemma parse_tabular_early_return_witness : parse_tabular counted "xlsx" = Ok counted.
Proof.
  apply (@parse_tabular_early_return counted "xlsx"); [reflexivity|].
  left. reflexivity.
Defined.

(** Witness: the sheet [hollow] holds missing values only. *)
Lemma parse_tabular_nothing_to_read_witness : parse_tabular hollow "xlsx" = Raise.
Proof.
  apply parse_tabular_nothing_to_read.
  intros c [<-|[<-|[]]]; reflexivity.
Defined.

(** Witness: the sheet [tagged_below], whose rows 0 and 1 go to the
    header. *)
Lemma parse_tabular_keeps_data_witness :
  exists k,
    k <= 11
    /\ map dtype_of (fold_header 1 Examples.tagged_below)
       = map dtype_of (filter has_value Examples.tagged_below)
    /\ map cells (fold_header 1 Examples.tagged_below)
       = map (fun c => skipn k (cells c)) (cleaned Examples.tagged_below).
Proof.
  apply (@parse_tabular_keeps_data Examples.tagged_below _ "csv").
  vm_compute. reflexivity.
Defined.

(** Witness: the sheet [tagged_below], tag row at index 1. *)
Lemma parse_tabular_tag_row_witness :
  parse_tabular Examples.tagged_below "xlsx" = Ok (fold_header 1 Examples.tagged_below).
Proof.
  refine (@parse_tabular_tag_row Examples.tagged_below "xlsx" 1 _ _ _ _ _ _ _);
    try (vm_compute; reflexivity).
  - vm_compute. repeat constructor; simpl; intuition discriminate.
  - vm_compute. lia.
  - intros i Hi. lia.
Defined.

(** Witness: the sheet [gappy] loses its empty line and its empty column,
    once. *)
Lemma cleaning_is_idempotent_witness :
  cleaned (cleaned gappy) = cleaned gappy
  /\ cleaned gappy
     = [mkColumn "Name" DObject [Str "Nairobi"; Str "Mombasa"];
        mkColumn "Code" DObject [Str "KEN01"; Str "KEN02"]].
Proof.
  split; [|reflexivity].
  apply (@cleaning_is_idempotent gappy "csv"). repeat constructor.
Defined.

(** Witness: the sheet [gappy], read as [csv]. *)
Lemma parse_tabular_csv_only_cleans_witness :
  parse_tabular gappy "csv"
  = Ok [mkColumn "Name" DObject [Str "Nairobi"; Str "Mombasa"];
        mkColumn "Code" DObject [Str "KEN01"; Str "KEN02"]].
Proof.
  refine (proj1 (@parse_tabular_csv_only_cleans gappy _ _ _)).
  - repeat constructor.
  - reflexivity.
  - intros i Hi. vm_compute in Hi. destruct i as [|[|i]]; [lia | reflexivity | lia].
Defined.

(** Witness: the sheet [plain], read as [xls]: three of its four rows go
    to the header. *)
Lemma parse_tabular_spreadsheet_header_witness :
  parse_tabular Examples.plain "xls" = Ok (fold_header 2 Examples.plain).
Proof.
  refine (@parse_tabular_spreadsheet_header Examples.plain "xls" _ _ _ _ _);
    try (vm_compute; reflexivity).
  - discriminate.
  - repeat constructor; simpl; intuition discriminate.
  - intros i Hi. vm_compute in Hi.
    destruct i as [|[|[|[|i]]]]; try lia; reflexivity.
Defined.

End NormalizerMore.

(* ================================================================== *)
(** * More about the classifiers *)
(* ================================================================== *)

Module ClassifierMore.
Import Py Re Frame Classifier Spec ClassifierExtra ReFacts VerdictRange.

Section Reference.
Variables iso3s iso2s : list string.
Variables LAT_PATTERNS LON_PATTERNS : list regex.

(** Neither classifier ever answers [False]: what they return is [True]
    or [None]. *)
Theorem classifiers_never_false (contents : dict) :
  check_pcoded iso3s iso2s contents <> Ok (Some false)
  /\ check_latlong LAT_PATTERNS LON_PATTERNS contents <> Ok (Some false).
Proof.
  split; intros E.
  - apply check_pcoded_range in E. destruct E as [E|E]; discriminate E.
  - apply check_latlong_range in E. destruct E as [E|E]; discriminate E.
Qed.

Lemma pcoded_samples_stopped (contents : dict) (pcoded : option bool) :
  truthy pcoded = true -> pcoded_samples iso3s iso2s contents pcoded = Ok pcoded.
Proof. intros H. destruct contents as [|[k c] l]; simpl; [reflexivity | now rewrite H]. Qed.

Lemma pcoded_samples_app (a b : dict) (pcoded : option bool) :
  pcoded_samples iso3s iso2s (a ++ b)%list pcoded
  = bind (pcoded_samples iso3s iso2s a pcoded) (pcoded_samples iso3s iso2s b).
Proof.
  revert pcoded. induction a as [|[k c] a IH]; intros pcoded; [reflexivity|].
  cbn [app pcoded_samples]. destruct (truthy pcoded) eqn:Hp.
  - cbn [bind]. now rewrite pcoded_samples_stopped.
  - destruct (pcoded_columns _ _ _ _ _) as [p|]; [|reflexivity]. cbn [bind]. apply IH.
Qed.

(** Samples are scanned in order and the scan stops at the first positive
    one: the verdict on [a ++ b] is [True] when it is on [a], without [b]
    being looked at; it is the verdict on [b] when [a] gives none; and it
    is an exception when [a] raises, whatever [b] holds. *)
Theorem check_pcoded_app (a b : dict) :
  check_pcoded iso3s iso2s (a ++ b)%list
  = match check_pcoded iso3s iso2s a with
    | Ok (Some true) => Ok (Some true)
    | Ok _ => check_pcoded iso3s iso2s b
    | Raise => Raise
    end.
Proof.
  unfold check_pcoded. rewrite pcoded_samples_app.
  destruct (pcoded_samples iso3s iso2s a None) as [p|] eqn:E; [|reflexivity].
  cbn [bind]. apply pcoded_samples_range in E.
  destruct E as [-> | ->]; [reflexivity|]. now apply pcoded_samples_stopped.
Qed.

Lemma latlong_samples_stopped (contents : dict) (latlonged : option bool) :
  truthy latlonged = true ->
  latlong_samples LAT_PATTERNS LON_PATTERNS contents latlonged = Ok latlonged.
Proof. intros H. destruct contents as [|[k c] l]; simpl; [reflexivity | now rewrite H]. Qed.

Lemma latlong_samples_app (a b : dict) (latlonged : option bool) :
  latlong_samples LAT_PATTERNS LON_PATTERNS (a ++ b)%list latlonged
  = bind (latlong_samples LAT_PATTERNS LON_PATTERNS a latlonged)
         (latlong_samples LAT_PATTERNS LON_PATTERNS b).
Proof.
  revert latlonged. induction a as [|[k c] a IH]; intros latlonged; [reflexivity|].
  cbn [app latlong_samples]. destruct (truthy latlonged) eqn:Hp.
  - cbn [bind]. now rewrite latlong_samples_stopped.
  - destruct (latlong_columns _ _ _ _ _ _ _) as [p|]; [|reflexivity]. cbn [bind].
    apply IH.
Qed.

(** The same for latitude and longitude: the two roles are looked for
    within one sample at a time, so the verdict on [a ++ b] is made of the
    verdicts on [a] and on [b]; a latitude column of [a] and a longitude
    column of [b] never add up. *)
Theorem check_latlong_app (a b : dict) :
  check_latlong LAT_PATTERNS LON_PATTERNS (a ++ b)%list
  = match check_latlong LAT_PATTERNS LON_PATTERNS a with
    | Ok (Some true) => Ok (Some true)
    | Ok _ => check_latlong LAT_PATTERNS LON_PATTERNS b
    | Raise => Raise
    end.
Proof.
  unfold check_latlong. rewrite latlong_samples_app.
  destruct (latlong_samples LAT_PATTERNS LON_PATTERNS a None) as [p|] eqn:E;
    [|reflexivity].
  cbn [bind]. apply latlong_samples_range in E.
  destruct E as [-> | ->]; [reflexivity|]. now apply latlong_samples_stopped.
Qed.

End Reference.

Lemma append_assoc (a b c : string) : (a ++ b) ++ c = a ++ (b ++ c).
Proof. induction a as [|x a IH]; simpl; [reflexivity | now rewrite IH]. Qed.

Lemma lang_cls (p : ascii -> bool) (u : string) :
  lang (Cls p) u <-> exists c, u = String c "" /\ p c = true.
Proof.
  split.
  - intros H. inversion H; subst. eauto.
  - intros [c [-> H]]. now constructor.
Qed.

Lemma lang_cat (a b : regex) (u : string) :
  lang (Cat a b) u <-> exists v w, u = v ++ w /\ lang a v /\ lang b w.
Proof.
  split.
  - intros H. inversion H; subst. eauto.
  - intros [v [w [-> [Ha Hb]]]]. now constructor.
Qed.

Lemma lang_eps (u : string) : lang Eps u <-> u = "".
Proof. split; [intros H; now inversion H | intros ->; constructor]. Qed.

Lemma lang_lit (code u : string) : lang (lit true code) u <-> same_ci u code = true.
Proof.
  revert u. induction code as [|c code IH]; intros u; cbn [lit].
  - rewrite lang_eps. destruct u; simpl; split; congruence.
  - rewrite lang_cat. split.
    + intros [v [w [-> [Hv Hw]]]]. unfold chr in Hv. apply lang_cls in Hv.
      destruct Hv as [x [-> Hx]]. simpl. rewrite Hx. now apply IH.
    + destruct u as [|x u]; simpl; [discriminate|]. intros H.
      apply andb_prop in H. destruct H as [Hx Hu].
      exists (String x ""), u. split; [reflexivity|]. split.
      * unfold chr. apply lang_cls. eauto.
      * now apply IH.
Qed.

Lemma lang_alt_re (rs : list regex) (u : string) :
  lang (alt_re rs) u <-> (rs = [] /\ u = "") \/ exists r, In r rs /\ lang r u.
Proof.
  induction rs as [|r rs IH]; cbn [alt_re].
  - rewrite lang_eps. split; [auto | intros [[_ H]|[r [[] _]]]; exact H].
  - destruct rs as [|r' rs].
    + split; [intros H; right; exists r; split; [now left | exact H]|].
      intros [[H _]|[x [[<-|[]] H]]]; [discriminate | exact H].
    + split.
      * intros H. right. inversion H as [ | | | ? ? ? Hl | ? ? ? Hr | | ]; subst.
        -- exists r. split; [now left | assumption].
        -- apply IH in Hr. destruct Hr as [[Hr _]|[x [Hx Hl]]]; [discriminate|].
           exists x. split; [now right | assumption].
      * intros [[H _]|[x [[<-|Hx] Hl]]]; [discriminate | now apply L_alt_l |].
        apply L_alt_r. apply IH. right. eauto.
Qed.

Section Reference2.
Variables iso3s iso2s : list string.

(** What counts as a pcode.  A value matches the value pattern exactly
    when it begins, letter case apart, with one of the country codes and
    the next character is a digit; what follows is not looked at.  With no
    country code at all, every value that begins with a digit matches. *)
Theorem pcode_value_prefix (s : string) :
  re_match (pcode_exp iso3s iso2s) s = true
  <-> exists pre d rest,
        s = pre ++ String d rest
        /\ is_digit d = true
        /\ ((iso3s ++ iso2s = [] /\ pre = "")%list
            \/ exists code, In code (iso3s ++ iso2s)%list /\ same_ci pre code = true).
Proof.
  rewrite re_match_prefix. unfold pcode_exp. split.
  - intros [u [v [-> H]]]. apply lang_cat in H. destruct H as [a [w [-> [Ha Hw]]]].
    apply lang_cat in Hw. destruct Hw as [d1 [ds [-> [Hd _]]]].
    unfold digit in Hd. apply lang_cls in Hd. destruct Hd as [d [-> Hd]].
    exists a, d, (ds ++ v). split; [now rewrite !append_assoc|]. split; [exact Hd|].
    apply lang_alt_re in Ha. destruct Ha as [[Hnil ->]|[r [Hr Hl]]].
    + left. split; [|reflexivity]. now apply map_eq_nil in Hnil.
    + right. apply in_map_iff in Hr. destruct Hr as [code [<- Hc]].
      exists code. split; [assumption | now apply lang_lit].
  - intros [pre [d [rest [-> [Hd Hcode]]]]].
    exists (pre ++ String d ""), rest. split; [now rewrite append_assoc|].
    apply lang_cat. exists pre, (String d ""). split; [reflexivity|]. split.
    + apply lang_alt_re. destruct Hcode as [[Hnil ->]|[code [Hc Hs]]].
      * left. split; [now rewrite Hnil | reflexivity].
      * right. exists (lit true code). split; [now apply in_map | now apply lang_lit].
    + apply lang_cat. exists (String d ""), "". split; [reflexivity|]. split.
      * unfold digit. apply lang_cls. eauto.
      * constructor.
Qed.

End Reference2.

Lemma lang_star_dot (u : string) : one_line u = true -> lang (Star dot) u.
Proof.
  induction u as [|c u IH]; simpl; intros H; [constructor|].
  apply andb_prop in H. destruct H as [Hc Hu].
  change (String c u) with (String c "" ++ u). constructor; [|auto].
  unfold dot. now constructor.
Qed.

Lemma re_match_nullable (r : regex) (s : string) : nullable r = true -> re_match r s = true.
Proof. intros H. destruct s; simpl; now rewrite H. Qed.

(** Which headers make a column a pcode candidate: every header part that
    holds the letters [cod], in any letter case, on its first line. *)
Theorem header_with_cod (u v : string) (x y z : ascii) :
  one_line u = true ->
  lower x = "c"%char -> lower y = "o"%char -> lower z = "d"%char ->
  re_match header_exp (u ++ String x (String y (String z v))) = true.
Proof.
  intros Hu Hx Hy Hz. apply re_match_prefix.
  exists (u ++ String x (String y (String z ""))), v.
  split; [now rewrite append_assoc|].
  unfold header_exp. apply L_alt_l. cbn [seq_re fold_right].
  apply lang_cat. exists "", (u ++ String x (String y (String z ""))).
  split; [reflexivity|]. split; [apply L_alt_r; constructor|].
  apply lang_cat. exists u, (String x (String y (String z ""))).
  split; [reflexivity|]. split; [now apply lang_star_dot|].
  apply lang_cat. exists "", (String x (String y (String z ""))).
  split; [reflexivity|]. split; [apply L_alt_r; constructor|].
  apply lang_cat. exists "", (String x (String y (String z ""))).
  split; [reflexivity|]. split; [apply L_alt_r; constructor|].
  apply lang_cat. exists (String x (String y (String z ""))), "".
  split; [reflexivity|]. split.
  - apply lang_lit. simpl. rewrite Hx, Hy, Hz. reflexivity.
  - apply lang_cat. exists "", "". split; [reflexivity|]. split; constructor.
Qed.

(** The header patterns are matched at the start of the header part only:
    every part that begins with [lat] or with [y] is a latitude
    candidate, every part that begins with [lon] or with [x] a longitude
    candidate, in either letter case and whatever follows. *)
Theorem coordinate_headers_by_prefix (v : string) :
  re_match lat_header_exp ("lat" ++ v) = true
  /\ re_match lat_header_exp ("LAT" ++ v) = true
  /\ re_match lat_header_exp ("y" ++ v) = true
  /\ re_match lat_header_exp ("Y" ++ v) = true
  /\ re_match lon_header_exp ("lon" ++ v) = true
  /\ re_match lon_header_exp ("LON" ++ v) = true
  /\ re_match lon_header_exp ("x" ++ v) = true
  /\ re_match lon_header_exp ("X" ++ v) = true.
Proof.
  repeat split; cbn [append re_match];
    repeat (apply orb_true_iff; right);
    apply re_match_nullable; vm_compute; reflexivity.
Qed.

(** Witness: [Postcode] holds [cod] after [Post]. *)
Lemma header_with_cod_witness : re_match header_exp "Postcode" = true.
Proof. apply (@header_with_cod "Post" "e" "c" "o" "d"); reflexivity. Defined.

End ClassifierMore.

(* ================================================================== *)
(** * The candidates of a download *)
(* ================================================================== *)

Module ResolverMore.
Import Py Re Frame Normalizer Classifier Env Orchestrator OrchestratorSpec.
Import OrchestratorFacts.
Open Scope py_scope.

Lemma res_mbind {A B} (m : M A) (k : A -> M B) (s : state) :
  res (mbind m k s)
  = match res (m s) with
    | Ok a => res (k a (st (m s)))
    | Raise => Raise
    end.
Proof. unfold mbind. now destruct (res (m s)). Qed.

Lemma prefix_length (p s : string) :
  String.prefix p s = true ->
  String.length p <= String.length s
  /\ (String.length p = String.length s -> p = s).
Proof.
  revert s. induction p as [|a p IH]; intros s; simpl.
  - intros _. split; [lia|]. intros E. destruct s; [reflexivity | discriminate E].
  - destruct s as [|b s]; simpl; [discriminate|].
    destruct (ascii_dec a b) as [->|]; [|discriminate].
    intros H. destruct (IH s H) as [H1 H2]. simpl. split; [lia|].
    intros E. f_equal. apply H2. lia.
Qed.

Lemma contains_length (p s : string) :
  contains p s = true ->
  String.length p <= String.length s
  /\ (String.length p = String.length s -> p = s).
Proof.
  induction s as [|c s IH]; cbn [contains]; intros H.
  - rewrite orb_false_r in H. now apply prefix_length.
  - apply orb_prop in H. destruct H as [H|H]; [now apply prefix_length|].
    destruct (IH H) as [H1 _]. simpl. split; lia.
Qed.

Lemma longest_exists (l : list string) :
  l <> [] -> exists r, In r l /\ forall x, In x l -> String.length x <= String.length r.
Proof.
  induction l as [|a l IH]; [contradiction|]. intros _.
  destruct l as [|b l].
  - exists a. split; [now left|]. intros x [<-|[]]. lia.
  - destruct IH as [r [Hr Hmax]]; [discriminate|].
    destruct (Nat.le_gt_cases (String.length a) (String.length r)) as [Hle|Hgt].
    + exists r. split; [now right|]. intros x [<-|Hx]; [assumption | now apply Hmax].
    + exists a. split; [now left|]. intros x [<-|Hx]; [lia|].
      specialize (Hmax x Hx). lia.
Qed.

Lemma drop_containers_In (l : list string) (r : string) :
  In r (drop_containers l)
  <-> In r l /\ forall rs, In rs l -> rs <> r -> contains r rs = false.
Proof.
  unfold drop_containers. rewrite filter_In. split.
  - intros [Hr Hn]. split; [assumption|]. intros rs Hrs Hne.
    apply Nat.eqb_eq in Hn. apply length_zero_iff_nil in Hn.
    apply not_true_is_false. intros Hc.
    assert (Hin : In rs (filter (fun rs0 => contains r rs0)
                           (filter (fun rs0 => negb (rs0 =? r)%string) l))).
    { apply filter_In. split; [|assumption]. apply filter_In. split; [assumption|].
      apply negb_true_iff. now apply String.eqb_neq. }
    rewrite Hn in Hin. contradiction.
  - intros [Hr Hn]. split; [assumption|]. apply Nat.eqb_eq.
    apply length_zero_iff_nil.
    destruct (filter _ (filter _ l)) as [|rs t] eqn:E; [reflexivity|].
    exfalso. assert (Hin : In rs (rs :: t)) by now left. rewrite <- E in Hin.
    apply filter_In in Hin. destruct Hin as [Hin Hc].
    apply filter_In in Hin. destruct Hin as [Hin Hne].
    apply negb_true_iff, String.eqb_neq in Hne.
    rewrite (Hn rs Hin Hne) in Hc. discriminate.
Qed.

(** The filter of lines 36-37 keeps a match exactly when no other match
    holds it as a part, and it never empties the list: a longest match is
    always kept. *)
Theorem drop_containers_keeps_longest (l : list string) :
  (forall r, In r (drop_containers l)
             <-> In r l /\ forall rs, In rs l -> rs <> r -> contains r rs = false)
  /\ (forall r, In r l ->
                (forall x, In x l -> String.length x <= String.length r) ->
                In r (drop_containers l))
  /\ (l <> [] -> drop_containers l <> []).
Proof.
  assert (Hlong : forall r, In r l ->
            (forall x, In x l -> String.length x <= String.length r) ->
            In r (drop_containers l)).
  { intros r Hr Hmax. apply drop_containers_In. split; [assumption|].
    intros rs Hrs Hne. apply not_true_is_false. intros Hc.
    apply contains_length in Hc. destruct Hc as [Hle Heq].
    specialize (Hmax rs Hrs). apply Hne. symmetry. apply Heq. lia. }
  split; [apply drop_containers_In|]. split; [exact Hlong|].
  intros Hne. destruct (longest_exists Hne) as [r [Hr Hmax]].
  intros E. specialize (Hlong r Hr Hmax). rewrite E in Hlong. contradiction.
Qed.

(** What [download_resource] returns: candidates without an error, or an
    error without candidates, never both and never neither; the error is
    one of the two messages of the function.  A file that is no archive
    is the sole candidate.  The function raises only for [gdb] and
    [gpkg], when the layers of a container cannot be listed. *)
Theorem download_resource_shape (w : world) (r : resource) (fileext folder : string)
        (s : state) :
  match res (download_resource w r fileext folder s) with
  | Ok (Some files, error) =>
      error = None
      /\ exists f, w_download w r folder = Some f
                   /\ (w_is_zipfile w f || contains ".zip" (basename f) = false ->
                       files = [f])
  | Ok (None, error) =>
      (w_download w r folder = None
       /\ error = Some ("Could not download file " ++ res_name r))
      \/ (w_download w r folder <> None
          /\ error = Some ("Could not unzip resource " ++ res_name r))
  | Raise => mem fileext ["gdb"; "gpkg"] = true
  end.
Proof.
  unfold download_resource.
  destruct (w_download w r folder) as [f|] eqn:Ed; [|cbn; now left].
  destruct (w_is_zipfile w f || contains ".zip" (basename f)) eqn:Ez.
  - rewrite res_mbind. cbn [get_uuid res st].
    destruct (negb (w_extractall w f _)); [cbn; right; split; [discriminate | reflexivity]|].
    rewrite res_mbind.
    destruct (mem fileext ["gdb"; "gpkg"]).
    + cbn [lift res st]. destruct (expand_layers w _) as [layers|]; [|reflexivity].
      cbn. split; [reflexivity|]. exists f. split; [reflexivity | intros C; rewrite Ez in C; discriminate C].
    + cbn. split; [reflexivity|]. exists f. split; [reflexivity | intros C; rewrite Ez in C; discriminate C].
  - cbn. split; [reflexivity|]. exists f. split; [reflexivity | reflexivity].
Qed.

Lemma contains_sep_cons (c : ascii) (s : string) :
  contains "/" (String c s) = Ascii.eqb c "/" || contains "/" s.
Proof.
  cbn [contains String.prefix]. destruct (ascii_dec "/" c) as [<-|Hne].
  - now destruct s.
  - replace (Ascii.eqb c "/") with false; [reflexivity|].
    symmetry. apply Ascii.eqb_neq. congruence.
Qed.

Lemma basename_from_plain (acc i : string) :
  contains "/" i = false -> basename_from acc i = acc ++ i.
Proof.
  revert acc. induction i as [|c i IH]; intros acc H.
  - simpl. clear. induction acc; simpl; congruence.
  - rewrite contains_sep_cons in H. apply orb_false_elim in H. destruct H as [Hc Hi].
    assert (E : basename_from acc (String c i) = basename_from (acc ++ String c "") i).
    { cbn [basename_from]. destruct c as [[] [] [] [] [] [] [] []]; try reflexivity.
      discriminate Hc. }
    rewrite E, IH by assumption. clear.
    induction acc; simpl; congruence.
Qed.

Lemma basename_from_after_sep (acc u i : string) :
  basename_from acc (u ++ String "/" i) = basename_from "" i.
Proof.
  revert acc. induction u as [|c u IH]; intros acc; [reflexivity|].
  cbn [append basename_from].
  destruct c as [[] [] [] [] [] [] [] []]; apply IH.
Qed.

Lemma list_ascii_of_append (a b : string) :
  list_ascii_of_string (a ++ b)
  = (list_ascii_of_string a ++ list_ascii_of_string b)%list.
Proof. induction a as [|c a IH]; simpl; [reflexivity | now rewrite IH]. Qed.

Lemma drop_while_not_sep_plain (l rest : list ascii) :
  forallb (fun c => negb (Ascii.eqb c "/")) l = true ->
  drop_while_not_sep (l ++ "/"%char :: rest) = "/"%char :: rest.
Proof.
  induction l as [|c l IH]; intros H; [reflexivity|].
  cbn [forallb] in H. apply andb_prop in H. destruct H as [Hc Hl].
  cbn [app drop_while_not_sep]. apply negb_true_iff in Hc. rewrite Hc. now apply IH.
Qed.

Lemma plain_chars (i : string) :
  contains "/" i = false ->
  forallb (fun c => negb (Ascii.eqb c "/")) (rev (list_ascii_of_string i)) = true.
Proof.
  intros H. apply forallb_forall. intros c Hc. apply in_rev in Hc.
  induction i as [|d i IH]; [contradiction|].
  rewrite contains_sep_cons in H. apply orb_false_elim in H. destruct H as [Hd Hi].
  destruct Hc as [<-|Hc]; [now rewrite Hd | now apply IH].
Qed.

Lemma last_char_no_sep (r : string) :
  r <> "" -> endswith_sep r = false ->
  exists c t, rev (list_ascii_of_string r) = c :: t /\ Ascii.eqb c "/" = false.
Proof.
  induction r as [|c r IH]; [contradiction|]. intros _ H.
  destruct r as [|d r].
  - exists c, []. split; [reflexivity | exact H].
  - destruct IH as [x [t [E Hx]]]; [discriminate | exact H |].
    exists x, (t ++ [c])%list. split; [|exact Hx].
    change (list_ascii_of_string (String c (String d r)))
      with (c :: list_ascii_of_string (String d r)).
    cbn [rev]. now rewrite E.
Qed.

(** The pseudo-path of a layer is taken apart as it was put together.
    For a container path that is not empty and does not end with a
    separator, and a layer name without a separator, [dirname] and
    [basename] of [join(r, i)] give back [r] and [i], so the layer branch
    reads layer [i] of container [r]. *)
Theorem layer_path_round_trip (w : world) (fileext r i : string) :
  r <> "" -> endswith_sep r = false -> contains "/" i = false ->
  dirname (join r i) = r
  /\ basename (join r i) = i
  /\ (mem fileext ["gdb"; "gpkg"] = true ->
      geo_read w fileext (join r i) = w_read_file w r (Some i)).
Proof.
  intros Hr Hend Hi.
  assert (Ej : join r i = r ++ String "/" i).
  { unfold join.
    replace (startswith_sep i) with false.
    - replace (r =? "")%string with false
        by (symmetry; now apply String.eqb_neq).
      rewrite Hend. reflexivity.
    - destruct i as [|c i]; [reflexivity|].
      rewrite contains_sep_cons in Hi. apply orb_false_elim in Hi.
      destruct Hi as [Hc _]. simpl.
      destruct c as [[] [] [] [] [] [] [] []]; try reflexivity. discriminate Hc. }
  assert (Ed : dirname (join r i) = r).
  { rewrite Ej. unfold dirname. rewrite list_ascii_of_append.
    change (list_ascii_of_string (String "/" i)) with ("/"%char :: list_ascii_of_string i).
    rewrite rev_app_distr. cbn [rev]. rewrite <- app_assoc. cbn [app].
    rewrite drop_while_not_sep_plain by now apply plain_chars.
    destruct (last_char_no_sep Hr Hend) as [c [t [E Hc]]].
    rewrite E. cbn [drop_while_sep Ascii.eqb Bool.eqb]. rewrite Hc.
    rewrite <- E, rev_involutive. apply string_of_list_ascii_of_string. }
  assert (Eb : basename (join r i) = i).
  { rewrite Ej. unfold basename. rewrite basename_from_after_sep.
    now rewrite basename_from_plain. }
  split; [exact Ed|]. split; [exact Eb|].
  intros Hl. unfold geo_read. now rewrite Hl, Ed, Eb.
Qed.

(** Witness: the layer [roads] of a geopackage. *)
Lemma layer_path_round_trip_witness :
  dirname (join "/tmp/id0/id1/kenya.gpkg" "roads") = "/tmp/id0/id1/kenya.gpkg"
  /\ basename (join "/tmp/id0/id1/kenya.gpkg" "roads") = "roads".
Proof.
  destruct (@layer_path_round_trip Examples.catalog "gpkg"
              "/tmp/id0/id1/kenya.gpkg" "roads") as [Hd [Hb _]];
    try reflexivity; [discriminate | now split].
Defined.

End ResolverMore.

(* ================================================================== *)
(** * More about the loader *)
(* ================================================================== *)

Module LoaderMore.
Import Py Re Frame Normalizer Classifier Env Orchestrator OrchestratorSpec.
Import LoaderExtra OrchestratorFacts ResolverMore.
Open Scope py_scope.

Lemma csv_tail_blocks (w : world) (f : string) (acc : dict * option string) (s : state) :
  vector_block w "csv" f acc s = mkOutcome (Ok (Next acc)) s []
  /\ layer_block w "csv" f acc s = mkOutcome (Ok (Next acc)) s [].
Proof. destruct acc as [data error]. split; reflexivity. Qed.

Lemma read_candidate_csv (w : world) (f : string) (data : dict)
      (error : option string) (s : state) :
  read_candidate w "csv" f (data, error) s
  = match csv_read w f with
    | Some df =>
        mkOutcome (Ok (dict_set (w_uuid w (drawn s)) df data, error))
                  (mkState (S (drawn s)) (dirs s)) []
    | None => mkOutcome (Ok (data, unable f)) s []
    end.
Proof.
  assert (E1 : excel_block w "csv" f (data, error) s
               = mkOutcome (Ok (Next (data, error))) s []) by reflexivity.
  pose proof (@then_block_run _ _ (csv_block w "csv" f) _ _ _ E1) as E2.
  cbv iota in E2.
  assert (E2' : then_block (excel_block w "csv" f (data, error)) (csv_block w "csv" f) s
                = match csv_read w f with
                  | Some df =>
                      mkOutcome (Ok (Next (dict_set (w_uuid w (drawn s)) df data, error)))
                                (mkState (S (drawn s)) (dirs s)) []
                  | None => mkOutcome (Ok (Continue (data, unable f))) s []
                  end).
  { rewrite E2. unfold csv_block, csv_read. cbn [String.eqb Ascii.eqb Bool.eqb].
    destruct (w_read_csv w f) as [contents|]; [|reflexivity].
    destruct (parse_tabular contents "csv"); reflexivity. }
  unfold read_candidate, mbind.
  destruct (csv_read w f) as [df|].
  - pose proof (@then_block_run _ _ (vector_block w "csv" f) _ _ _ E2') as E3.
    cbv iota in E3. rewrite (proj1 (csv_tail_blocks w f _ _)) in E3.
    pose proof (@then_block_run _ _ (layer_block w "csv" f) _ _ _ E3) as E4.
    cbv iota in E4. rewrite (proj2 (csv_tail_blocks w f _ _)) in E4.
    rewrite E4. reflexivity.
  - pose proof (@then_block_run _ _ (vector_block w "csv" f) _ _ _ E2') as E3.
    cbv iota in E3.
    pose proof (@then_block_run _ _ (layer_block w "csv" f) _ _ _ E3) as E4.
    cbv iota in E4. rewrite E4. reflexivity.
Qed.

Lemma dict_set_fresh (key : string) (df : frame) (data : dict) :
  ~ In key (map fst data) -> dict_set key df data = (data ++ [(key, df)])%list.
Proof.
  induction data as [|[k v] data IH]; intros H; simpl; [reflexivity|].
  destruct (String.eqb_spec k key) as [E|E].
  - exfalso. apply H. now left.
  - rewrite IH; [reflexivity|]. intros Hin. apply H. now right.
Qed.

Lemma read_loop_csv (w : world) (files : list string) (data : dict)
      (error : option string) (s : state) :
  NoDup (map fst data
         ++ map (w_uuid w) (seq (drawn s) (List.length (csv_frames w files))))%list ->
  read_loop w "csv" files (data, error) s
  = mkOutcome
      (Ok ((data ++ combine (map (w_uuid w)
                               (seq (drawn s) (List.length (csv_frames w files))))
                            (csv_frames w files))%list,
           csv_error w files error))
      (mkState (drawn s + List.length (csv_frames w files)) (dirs s)) [].
Proof.
  revert data error s. induction files as [|f files IH]; intros data error s Hnd.
  - cbn. rewrite app_nil_r, Nat.add_0_r. now destruct s.
  - cbn [read_loop csv_frames csv_error]. cbn [csv_frames] in Hnd. unfold mbind.
    rewrite read_candidate_csv.
    destruct (csv_read w f) as [df|]; cbn [res st evs app].
    + cbn [List.length seq map] in Hnd.
      assert (Hfresh : ~ In (w_uuid w (drawn s)) (map fst data)).
      { intros Hin. apply NoDup_remove_2 in Hnd. apply Hnd.
        apply in_or_app. now left. }
      rewrite dict_set_fresh by assumption.
      rewrite IH.
      * cbn [drawn dirs List.length seq map combine].
        rewrite <- app_assoc. cbn [app]. now rewrite Nat.add_succ_r.
      * cbn [drawn]. rewrite map_app. cbn [map fst]. now rewrite <- app_assoc.
    + rewrite IH by assumption. reflexivity.
Qed.

Lemma csv_error_all_read (w : world) (files : list string) (error : option string) :
  Forall (fun g => csv_read w g <> None) files -> csv_error w files error = error.
Proof.
  induction 1 as [|g l Hg _ IH]; [reflexivity|].
  cbn [csv_error]. destruct (csv_read w g); [exact IH | contradiction].
Qed.

Lemma csv_error_last (w : world) (pre post : list string) (f : string)
      (error : option string) :
  csv_read w f = None -> Forall (fun g => csv_read w g <> None) post ->
  csv_error w (pre ++ f :: post) error = unable f.
Proof.
  intros Hf Hpost. revert error. induction pre as [|g pre IH]; intros error;
    cbn [app csv_error].
  - rewrite Hf. now apply csv_error_all_read.
  - apply IH.
Qed.

(** Delimited text accumulates.  When the identifiers drawn are distinct,
    the mapping returned for [csv] holds one sample for each candidate
    that could be read and normalised, in the order of the candidates and
    under the identifiers drawn in turn; a candidate that could not be
    read, or whose normalisation raised, adds nothing and leaves an error,
    and the error returned is that of the last such candidate. *)
Theorem csv_candidates_accumulate (w : world) (files : list string) (s : state) :
  NoDup (map (w_uuid w) (seq (drawn s) (List.length (csv_frames w files)))) ->
  res (read_downloaded_data w files "csv" s)
  = Ok (combine (map (w_uuid w) (seq (drawn s) (List.length (csv_frames w files))))
                (csv_frames w files),
        csv_error w files None)
  /\ (forall pre f post,
        files = (pre ++ f :: post)%list -> csv_read w f = None ->
        Forall (fun g => csv_read w g <> None) post ->
        csv_error w files None = unable f)
  /\ (Forall (fun g => csv_read w g <> None) files -> csv_error w files None = None).
Proof.
  intros Hnd. split; [|split].
  - unfold read_downloaded_data.
    exact (f_equal (@res _) (@read_loop_csv w files [] None s Hnd)).
  - intros pre f post -> Hf Hpost. now apply csv_error_last.
  - intros Hall. now apply csv_error_all_read.
Qed.

(** The error of the geo branches is that of the last candidate that could
    not be read, and there is none when all could. *)
Theorem geo_last_error_wins (w : world) (fileext : string) (files : list string)
        (s : state) :
  is_geo fileext = true ->
  exists data error,
    res (read_downloaded_data w files fileext s) = Ok (data, error)
    /\ (forall pre f post,
          files = (pre ++ f :: post)%list -> geo_read w fileext f = None ->
          Forall (fun g => geo_read w fileext g <> None) post ->
          error = unable f)
    /\ (Forall (fun g => geo_read w fileext g <> None) files -> error = None).
Proof.
  intros Hgeo.
  exists (geo_data w fileext files (drawn s) []), (geo_error w fileext files None).
  assert (Hall : forall l e, Forall (fun g => geo_read w fileext g <> None) l ->
                             geo_error w fileext l e = e).
  { intros l e H. revert e. induction H as [|g l Hg _ IH]; intros e; [reflexivity|].
    cbn [geo_error]. destruct (geo_read w fileext g); [apply IH | contradiction]. }
  split; [|split].
  - exact (f_equal (@res _) (@read_loop_geo w fileext files [] None s Hgeo)).
  - intros pre f post -> Hf Hpost. generalize (@None string).
    induction pre as [|g pre IH]; intros e; cbn [app geo_error].
    + rewrite Hf. now apply Hall.
    + apply IH.
  - intros H. now apply Hall.
Qed.

Lemma read_loop_csv_ok (w : world) (files : list string) (acc : dict * option string)
      (s : state) :
  exists acc', res (read_loop w "csv" files acc s) = Ok acc'.
Proof.
  revert acc s. induction files as [|f files IH]; intros [data error] s.
  - eexists. reflexivity.
  - cbn [read_loop]. unfold mbind. rewrite read_candidate_csv.
    destruct (csv_read w f); cbn [res st evs];
      match goal with
      | |- context [read_loop w "csv" files ?a ?s0] =>
          destruct (IH a s0) as [acc' E]; rewrite E; eauto
      end.
Qed.

(** Reading delimited text or a geo format never raises: every failure of
    a reader, and for delimited text of the normaliser too, becomes an
    error message. *)
Theorem csv_and_geo_reads_never_raise (w : world) (fileext : string)
        (files : list string) (s : state) :
  fileext = "csv" \/ is_geo fileext = true ->
  res (read_downloaded_data w files fileext s) <> Raise.
Proof.
  intros [-> | Hgeo]; unfold read_downloaded_data.
  - destruct (read_loop_csv_ok w files ([], None) s) as [acc' E].
    intros Hr. pose proof (eq_trans (eq_sym E) Hr) as C. discriminate C.
  - pose proof (f_equal (@res _) (@read_loop_geo w fileext files [] None s Hgeo)) as E.
    cbn [res] in E.
    intros Hr. pose proof (eq_trans (eq_sym E) Hr) as C. discriminate C.
Qed.

Lemma res_then_block {A} (m : M (flow A)) (k : A -> M (flow A)) (s : state) :
  res (then_block m k s)
  = match res (m s) with
    | Ok (Continue a) => Ok (Continue a)
    | Ok (Next a) => res (k a (st (m s)))
    | Raise => Raise
    end.
Proof.
  unfold then_block. rewrite res_mbind.
  destruct (res (m s)) as [[a|a]|]; reflexivity.
Qed.

Lemma store_sheets_res (w : world) (fileext : string)
      (contents : list (string * frame)) (data : dict) (s : state) :
  if existsb (fun ns => bad_sheet fileext (snd ns)) contents
  then res (store_sheets w fileext contents data s) = Raise
  else exists data', res (store_sheets w fileext contents data s) = Ok data'.
Proof.
  revert data s. induction contents as [|[name sheet] contents IH]; intros data s.
  - cbn. eauto.
  - cbn [store_sheets existsb snd]. unfold bad_sheet at 1.
    destruct (empty sheet); cbn [negb andb orb]; [apply IH|].
    rewrite res_mbind. cbn [lift res st].
    destruct (parse_tabular sheet fileext) as [df|]; cbn [orb]; [|reflexivity].
    rewrite res_mbind. cbn [get_uuid res st]. apply IH.
Qed.

Lemma excel_tests (fileext : string) :
  is_excel fileext = true ->
  (fileext =? "csv")%string = false
  /\ mem fileext ["geojson"; "json"; "shp"; "topojson"] = false
  /\ mem fileext ["gdb"; "gpkg"] = false.
Proof.
  intros H. unfold is_excel, mem in H. cbn [existsb] in H.
  repeat (apply orb_prop in H; destruct H as [H|H]); try discriminate H;
    apply String.eqb_eq in H; subst; vm_compute; auto.
Qed.

Lemma read_candidate_excel_res (w : world) (fileext f : string)
      (acc : dict * option string) (s : state) :
  is_excel fileext = true ->
  if bad_file w fileext f
  then res (read_candidate w fileext f acc s) = Raise
  else exists acc', res (read_candidate w fileext f acc s) = Ok acc'.
Proof.
  intros Hx. destruct (excel_tests fileext Hx) as [Hc [Hg Hl]].
  destruct acc as [data error].
  unfold read_candidate. rewrite res_mbind, !res_then_block.
  unfold bad_file, excel_block. unfold is_excel in Hx. rewrite Hx.
  destruct (w_read_excel w f) as [contents|].
  - rewrite !res_mbind.
    pose proof (store_sheets_res w fileext contents data s) as Hs.
    destruct (existsb _ contents).
    + now rewrite Hs.
    + destruct Hs as [data' Hs]. rewrite Hs. cbn [ret res st].
      unfold csv_block at 1 2 3. rewrite Hc. cbn [ret res st].
      unfold vector_block at 1 2. rewrite Hg. cbn [ret res st].
      unfold layer_block. rewrite Hl. cbn [ret res st]. eauto.
  - cbn [ret res st]. eauto.
Qed.

(** A spreadsheet raises where delimited text does not.  For [xlsx] and
    [xls] the normaliser runs outside the [try]: [read_downloaded_data]
    raises exactly when some candidate can be opened and holds a sheet
    that is not empty and on which [parse_tabular] raises. *)
Theorem spreadsheet_reads_raise (w : world) (fileext : string)
        (files : list string) (s : state) :
  is_excel fileext = true ->
  res (read_downloaded_data w files fileext s) = Raise
  <-> existsb (bad_file w fileext) files = true.
Proof.
  intros Hx. unfold read_downloaded_data.
  generalize (([], None) : dict * option string). revert s.
  induction files as [|f files IH]; intros s acc.
  - cbn. split; discriminate.
  - cbn [read_loop existsb]. rewrite res_mbind.
    pose proof (@read_candidate_excel_res w fileext f acc s Hx) as Hc.
    destruct (bad_file w fileext f); cbn [orb].
    + rewrite Hc. tauto.
    + destruct Hc as [acc' Hc]. rewrite Hc. apply IH.
Qed.

(** Witness: of two candidates the first is read, the second is not. *)
Lemma csv_candidates_accumulate_witness :
  res (read_downloaded_data Examples.catalog ["/x/points.csv"; "/x/lost.csv"] "csv"
                            Examples.start)
  = Ok ([("id0", Examples.coords)], Some "Unable to read resource lost.csv").
Proof.
  refine (proj1 (@csv_candidates_accumulate Examples.catalog
                   ["/x/points.csv"; "/x/lost.csv"] Examples.start _)).
  vm_compute. repeat constructor. intros [].
Defined.

(** Witness: the third of three candidates is the last one not read. *)
Lemma geo_last_error_wins_witness :
  exists data,
    res (read_downloaded_data Examples.catalog
           ["/x/c.geojson"; "/x/a.geojson"; "/x/d.geojson"] "geojson" Examples.start)
    = Ok (data, Some "Unable to read resource d.geojson").
Proof.
  destruct (@geo_last_error_wins Examples.catalog "geojson"
              ["/x/c.geojson"; "/x/a.geojson"; "/x/d.geojson"] Examples.start eq_refl)
    as [data [error [Hres [Hlast _]]]].
  exists data. rewrite Hres.
  rewrite (Hlast ["/x/c.geojson"; "/x/a.geojson"] "/x/d.geojson" []);
    try reflexivity.
  constructor.
Defined.

(** Witness: a candidate that cannot be read, as delimited text. *)
Lemma csv_and_geo_reads_never_raise_witness :
  res (read_downloaded_data Examples.catalog ["/x/lost.csv"] "csv" Examples.start)
  = Ok ([], Some "Unable to read resource lost.csv")
  /\ res (read_downloaded_data Examples.catalog ["/x/lost.csv"] "csv" Examples.start)
     <> Raise.
Proof.
  split; [vm_compute; reflexivity|].
  apply csv_and_geo_reads_never_raise. now left.
Defined.

(** Witness: the workbook of [ledger], whose second sheet holds nothing. *)
Lemma spreadsheet_reads_raise_witness :
  res (read_downloaded_data ledger ["/x/ledger.xlsx"] "xlsx" Examples.start) = Raise.
Proof.
  apply (proj2 (@spreadsheet_reads_raise ledger "xlsx" ["/x/ledger.xlsx"]
                  Examples.start eq_refl)).
  vm_compute. reflexivity.
Defined.

End LoaderMore.

(* ================================================================== *)
(** * More about the loop over the resources *)
(* ================================================================== *)

Module LoopMore.
Import Py Re Frame Normalizer Classifier Env Orchestrator OrchestratorSpec Examples.
Import LoopExtra OrchestratorFacts VerdictRange ResolverMore LoaderMore LoopFacts.
Open Scope py_scope.

(** ** Resources of other types *)

Lemma loop_body_skip (w : world) (folder : string) (r : resource)
      (v : verdicts) (s : state) :
  allowed r = false ->
  loop_body w folder r v s
  = mkOutcome (Ok (if truthy (fst (fst v)) then Break v else Proceed v)) s [].
Proof.
  intros H. destruct v as [[p l] e]. unfold loop_body. cbn [fst].
  destruct (truthy p); [reflexivity|].
  unfold allowed in H. rewrite H. reflexivity.
Qed.

Lemma loop_filter (w : world) (folder : string) (rs : list resource)
      (v : verdicts) (s : state) :
  resources_loop w folder (filter allowed rs) v s = resources_loop w folder rs v s.
Proof.
  revert v s. induction rs as [|r rs IH]; intros v s; [reflexivity|].
  cbn [filter]. destruct (allowed r) eqn:Ha.
  - rewrite (@loop_cons w folder r (filter allowed rs) v s _ eq_refl).
    rewrite (@loop_cons w folder r rs v s _ eq_refl).
    destruct (res (loop_body w folder r v s)) as [[v'|v'|v']|]; try reflexivity.
    cbv zeta. now rewrite IH.
  - rewrite (@loop_cons w folder r rs v s _ (@loop_body_skip w folder r v s Ha)).
    cbn [res st evs app]. destruct v as [[p l] e]. cbn [fst].
    destruct (truthy p) eqn:Hp.
    + now rewrite loop_stopped.
    + rewrite IH. now destruct (resources_loop w folder rs (p, l, e) s).
Qed.

(** Resources whose file type is not allowed do not count: a run on the
    dataset and a run on the dataset without them give the same verdicts,
    leave the same state and make the same calls. *)
Theorem skipped_resources_do_not_matter (w : world) (ds : dataset)
        (temp_folder : string) (s : state) :
  check_location w (only_allowed ds) temp_folder s = check_location w ds temp_folder s.
Proof.
  destruct (existsb (fun f => mem f allowed_filetypes) (ds_filetypes ds)) eqn:Hgate.
  - rewrite (check_location_run w ds temp_folder s Hgate).
    rewrite (check_location_run w (only_allowed ds) temp_folder s Hgate).
    cbv zeta. unfold only_allowed. cbn [ds_resources]. now rewrite loop_filter.
  - unfold check_location, only_allowed. cbn [ds_filetypes]. now rewrite Hgate.
Qed.

Lemma rmtree_fresh (folder : string) (ds : list string) (n : nat) :
  mem folder ds = false ->
  rmtree folder (mkState n (folder :: ds))
  = mkOutcome (Ok tt) (mkState n ds) [ERmtree folder].
Proof.
  intros H. unfold rmtree. cbn [dirs drawn mem existsb filter].
  rewrite String.eqb_refl. cbn [orb negb]. f_equal. f_equal.
  induction ds as [|d ds IH]; [reflexivity|].
  cbn [mem existsb] in H. apply orb_false_elim in H. destruct H as [Hd Hds].
  cbn [filter]. rewrite String.eqb_sym, Hd. cbn [negb]. f_equal. now apply IH.
Qed.

Lemma loop_all_skipped (w : world) (folder : string) (rs : list resource)
      (v : verdicts) (s : state) :
  Forall (fun r => allowed r = false) rs ->
  resources_loop w folder rs v s = mkOutcome (Ok (Completed v)) s [].
Proof.
  intros H. rewrite <- loop_filter.
  replace (filter allowed rs) with (@nil resource); [reflexivity|].
  induction H as [|r rs Hr _ IH]; [reflexivity|]. cbn [filter]. now rewrite Hr.
Qed.

(** The gate looks at the file types of the dataset, the loop at those of
    the resources.  When the gate passes and no resource has an allowed
    type, nothing is downloaded: the scratch directory is made and
    removed, and both verdicts are [False] with no error. *)
Theorem no_allowed_resource (w : world) (ds : dataset) (temp_folder : string)
        (s : state) :
  let folder := join temp_folder (w_uuid w (drawn s)) in
  existsb (fun f => mem f allowed_filetypes) (ds_filetypes ds) = true ->
  mem folder (dirs s) = false ->
  Forall (fun r => allowed r = false) (ds_resources ds) ->
  check_location w ds temp_folder s
  = mkOutcome (Ok (Some false, Some false, None))
              (mkState (S (drawn s)) (dirs s))
              [EMkdir folder; ERmtree folder].
Proof.
  intros folder Hgate Hnew Hrs.
  rewrite (check_location_run w ds temp_folder s Hgate). cbv zeta. fold folder.
  rewrite Hnew, (@loop_all_skipped w folder _ _ _ Hrs). cbn [res st evs app].
  unfold finalize. cbn [no_error truthy negb andb]. unfold mbind.
  rewrite (@rmtree_fresh folder (dirs s) (S (drawn s)) Hnew). reflexivity.
Qed.

(** Witness: a dataset that lists [csv] and holds a [pdf] only. *)
Lemma no_allowed_resource_witness :
  check_location catalog (mkDataset ["csv"] [report]) "/tmp" start
  = mkOutcome (Ok (Some false, Some false, None)) (mkState 1 [])
              [EMkdir "/tmp/id0"; ERmtree "/tmp/id0"].
Proof.
  apply (@no_allowed_resource catalog (mkDataset ["csv"] [report]) "/tmp" start);
    try reflexivity.
  repeat constructor.
Defined.

(** ** The error of an earlier resource *)

Lemma loop_body_forgets (w : world) (folder : string) (r : resource)
      (pcoded latlonged : option bool) (error error0 : option string) (s : state) :
  truthy pcoded = false -> allowed r = true ->
  loop_body w folder r (pcoded, latlonged, error) s
  = loop_body w folder r (pcoded, latlonged, error0) s.
Proof.
  intros Hp Ha. unfold loop_body. rewrite Hp. unfold allowed in Ha. rewrite Ha.
  reflexivity.
Qed.

(** A resource that is processed overwrites the error: the loop entered
    at an allowed resource, the pcode verdict not yet positive, runs the
    same whatever error the earlier resources left.  So the error that
    [check_location] returns is that of the last resource processed, and
    an earlier failure is forgotten. *)
Theorem earlier_error_forgotten (w : world) (folder : string) (r : resource)
        (rs : list resource) (pcoded latlonged : option bool)
        (error error0 : option string) (s : state) :
  truthy pcoded = false -> allowed r = true ->
  resources_loop w folder (r :: rs) (pcoded, latlonged, error) s
  = resources_loop w folder (r :: rs) (pcoded, latlonged, error0) s.
Proof.
  intros Hp Ha.
  rewrite (@loop_cons w folder r rs (pcoded, latlonged, error) s _ eq_refl).
  rewrite (@loop_cons w folder r rs (pcoded, latlonged, error0) s _ eq_refl).
  now rewrite (@loop_body_forgets w folder r pcoded latlonged error error0 s Hp Ha).
Qed.

(** Witness: the loop entered at [points], with the error of a file that
    could not be read and with none. *)
Lemma earlier_error_forgotten_witness :
  resources_loop catalog "/tmp/id0" [points]
                 (None, None, Some "Unable to read resource lost.csv") start
  = resources_loop catalog "/tmp/id0" [points] (None, None, None) start.
Proof. now apply earlier_error_forgotten. Defined.

(** ** The scratch directory *)















Lemma loop_no_rmtree (w : world) (folder : string) (rs : list resource)
      (v : verdicts) (s : state) :
  Forall (fun e => is_rmtree e = false) (evs (resources_loop w folder rs v s)).
Proof.
  pose proof (in_order_touches (loop_in_order w folder rs v s)) as H.
  rewrite <- H. apply Forall_forall. intros e He. apply filter_In in He.
  destruct He as [_ He]. now destruct e.
Qed.



(** ** The verdicts and the error *)

Lemma prefix_app (a b : string) : String.prefix a (a ++ b) = true.
Proof.
  induction a as [|c a IH]; [now destruct b|].
  cbn [append String.prefix]. destruct (ascii_dec c c); [exact IH | contradiction].
Qed.

Lemma written_prefix (a b : string) :
  String.prefix a (a ++ b) = true -> mem a ["Could not download file ";
                                             "Could not unzip resource ";
                                             "Unable to read resource "] = true ->
  error_ok (Some (a ++ b)) = true.
Proof.
  intros Hp Hm. cbn [error_ok]. unfold written.
  unfold mem in Hm. cbn [existsb] in Hm.
  repeat (apply orb_prop in Hm; destruct Hm as [Hm|Hm]); try discriminate Hm;
    apply String.eqb_eq in Hm; subst a; rewrite Hp; now rewrite ?orb_true_r.
Qed.

Lemma download_resource_message (w : world) (r : resource) (fileext folder : string)
      (s : state) (files : option (list string)) (error : option string) :
  res (download_resource w r fileext folder s) = Ok (files, error) ->
  error_ok error = true.
Proof.
  unfold download_resource.
  destruct (w_download w r folder) as [f|].
  - destruct (w_is_zipfile w f || contains ".zip" (basename f)).
    + rewrite res_mbind. cbn [get_uuid res st].
      destruct (negb (w_extractall w f _)).
      * intros E. cbn [ret res] in E. injection E as <- <-.
        apply (@written_prefix "Could not unzip resource " (res_name r));
          [apply prefix_app | reflexivity].
      * rewrite res_mbind.
        match goal with
        | |- context [res (?m ?s0)] => destruct (res (m s0))
        end; [|discriminate].
        intros E. cbn [ret res] in E. injection E as <- <-. reflexivity.
    + intros E. cbn [ret res] in E. injection E as <- <-. reflexivity.
  - intros E. cbn [ret res] in E. injection E as <- <-.
    apply (@written_prefix "Could not download file " (res_name r));
      [apply prefix_app | reflexivity].
Qed.

Lemma unable_ok (f : string) : error_ok (unable f) = true.
Proof.
  apply (@written_prefix "Unable to read resource " (basename f));
    [apply prefix_app | reflexivity].
Qed.

Lemma then_block_error (f : string) (error : option string)
      (m : M (flow (dict * option string)))
      (k : dict * option string -> M (flow (dict * option string))) (s : state) :
  (forall fl, res (m s) = Ok fl -> block_error f error fl) ->
  (forall data s' fl, res (k (data, error) s') = Ok fl -> block_error f error fl) ->
  forall fl, res (then_block m k s) = Ok fl -> block_error f error fl.
Proof.
  intros Hm Hk fl. rewrite res_then_block.
  destruct (res (m s)) as [[[data e]|[data e]]|] eqn:Em; try discriminate.
  - intros E. inversion E; subst. now apply Hm.
  - specialize (Hm _ eq_refl). cbn in Hm. subst e. apply Hk.
Qed.

Lemma excel_block_error (w : world) (fileext f : string) (data : dict)
      (error : option string) (s : state) (fl : flow (dict * option string)) :
  res (excel_block w fileext f (data, error) s) = Ok fl -> block_error f error fl.
Proof.
  unfold excel_block. destruct (mem fileext ["xlsx"; "xls"]).
  - destruct (w_read_excel w f) as [contents|].
    + rewrite res_mbind.
      destruct (res (store_sheets w fileext contents data s)); [|discriminate].
      intros E. inversion E; subst. reflexivity.
    + intros E. inversion E; subst. reflexivity.
  - intros E. inversion E; subst. reflexivity.
Qed.

Lemma csv_block_error (w : world) (fileext f : string) (data : dict)
      (error : option string) (s : state) (fl : flow (dict * option string)) :
  res (csv_block w fileext f (data, error) s) = Ok fl -> block_error f error fl.
Proof.
  unfold csv_block. destruct (fileext =? "csv")%string.
  - destruct (w_read_csv w f) as [contents|].
    + destruct (parse_tabular contents fileext).
      * rewrite res_mbind. cbn [get_uuid res st ret].
        intros E. inversion E; subst. reflexivity.
      * intros E. inversion E; subst. reflexivity.
    + intros E. inversion E; subst. reflexivity.
  - intros E. inversion E; subst. reflexivity.
Qed.

Lemma vector_block_error (w : world) (fileext f : string) (data : dict)
      (error : option string) (s : state) (fl : flow (dict * option string)) :
  res (vector_block w fileext f (data, error) s) = Ok fl -> block_error f error fl.
Proof.
  unfold vector_block. destruct (mem fileext _).
  - rewrite res_mbind. cbn [get_uuid res st].
    destruct (w_read_file w f None); intros E; inversion E; subst; reflexivity.
  - intros E. inversion E; subst. reflexivity.
Qed.

Lemma layer_block_error (w : world) (fileext f : string) (data : dict)
      (error : option string) (s : state) (fl : flow (dict * option string)) :
  res (layer_block w fileext f (data, error) s) = Ok fl -> block_error f error fl.
Proof.
  unfold layer_block. destruct (mem fileext _).
  - rewrite res_mbind. cbn [get_uuid res st].
    destruct (w_read_file w (dirname f) _); intros E; inversion E; subst; reflexivity.
  - intros E. inversion E; subst. reflexivity.
Qed.

Lemma read_candidate_error (w : world) (fileext f : string) (data : dict)
      (error : option string) (s : state) (data' : dict) (error' : option string) :
  res (read_candidate w fileext f (data, error) s) = Ok (data', error') ->
  error' = error \/ error' = unable f.
Proof.
  unfold read_candidate. rewrite res_mbind.
  match goal with
  | |- context [res (then_block ?m ?k s)] =>
      pose proof (@then_block_error f error m k s) as H;
      destruct (res (then_block m k s)) as [fl|]; [|discriminate]
  end.
  assert (Hfl : block_error f error fl).
  { apply H; [|intros d s' fl'; apply layer_block_error | reflexivity].
    apply then_block_error; [|intros d s' fl'; apply vector_block_error].
    apply then_block_error; [|intros d s' fl'; apply csv_block_error].
    apply excel_block_error. }
  destruct fl as [[d e]|[d e]]; cbn in Hfl; cbn [ret res]; intros E;
    inversion E; subst; auto.
Qed.

Lemma read_loop_error (w : world) (fileext : string) (files : list string)
      (data : dict) (error : option string) (s : state)
      (data' : dict) (error' : option string) :
  error_ok error = true ->
  res (read_loop w fileext files (data, error) s) = Ok (data', error') ->
  error_ok error' = true.
Proof.
  revert data error s. induction files as [|f files IH]; intros data error s He.
  - cbn. intros E. inversion E; subst. exact He.
  - cbn [read_loop]. rewrite res_mbind.
    destruct (res (read_candidate w fileext f (data, error) s)) as [[d e]|] eqn:Ec;
      [|discriminate].
    apply read_candidate_error in Ec. apply IH.
    destruct Ec as [-> | ->]; [exact He | apply unable_ok].
Qed.

Lemma loop_body_error (w : world) (folder : string) (r : resource)
      (pcoded latlonged : option bool) (error : option string) (s : state) :
  error_ok error = true ->
  match res (loop_body w folder r (pcoded, latlonged, error) s) with
  | Ok (Break (_, _, error')) | Ok (Proceed (_, _, error'))
  | Ok (Return (_, _, error')) => error_ok error' = true
  | Raise => True
  end.
Proof.
  intros He. unfold loop_body.
  destruct (truthy pcoded); [exact He|].
  destruct (negb _); [exact He|].
  rewrite res_mbind. cbn [emit res st]. rewrite res_mbind.
  destruct (res (download_resource w r _ folder s)) as [[files error']|] eqn:Ed;
    [|exact I].
  apply download_resource_message in Ed.
  destruct (no_files files); [exact Ed|].
  rewrite res_mbind. cbn [emit res st]. rewrite res_mbind.
  match goal with
  | |- context [res (read_downloaded_data w ?fs ?e ?s0)] =>
      destruct (res (read_downloaded_data w fs e s0)) as [[contents error'']|] eqn:Er
  end; [|exact I].
  apply read_loop_error in Er; [|reflexivity].
  rewrite res_mbind.
  match goal with
  | |- context [res (?m ?s0)] => destruct (res (m s0)) as [p'|]
  end; [|exact I].
  rewrite res_mbind.
  match goal with
  | |- context [res (?m ?s0)] => destruct (res (m s0)) as [l'|]
  end; [|exact I].
  exact Er.
Qed.

Lemma unset_not_truthy (v : option bool) :
  unset_or_true v -> truthy v = false -> v = None.
Proof. intros [-> | ->]; [reflexivity | discriminate]. Qed.

Lemma loop_sound (w : world) (folder : string) (rs : list resource)
      (v : verdicts) (s : state) :
  sound v ->
  match res (resources_loop w folder rs v s) with
  | Ok (Completed v') => sound v'
  | Ok (Returned (pcoded', latlonged', error')) =>
      pcoded' = None /\ unset_or_true latlonged' /\ error_ok error' = true
  | Raise => True
  end.
Proof.
  revert v s. induction rs as [|r rs IH]; intros [[pcoded latlonged] error] s Hv.
  - exact Hv.
  - destruct Hv as [Hp [Hl He]].
    pose proof (@loop_body_ends w folder r pcoded latlonged error s) as Hb.
    pose proof (@loop_body_error w folder r pcoded latlonged error s He) as Hm.
    remember (loop_body w folder r (pcoded, latlonged, error) s) as o eqn:Eo.
    rewrite (@loop_cons w folder r rs (pcoded, latlonged, error) s o (eq_sym Eo)).
    clear Eo.
    destruct Hb; cbn [res st evs app] in *; try exact I.
    + repeat split; assumption.
    + apply IH. repeat split; assumption.
    + repeat split; try assumption. now apply unset_not_truthy.
    + apply IH. repeat split; assumption.
    + apply IH. repeat split; try assumption. now left.
Qed.

Lemma error_ok_unset (error : option string) :
  error_ok error = true -> no_error error = true -> error = None.
Proof.
  destruct error as [msg|]; [|reflexivity]. cbn [error_ok no_error].
  intros H E. apply String.eqb_eq in E. subst msg. discriminate H.
Qed.

Lemma finalize_res (folder : string) (pcoded latlonged : option bool)
      (error : option string) (s : state) (v : verdicts) :
  res (finalize folder (pcoded, latlonged, error) s) = Ok v ->
  v = (if no_error error && negb (truthy pcoded) then Some false else pcoded,
       if no_error error
          && negb (truthy (if no_error error && negb (truthy pcoded)
                           then Some false else pcoded))
          && negb (truthy latlonged)
       then Some false else latlonged,
       error).
Proof.
  unfold finalize. rewrite res_mbind.
  destruct (res (rmtree folder s)); [|discriminate].
  cbn [ret res]. intros E. now inversion E.
Qed.

(** What [check_location] can return.  The error is unset or one of the
    four messages of the code.  A pcode verdict [False] comes with no
    error and a lat/long verdict that is set; a lat/long verdict [False]
    comes with a pcode verdict [False]; and a result with neither a pcode
    verdict nor an error is that of the [return] inside the loop, which
    leaves the scratch directory in place. *)
Theorem check_location_verdicts (w : world) (ds : dataset) (temp_folder : string)
        (s : state) (pcoded latlonged : option bool) (error : option string) :
  res (check_location w ds temp_folder s) = Ok (pcoded, latlonged, error) ->
  error_ok error = true
  /\ (pcoded = Some false -> error = None /\ latlonged <> None)
  /\ (latlonged = Some false -> pcoded = Some false)
  /\ (pcoded = None -> error = None ->
      Forall (fun e => is_rmtree e = false) (evs (check_location w ds temp_folder s))).
Proof.
  destruct (existsb (fun f => mem f allowed_filetypes) (ds_filetypes ds)) eqn:Hgate.
  - rewrite (check_location_run w ds temp_folder s Hgate). cbv zeta.
    destruct (mem _ (dirs s)); [discriminate|].
    match goal with
    | |- context [resources_loop w ?folder ?rs ?v ?s0] =>
        pose proof (@loop_sound w folder rs v s0) as Hs;
        pose proof (@loop_no_rmtree w folder rs v s0) as Hrm;
        destruct (res (resources_loop w folder rs v s0)) as [[[[p l] e]|[[p l] e]]|]
    end; cbn [res st evs]; try discriminate.
    + destruct Hs as [Hp [Hl He]]; [repeat split; (now left) || reflexivity|].
      intros E. apply finalize_res in E. inversion E; subst; clear E.
      destruct (no_error e) eqn:Hn.
      * apply (error_ok_unset _ He) in Hn. subst e.
        destruct Hp as [-> | ->]; destruct Hl as [-> | ->]; cbn;
          repeat split; congruence.
      * assert (e <> None) by (intros ->; discriminate Hn).
        cbn [andb]. destruct Hp as [-> | ->]; destruct Hl as [-> | ->];
          repeat split; congruence.
    + destruct Hs as [Hp [Hl He]]; [repeat split; (now left) || reflexivity|].
      intros E. inversion E; subst; clear E.
      split; [exact He|]. split; [discriminate|]. split.
      * destruct Hl as [-> | ->]; discriminate.
      * intros _ _. constructor; [reflexivity | now rewrite app_nil_r].
  - unfold check_location. rewrite Hgate. cbn [negb ret res].
    intros E. inversion E; subst. repeat split; discriminate.
Qed.

(** Witness: [points] holds coordinates and no pcodes. *)
Lemma check_location_verdicts_witness :
  res (check_location catalog (mkDataset ["csv"] [points]) "/tmp" start)
  = Ok (Some false, Some true, None)
  /\ error_ok (@None string) = true.
Proof.
  split; [vm_compute; reflexivity|].
  refine (proj1 (@check_location_verdicts catalog (mkDataset ["csv"] [points])
                   "/tmp" start (Some false) (Some true) None _)).
  vm_compute. reflexivity.
Defined.

(** ** The calls and the file types *)

(** The events of one pass are about its resource, the file type allows
    each of them, and a lat/long check is made only while the lat/long
    verdict is not positive. *)
Lemma loop_body_events (w : world) (folder : string) (r : resource)
      (pcoded latlonged : option bool) (error : option string) (s : state) :
  Forall (fun e => event_resource e = Some r
                   /\ event_allowed e = true
                   /\ (is_latlong e = true -> truthy latlonged = false))
         (evs (loop_body w folder r (pcoded, latlonged, error) s)).
Proof.
  unfold loop_body.
  destruct (truthy pcoded) eqn:Hp; [constructor|].
  destruct (mem (res_file_type r) allowed_filetypes) eqn:Ha; cbn [negb];
    [|constructor].
  assert (Hd : event_resource (EDownload r) = Some r
               /\ event_allowed (EDownload r) = true
               /\ (is_latlong (EDownload r) = true -> truthy latlonged = false)).
  { repeat split; [exact Ha | discriminate]. }
  assert (Hl : event_resource (ELoad r) = Some r
               /\ event_allowed (ELoad r) = true
               /\ (is_latlong (ELoad r) = true -> truthy latlonged = false)).
  { repeat split; [exact Ha | discriminate]. }
  assert (Hc : forall v, event_resource (EPcoded r v) = Some r
               /\ event_allowed (EPcoded r v) = true
               /\ (is_latlong (EPcoded r v) = true -> truthy latlonged = false)).
  { repeat split; [exact Ha | discriminate]. }
  rewrite mbind_emit.
  rewrite (@mbind_quiet _ _ _ _ s (@quiet_download_resource w r _ folder)).
  match goal with
  | |- context [st (download_resource w r ?e folder s)] =>
      generalize (st (download_resource w r e folder s))
  end.
  intros sd.
  destruct (res (download_resource w r _ folder s)) as [[files error']|];
    cbn [res st evs]; [|now repeat constructor].
  destruct (no_files files); [now repeat constructor|].
  rewrite mbind_emit. cbn [res st evs].
  match goal with
  | |- context [mbind (read_downloaded_data w ?fs ?e) ?k sd] =>
      rewrite (@mbind_quiet _ _ _ k sd (@quiet_read_downloaded_data w fs e));
      generalize (st (read_downloaded_data w fs e sd)); intros sr;
      destruct (res (read_downloaded_data w fs e sd)) as [[contents error'']|]
  end; cbn [res st evs]; [|now repeat constructor].
  cbn [negb]. unfold mbind, lift, emit, ret. cbn [res st evs app].
  destruct (check_pcoded _ _ contents) as [pcoded'|];
    cbn [res st evs app]; [|now repeat constructor].
  destruct (negb (truthy pcoded') && negb (truthy latlonged)
            && mem (res_file_type r) ["csv"; "json"; "xls"; "xlsx"]) eqn:Hll;
    cbn [res st evs app]; [|now repeat constructor].
  apply andb_prop in Hll. destruct Hll as [Hll Hfour].
  apply andb_prop in Hll. destruct Hll as [_ Hlat].
  apply negb_true_iff in Hlat.
  destruct (check_latlong _ _ contents) as [latlonged'|];
    cbn [res st evs app]; [|now repeat constructor].
  constructor; [exact Hd|]. constructor; [exact Hl|].
  constructor; [apply Hc|]. constructor; [|constructor].
  split; [reflexivity|]. split; [exact Hfour | intros _; exact Hlat].
Qed.

Lemma loop_events (w : world) (folder : string) (rs : list resource)
      (v : verdicts) (s : state) :
  Forall (fun e => event_allowed e = true
                   /\ exists r, event_resource e = Some r /\ In r rs)
         (evs (resources_loop w folder rs v s)).
Proof.
  revert v s. induction rs as [|r rs IH]; intros [[pcoded latlonged] error] s;
    [constructor|].
  pose proof (@loop_body_events w folder r pcoded latlonged error s) as Hb.
  assert (Hb' : Forall (fun e => event_allowed e = true
                                 /\ exists r0, event_resource e = Some r0
                                               /\ In r0 (r :: rs))
                       (evs (loop_body w folder r (pcoded, latlonged, error) s))).
  { eapply Forall_impl; [|exact Hb]. intros e [Hr [Ha _]].
    split; [exact Ha|]. exists r. split; [exact Hr | now left]. }
  rewrite (@loop_cons w folder r rs (pcoded, latlonged, error) s _ eq_refl).
  destruct (res (loop_body w folder r (pcoded, latlonged, error) s))
    as [[v'|v'|v']|]; cbn [evs]; rewrite ?app_nil_r; try exact Hb'.
  apply Forall_app. split; [exact Hb'|].
  eapply Forall_impl; [|apply IH]. intros e [Ha [r0 [Hr Hin]]].
  split; [exact Ha|]. exists r0. split; [exact Hr | now right].
Qed.

(** Only resources of the dataset whose file type is allowed are ever
    downloaded, loaded or checked for pcodes, and only those of type
    [csv], [json], [xls] or [xlsx] are checked for coordinates. *)
Theorem events_respect_types (w : world) (ds : dataset) (temp_folder : string)
        (s : state) :
  Forall (fun e => event_allowed e = true
                   /\ match event_resource e with
                      | Some r => In r (ds_resources ds)
                      | None => True
                      end)
         (evs (check_location w ds temp_folder s)).
Proof.
  destruct (check_location_events w ds temp_folder s)
    as [E | [folder [s' [tail [E Htail]]]]]; rewrite E; [constructor|].
  constructor; [now split|]. apply Forall_app. split.
  - eapply Forall_impl; [|apply loop_events]. intros e [Ha [r [Hr Hin]]].
    split; [exact Ha|]. now rewrite Hr.
  - eapply Forall_impl; [|exact Htail]. intros e He.
    unfold touches_resource in He. destruct e; try discriminate He; now split.
Qed.

Lemma loop_latlong_quiet (w : world) (folder : string) (rs : list resource)
      (pcoded latlonged : option bool) (error : option string) (s : state) :
  truthy latlonged = true ->
  Forall (fun e => is_latlong e = false)
         (evs (resources_loop w folder rs (pcoded, latlonged, error) s)).
Proof.
  revert pcoded error s. induction rs as [|r rs IH]; intros pcoded error s Hl;
    [constructor|].
  pose proof (@loop_body_ends w folder r pcoded latlonged error s) as Hb.
  pose proof (@loop_body_events w folder r pcoded latlonged error s) as He.
  remember (loop_body w folder r (pcoded, latlonged, error) s) as o eqn:Eo.
  rewrite (@loop_cons w folder r rs (pcoded, latlonged, error) s o (eq_sym Eo)).
  clear Eo.
  destruct Hb; cbn [res st evs app] in *;
    repeat (constructor; [reflexivity|]); try (now constructor);
    try (now apply IH).
  exfalso.
  repeat match goal with
         | H : Forall _ (_ :: _) |- _ => inversion H; subst; clear H
         end.
  match goal with
  | H : _ /\ _ /\ (is_latlong (ELatLonged _ _) = true -> _) |- _ =>
      destruct H as [_ [_ H]]; specialize (H eq_refl); congruence
  end.
Qed.

Lemma loop_latlong_once (w : world) (folder : string) (rs : list resource)
      (v : verdicts) (s : state) :
  latlong_once (evs (resources_loop w folder rs v s)).
Proof.
  revert v s. induction rs as [|r rs IH]; intros v s; [exact I|].
  body_cases w folder r v s; try exact I; try apply IH.
  destruct Hl' as [-> | ->]; cbn [latlong_once]; [apply IH|].
  now apply loop_latlong_quiet.
Qed.

Lemma latlong_once_then (tr tail : list event) :
  latlong_once tr -> Forall (fun e => is_latlong e = false) tail ->
  latlong_once (tr ++ tail).
Proof.
  intros Htr Htail. induction tr as [|e tr IH]; cbn [app].
  - induction Htail as [|e tail He _ IHt]; [exact I|].
    destruct e as [f|f|r|r|r v|r v]; try discriminate He; exact IHt.
  - destruct e as [f|f|r|r|r v|r [[|]|]]; cbn [latlong_once] in *;
      try (now apply IH).
    apply Forall_app. now split.
Qed.

Lemma latlong_once_split (tr before after : list event) (r : resource) :
  latlong_once tr -> tr = (before ++ ELatLonged r (Some true) :: after)%list ->
  Forall (fun e => is_latlong e = false) after.
Proof.
  revert tr. induction before as [|e before IH]; intros tr Htr ->.
  - exact Htr.
  - cbn [app] in Htr.
    destruct e as [f|f|r'|r'|r' v|r' [[|]|]]; cbn [latlong_once] in Htr;
      try (now apply (IH _ Htr)).
    apply Forall_app in Htr. destruct Htr as [_ Htr].
    now inversion Htr.
Qed.

(** Coordinates are found at most once: after a positive lat/long check
    no resource is checked for coordinates again. *)
Theorem latlong_found_once (w : world) (ds : dataset) (temp_folder : string)
        (s : state) (before after : list event) (r : resource) :
  evs (check_location w ds temp_folder s)
  = (before ++ ELatLonged r (Some true) :: after)%list ->
  Forall (fun e => is_latlong e = false) after.
Proof.
  intros H.
  apply (@latlong_once_split (evs (check_location w ds temp_folder s)) before after r);
    [|exact H]. clear H.
  destruct (check_location_events w ds temp_folder s)
    as [E | [folder [s' [tail [E Htail]]]]]; rewrite E; [exact I|].
  cbn [latlong_once]. apply latlong_once_then; [apply loop_latlong_once|].
  eapply Forall_impl; [|exact Htail]. intros e He. now destruct e.
Qed.

(** Witness: [points] gives the coordinates, [codes] is not checked for
    them. *)
Lemma latlong_found_once_witness :
  Forall (fun e => is_latlong e = false)
         [EDownload codes; ELoad codes; EPcoded codes None; ERmtree "/tmp/id0"].
Proof.
  apply (@latlong_found_once catalog (mkDataset ["csv"] [points; codes]) "/tmp" start
           [EMkdir "/tmp/id0"; EDownload points; ELoad points; EPcoded points None]
           [EDownload codes; ELoad codes; EPcoded codes None; ERmtree "/tmp/id0"]
           points).
  vm_compute. reflexivity.
Defined.

End LoopMore.
